(** * Campus Dabba: checkout, order creation and payment verification

    A shallow embedding of the checkout page ([handlePayment],
    [getCartTotal], [hasCompleteProfile]), of the helpers it imports
    ([toPaise], [initiatePayment]) and of the payment verification route
    ([POST]), with the properties of the order-placement sequence proved
    over it.

    JavaScript numbers are IEEE 754 binary64 values and are modelled by the
    primitive floats of the kernel; strings are byte strings (their UTF-8
    encoding); the hosted database is a record of tables, each a list of
    rows, whose statements answer with an error or with data. *)

From Stdlib Require Import ZArith List String Ascii Bool Lia.
From Stdlib Require Import Floats Uint63.
Import ListNotations.
Local Open Scope string_scope.
Local Open Scope Z_scope.

(** ** Node's [crypto.createHmac("sha256", secret)] *)

Module Crypto.
Local Open Scope list_scope.

(** 32-bit words are integers in [0, 2^32). *)
Definition mask32 : Z := 0xffffffff.
Definition add32 (x y : Z) : Z := Z.land (x + y) mask32.
Definition rotr (n x : Z) : Z :=
  Z.lor (Z.shiftr x n) (Z.land (Z.shiftl x (32 - n)) mask32).
Definition not32 (x : Z) : Z := Z.lxor x mask32.

Definition Ch (x y z : Z) : Z := Z.lxor (Z.land x y) (Z.land (not32 x) z).
Definition Maj (x y z : Z) : Z :=
  Z.lxor (Z.lxor (Z.land x y) (Z.land x z)) (Z.land y z).
Definition bigsigma0 (x : Z) : Z := Z.lxor (Z.lxor (rotr 2 x) (rotr 13 x)) (rotr 22 x).
Definition bigsigma1 (x : Z) : Z := Z.lxor (Z.lxor (rotr 6 x) (rotr 11 x)) (rotr 25 x).
Definition smallsigma0 (x : Z) : Z := Z.lxor (Z.lxor (rotr 7 x) (rotr 18 x)) (Z.shiftr x 3).
Definition smallsigma1 (x : Z) : Z := Z.lxor (Z.lxor (rotr 17 x) (rotr 19 x)) (Z.shiftr x 10).

(** The primes below [bound], by trial division. *)
Definition is_prime (n : Z) : bool :=
  forallb (fun d => negb (n mod Z.of_nat d =? 0)) (seq 2 (Z.to_nat n - 2)).

Definition primes_below (bound : nat) : list Z :=
  filter is_prime (map Z.of_nat (seq 2 (bound - 2))).

(** The integer cube root of [n], for [n] below [2^(3 * bits)]. *)
Fixpoint cube_root (bits : nat) (n r : Z) : Z :=
  match bits with
  | O => r
  | S k =>
      let r' := r + 2 ^ Z.of_nat k in
      cube_root k n (if r' * r' * r' <=? n then r' else r)
  end.

(** The first 32 bits of the fractional parts of the cube roots of the
    first 64 primes, and of the square roots of the first 8 primes. *)
Definition round_constants : list Z :=
  Eval vm_compute in
    map (fun p => Z.land (cube_root 36 (p * 2 ^ 96) 0) mask32) (primes_below 312).

Definition initial_hash : list Z :=
  Eval vm_compute in
    map (fun p => Z.land (Z.sqrt (p * 2 ^ 64)) mask32) (primes_below 20).

(** Big-endian bytes of an integer, [n] of them. *)
Fixpoint be_bytes (n : nat) (x : Z) : list Z :=
  match n with
  | O => []
  | S k => Z.land (Z.shiftr x (8 * Z.of_nat k)) 0xff :: be_bytes k x
  end.

Definition be_word (bs : list Z) : Z :=
  fold_left (fun acc b => Z.lor (Z.shiftl acc 8) b) bs 0.

(** The message followed by the bit 1, zeros, and its length in bits on
    64 bits, a multiple of 64 bytes in all. *)
Definition pad (msg : list Z) : list Z :=
  let len := Z.of_nat (List.length msg) in
  let zeros := Z.to_nat ((55 - len) mod 64) in
  msg ++ 0x80 :: repeat 0 zeros ++ be_bytes 8 (8 * len).

Fixpoint words_of (n : nat) (bs : list Z) : list Z :=
  match n with
  | O => []
  | S k => be_word (firstn 4 bs) :: words_of k (skipn 4 bs)
  end.

(** The message schedule, latest word first. *)
Fixpoint extend (n : nat) (rev_ws : list Z) : list Z :=
  match n with
  | O => rev_ws
  | S k =>
      let w := add32 (add32 (smallsigma1 (nth 1 rev_ws 0)) (nth 6 rev_ws 0))
                     (add32 (smallsigma0 (nth 14 rev_ws 0)) (nth 15 rev_ws 0)) in
      extend k (w :: rev_ws)
  end.

Definition schedule (block : list Z) : list Z :=
  rev (extend 48 (rev (words_of 16 block))).

Record regs : Type :=
  Regs { ra : Z; rb : Z; rc : Z; rd : Z; re : Z; rf : Z; rg : Z; rh : Z }.

Definition step (r : regs) (kw : Z * Z) : regs :=
  let t1 := add32 (add32 (add32 (rh r) (bigsigma1 (re r)))
                         (add32 (Ch (re r) (rf r) (rg r)) (fst kw))) (snd kw) in
  let t2 := add32 (bigsigma0 (ra r)) (Maj (ra r) (rb r) (rc r)) in
  Regs (add32 t1 t2) (ra r) (rb r) (rc r) (add32 (rd r) t1) (re r) (rf r) (rg r).

Definition regs_of (h : list Z) : regs :=
  Regs (nth 0 h 0) (nth 1 h 0) (nth 2 h 0) (nth 3 h 0)
       (nth 4 h 0) (nth 5 h 0) (nth 6 h 0) (nth 7 h 0).

Definition list_of (r : regs) : list Z :=
  [ra r; rb r; rc r; rd r; re r; rf r; rg r; rh r].

Definition compress (h : list Z) (block : list Z) : list Z :=
  let r := fold_left step (combine round_constants (schedule block)) (regs_of h) in
  map (fun p => add32 (fst p) (snd p)) (combine h (list_of r)).

Fixpoint absorb (n : nat) (h : list Z) (bs : list Z) : list Z :=
  match n with
  | O => h
  | S k => absorb k (compress h (firstn 64 bs)) (skipn 64 bs)
  end.

Definition sha256 (msg : list Z) : list Z :=
  let p := pad msg in
  flat_map (be_bytes 4) (absorb (List.length p / 64) initial_hash p).

(** HMAC (RFC 2104) with a block of 64 bytes. *)
Definition hmac_sha256 (key msg : list Z) : list Z :=
  let k0 := if (64 <? Z.of_nat (List.length key)) then sha256 key else key in
  let k := k0 ++ repeat 0 (64 - List.length k0) in
  sha256 (map (Z.lxor 0x5c) k ++ sha256 (map (Z.lxor 0x36) k ++ msg)).

Definition bytes_of_string (s : string) : list Z :=
  map (fun c => Z.of_nat (nat_of_ascii c)) (list_ascii_of_string s).

Definition hex_digit (n : Z) : ascii :=
  if n <? 10 then ascii_of_nat (Z.to_nat (48 + n)) else ascii_of_nat (Z.to_nat (87 + n)).

Fixpoint hex (bs : list Z) : string :=
  match bs with
  | [] => EmptyString
  | b :: rest => String (hex_digit (Z.shiftr b 4)) (String (hex_digit (Z.land b 0xf)) (hex rest))
  end.

(** [crypto.createHmac("sha256", secret).update(data).digest("hex")] *)
Definition createHmac_sha256_hex (secret data : string) : string :=
  hex (hmac_sha256 (bytes_of_string secret) (bytes_of_string data)).

End Crypto.

(** ** The JavaScript operations the sources use *)

Module JS.

(** [!!s] for a string: only the empty string is falsy. *)
Definition truthy (s : string) : bool := negb (String.eqb s "").

(** A property that may be absent ([undefined] or [null]). *)
Definition truthy_opt (o : option string) : bool :=
  match o with
  | Some s => truthy s
  | None => false
  end.

(** A value inside a template literal. *)
Definition template (o : option string) : string :=
  match o with
  | Some s => s
  | None => "undefined"
  end.

Definition is_space (c : ascii) : bool :=
  let n := nat_of_ascii c in
  ((9 <=? n)%nat && (n <=? 13)%nat) || (n =? 32)%nat.

Fixpoint trimStart (s : string) : string :=
  match s with
  | EmptyString => EmptyString
  | String c rest => if is_space c then trimStart rest else s
  end.

Definition reverse (s : string) : string :=
  string_of_list_ascii (rev (list_ascii_of_string s)).

(** [s.trim()] *)
Definition trim (s : string) : string :=
  reverse (trimStart (reverse (trimStart s))).

(** [Math.round]: the nearest integer, a tie going up; zeros, infinities
    and NaN are returned as they are. *)
Definition Math_round (x : float) : float :=
  match Prim2SF x with
  | S754_finite s m e =>
      if 0 <=? e then x
      else
        let n := if s then Z.neg m else Z.pos m in
        let r := (2 * n + 2 ^ (- e)) / 2 ^ (1 - e) in
        if r =? 0 then (if s then (-0)%float else 0%float)
        else if r <? 0 then PrimFloat.opp (PrimFloat.of_uint63 (Uint63.of_Z (- r)))
        else PrimFloat.of_uint63 (Uint63.of_Z r)
  | _ => x
  end.

(** What a [throw] carries: an [Error] with its message, or another value. *)
Inductive exn : Type :=
| Error (message : string)
| NotAnError.

(** [e instanceof Error ? e.message : fallback] *)
Definition message_or (e : exn) (fallback : string) : string :=
  match e with
  | Error m => m
  | NotAnError => fallback
  end.

End JS.

(** [lib/utils]: convert price to paise for Razorpay (multiply by 100). *)
Definition toPaise (rupees : float) : float :=
  JS.Math_round (rupees * 100)%float.


(** ** Data *)

(** An instant, in milliseconds since the epoch ([new Date()]). *)
Definition timestamp : Type := Z.

Module CartItem.
Record t : Type := Build
  { id : string;
    item_name : string;
    quantity : float;
    price : float;
    cook_id : string }.
End CartItem.

(** The [address] blob of a user: any key may be absent. *)
Module Address.
Record t : Type := Build
  { street : option string;
    city : option string;
    state : option string;
    pincode : option string }.
End Address.

(** [combinedUserData]: every scalar was defaulted to the empty string. *)
Module UserData.
Record t : Type := Build
  { id : string;
    email : string;
    first_name : string;
    last_name : string;
    phone : string;
    address : Address.t }.
End UserData.

(** A row of [orders]. *)
Module Order.
Record t : Type := Build
  { id : string;
    user_id : string;
    cook_id : string;
    status : string;
    total : float;
    payment_method : string;
    payment_status : string;
    payment_id : option string;
    delivery_address : Address.t;
    created_at : timestamp;
    updated_at : timestamp }.
End Order.

(** A row of [order_items]. *)
Module OrderItem.
Record t : Type := Build
  { order_id : string;
    menu_id : string;
    quantity : float;
    price_at_time : float }.
End OrderItem.

(** A row of [cook_payments]: the spec's Payable. *)
Module CookPayment.
Record t : Type := Build
  { cook_id : string;
    order_id : string;
    amount : float;
    status : string;
    created_at : timestamp }.
End CookPayment.

Record Database : Type := MkDatabase
  { orders : list Order.t;
    order_items : list OrderItem.t;
    cook_payments : list CookPayment.t }.

(** The object given to [.from("orders").insert(...)]. *)
Module OrderData.
Record t : Type := Build
  { user_id : string;
    cook_id : string;
    status : string;
    total : float;
    payment_method : string;
    payment_status : string;
    delivery_address : Address.t;
    created_at : timestamp }.
End OrderData.

(** The object given to [.from("orders").update(...)]: a column that is not
    named keeps its value. *)
Module OrderPatch.
Record t : Type := Build
  { status : option string;
    payment_status : option string;
    payment_id : option string;
    updated_at : option timestamp }.
End OrderPatch.

(** The object given to [.from("cook_payments").insert(...)]; [created_at]
    has the default [now()]. *)
Module CookPaymentData.
Record t : Type := Build
  { cook_id : string;
    order_id : string;
    amount : float;
    status : string;
    created_at : option timestamp }.
End CookPaymentData.

(** The options [initiatePayment] is called with (the constant ones, name,
    image and theme, are left out). *)
Module PaymentParams.
Record t : Type := Build
  { amount : float;
    currency : string;
    description : string;
    prefill_name : string;
    prefill_email : string;
    prefill_contact : string;
    notes_order_id : string;
    notes_address : string }.
End PaymentParams.

(** What the gateway hands to [handler]. *)
Module RazorpayResponse.
Record t : Type := Build
  { razorpay_payment_id : option string;
    razorpay_order_id : option string;
    razorpay_signature : option string }.
End RazorpayResponse.

(** How the checkout widget ends. *)
Inductive GatewayOutcome : Type :=
| handler (response : RazorpayResponse.t)
| ondismiss
| widget_throws (e : JS.exn)
| no_answer.

(** The statements the two sources send to the backend, by place. *)
Inductive Stmt : Type :=
| orders_insert
| order_items_insert
| orders_delete
| cooks_select
| orders_update_paid
| cook_payments_insert
| orders_update_failed
| orders_select.

(** A statement with what it carries. *)
Inductive Query : Type :=
| InsertOrder (data : OrderData.t)
| InsertOrderItems (rows : list OrderItem.t)
| DeleteOrder (id : string)
| SelectCook (cook_id : string)
| UpdateOrder (patch : OrderPatch.t) (id : string)
| InsertCookPayment (data : CookPaymentData.t)
| SelectOrder (id : string).

(** What is observable of a run besides the tables. *)
Inductive Event : Type :=
| sent (q : Query)
| console_error (label : string)
| toast (title description : string) (destructive : bool)
| router_push (path : string)
| razorpay_open (options : PaymentParams.t).

(** The state of the checkout page (React state and the cart provider). *)
Record PageState : Type := MkPage
  { isLoggedIn : bool;
    userData : option UserData.t;
    processingPayment : bool;
    razorpayLoaded : bool;
    paymentMethod : string;
    cart : list CartItem.t }.

Record World : Type := MkWorld
  { db : Database;
    page : PageState;
    log : list Event }.

(** What the outside answers during one run. *)
Record Env : Type := MkEnv
  { now : timestamp;
    session : option string;
    generated_id : string;
    db_error : Stmt -> option string;
    gateway : GatewayOutcome;
    RAZORPAY_KEY_SECRET : option string }.

(** ** Effects: state, exceptions, and a promise that never settles *)

Inductive Outcome (A : Type) : Type :=
| Returned (a : A)
| Thrown (e : JS.exn)
| Suspended.
Arguments Returned {A} a.
Arguments Thrown {A} e.
Arguments Suspended {A}.

Definition M (A : Type) : Type := World -> Outcome A * World.

Definition ret {A : Type} (a : A) : M A := fun w => (Returned a, w).

Definition bind {A B : Type} (m : M A) (k : A -> M B) : M B :=
  fun w =>
    match m w with
    | (Returned a, w') => k a w'
    | (Thrown e, w') => (Thrown e, w')
    | (Suspended, w') => (Suspended, w')
    end.

Definition throw {A : Type} (e : JS.exn) : M A := fun w => (Thrown e, w).

Definition suspend {A : Type} : M A := fun w => (Suspended, w).

(** [try { m } catch (e) { h e }] *)
Definition try_catch {A : Type} (m : M A) (h : JS.exn -> M A) : M A :=
  fun w =>
    match m w with
    | (Thrown e, w') => h e w'
    | r => r
    end.

(** [try { m } finally { f }] *)
Definition try_finally {A : Type} (m : M A) (f : M unit) : M A :=
  fun w =>
    match m w with
    | (Suspended, w') => (Suspended, w')
    | (r, w') =>
        match f w' with
        | (Returned _, w'') => (r, w'')
        | (Thrown e, w'') => (Thrown e, w'')
        | (Suspended, w'') => (Suspended, w'')
        end
    end.

Declare Scope js_scope.
Delimit Scope js_scope with js.
Notation "x <- m ;; k" := (bind m (fun x => k))
  (at level 61, m at next level, right associativity) : js_scope.
Notation "m ;; k" := (bind m (fun _ => k))
  (at level 61, right associativity) : js_scope.
Local Open Scope js_scope.

Definition emit (e : Event) : M unit :=
  fun w => (Returned tt, MkWorld (db w) (page w) (log w ++ [e])%list).

Definition set_db (d : Database) : M unit :=
  fun w => (Returned tt, MkWorld d (page w) (log w)).

Definition get_db : M Database := fun w => (Returned (db w), w).

Definition setProcessingPayment (b : bool) : M unit :=
  fun w =>
    let p := page w in
    (Returned tt,
     MkWorld (db w)
       (MkPage (isLoggedIn p) (userData p) b (razorpayLoaded p) (paymentMethod p) (cart p))
       (log w)).

Definition clearCart : M unit :=
  fun w =>
    let p := page w in
    (Returned tt,
     MkWorld (db w)
       (MkPage (isLoggedIn p) (userData p) (processingPayment p) (razorpayLoaded p)
          (paymentMethod p) [])
       (log w)).

(** ** The backend: what each statement does to the tables *)

(** [{ data, error }] of a statement that returns a row. *)
Inductive Answer (A : Type) : Type :=
| data (row : A)
| error (message : string).
Arguments data {A} row.
Arguments error {A} message.

Definition has_id (id : string) (o : Order.t) : bool := String.eqb (Order.id o) id.

(** [.update(patch)] on one row. *)
Definition apply_patch (p : OrderPatch.t) (o : Order.t) : Order.t :=
  Order.Build (Order.id o) (Order.user_id o) (Order.cook_id o)
    (match OrderPatch.status p with Some s => s | None => Order.status o end)
    (Order.total o) (Order.payment_method o)
    (match OrderPatch.payment_status p with Some s => s | None => Order.payment_status o end)
    (match OrderPatch.payment_id p with Some s => Some s | None => Order.payment_id o end)
    (Order.delivery_address o) (Order.created_at o)
    (match OrderPatch.updated_at p with Some t => t | None => Order.updated_at o end).

Section Backend.

Variable env : Env.

(** The row an insert into [orders] makes: it gets a generated id;
    [payment_id] is null and [updated_at] the present. *)
Definition inserted_order (d : OrderData.t) : Order.t :=
  Order.Build (generated_id env) (OrderData.user_id d) (OrderData.cook_id d)
    (OrderData.status d) (OrderData.total d) (OrderData.payment_method d)
    (OrderData.payment_status d) None (OrderData.delivery_address d)
    (OrderData.created_at d) (now env).

(** [.from("orders").insert(orderData).select().single()] *)
Definition orders_insert_select_single (d : OrderData.t) : M (Answer Order.t) :=
  emit (sent (InsertOrder d)) ;;
  match db_error env orders_insert with
  | Some e => ret (error e)
  | None =>
      let row := inserted_order d in
      d0 <- get_db ;;
      set_db (MkDatabase (orders d0 ++ [row])%list (order_items d0) (cook_payments d0)) ;;
      ret (data row)
  end.

(** [.from("order_items").insert(orderItems)]: all the rows or none. *)
Definition order_items_insert_rows (rows : list OrderItem.t) : M (option string) :=
  emit (sent (InsertOrderItems rows)) ;;
  match db_error env order_items_insert with
  | Some e => ret (Some e)
  | None =>
      d0 <- get_db ;;
      set_db (MkDatabase (orders d0) (order_items d0 ++ rows)%list (cook_payments d0)) ;;
      ret None
  end.

(** [.from("orders").delete().eq("id", id)] *)
Definition orders_delete_eq_id (id : string) : M (option string) :=
  emit (sent (DeleteOrder id)) ;;
  match db_error env orders_delete with
  | Some e => ret (Some e)
  | None =>
      d0 <- get_db ;;
      set_db (MkDatabase (filter (fun o => negb (has_id id o)) (orders d0))
                (order_items d0) (cook_payments d0)) ;;
      ret None
  end.

(** [.from("orders").update(patch).eq("id", id)], at the place [at_]. *)
Definition orders_update_eq_id (at_ : Stmt) (p : OrderPatch.t) (id : string)
  : M (option string) :=
  emit (sent (UpdateOrder p id)) ;;
  match db_error env at_ with
  | Some e => ret (Some e)
  | None =>
      d0 <- get_db ;;
      set_db (MkDatabase
                (map (fun o => if has_id id o then apply_patch p o else o) (orders d0))
                (order_items d0) (cook_payments d0)) ;;
      ret None
  end.

(** [.from("orders").select("cook_id, total").eq("id", id).single()]: an
    error unless exactly one row has the id. *)
Definition orders_select_single (id : string) : M (Answer Order.t) :=
  emit (sent (SelectOrder id)) ;;
  match db_error env orders_select with
  | Some e => ret (error e)
  | None =>
      d0 <- get_db ;;
      match filter (has_id id) (orders d0) with
      | [o] => ret (data o)
      | _ => ret (error "JSON object requested, multiple (or no) rows returned")
      end
  end.

(** [.from("cooks").select("first_name, last_name").eq("cook_id", id).single()]:
    its answer only feeds [cookName], which nothing reads. *)
Definition cooks_select_single (cook_id : string) : M unit :=
  emit (sent (SelectCook cook_id)).

(** The row an insert into [cook_payments] makes. *)
Definition inserted_cook_payment (d : CookPaymentData.t) : CookPayment.t :=
  CookPayment.Build (CookPaymentData.cook_id d) (CookPaymentData.order_id d)
    (CookPaymentData.amount d) (CookPaymentData.status d)
    (match CookPaymentData.created_at d with Some t => t | None => now env end).

(** [.from("cook_payments").insert(row)] *)
Definition cook_payments_insert_row (d : CookPaymentData.t) : M (option string) :=
  emit (sent (InsertCookPayment d)) ;;
  match db_error env cook_payments_insert with
  | Some e => ret (Some e)
  | None =>
      let row := inserted_cook_payment d in
      d0 <- get_db ;;
      set_db (MkDatabase (orders d0) (order_items d0) (cook_payments d0 ++ [row])%list) ;;
      ret None
  end.

(** [supabase.auth.getSession()]: the id of the signed-in user. *)
Definition auth_getSession : M (option string) := ret (session env).

(** [lib/razorpay]: resolves with what the widget hands to [handler],
    rejects when the widget is dismissed or cannot be built. *)
Definition initiatePayment (options : PaymentParams.t) : M RazorpayResponse.t :=
  match gateway env with
  | widget_throws e => throw e
  | handler response => emit (razorpay_open options) ;; ret response
  | ondismiss => emit (razorpay_open options) ;; throw (JS.Error "Payment cancelled by user")
  | no_answer => emit (razorpay_open options) ;; suspend
  end.

End Backend.

(** ** The checkout page *)

#[local] Set Warnings "-inexact-float".

(** Helper function to calculate the total price of all items in the cart. *)
Definition getCartTotal (cart : list CartItem.t) : float :=
  fold_left (fun total item => (total + CartItem.price item * CartItem.quantity item)%float)
    cart 0%float.

(** [/^[0-9a-f]{8}-[0-9a-f]{4}-[0-9a-f]{4}-[0-9a-f]{4}-[0-9a-f]{12}$/i] *)
Module MenuId.

Definition is_hex (c : ascii) : bool :=
  let n := nat_of_ascii c in
  ((48 <=? n) && (n <=? 57) || (97 <=? n) && (n <=? 102) || (65 <=? n) && (n <=? 70))%nat.

(** [n] hexadecimal digits, then the rest. *)
Fixpoint hex_run (n : nat) (s : string) : option string :=
  match n, s with
  | O, _ => Some s
  | S k, String c rest => if is_hex c then hex_run k rest else None
  | S _, EmptyString => None
  end.

Definition hyphen (s : string) : option string :=
  match s with
  | String c rest => if Ascii.eqb c "-" then Some rest else None
  | EmptyString => None
  end.

Definition and_then (o : option string) (f : string -> option string) : option string :=
  match o with
  | Some s => f s
  | None => None
  end.

Definition matches (s : string) : bool :=
  match
    and_then (and_then (and_then (and_then (and_then (and_then (and_then (and_then
      (hex_run 8 s) hyphen) (hex_run 4)) hyphen) (hex_run 4)) hyphen) (hex_run 4))
      hyphen) (hex_run 12)
  with
  | Some EmptyString => true
  | _ => false
  end.

(** The filter of [invalidItems]: [!item.id || !item.id.match(...)]. *)
Definition invalid (item : CartItem.t) : bool :=
  negb (JS.truthy (CartItem.id item)) || negb (matches (CartItem.id item)).

End MenuId.

Section Checkout.

Variable env : Env.

Definition address_line (a : Address.t) : string :=
  (JS.template (Address.street a) ++ ", " ++ JS.template (Address.city a) ++ ", "
   ++ JS.template (Address.state a) ++ " " ++ JS.template (Address.pincode a))%string.

(** [const orderData = {...}] *)
Definition orderData (st : PageState) (userData : UserData.t) (user : string)
    (first : CartItem.t) : OrderData.t :=
  OrderData.Build user (CartItem.cook_id first) "pending"
    (getCartTotal (cart st) * 1.18)%float (paymentMethod st) "pending"
    (UserData.address userData) (now env).

(** [const orderItems = cart.map(...)] *)
Definition orderItems (order : Order.t) (cart : list CartItem.t) : list OrderItem.t :=
  map (fun item =>
         OrderItem.Build (Order.id order) (JS.trim (CartItem.id item))
           (CartItem.quantity item) (CartItem.price item))
    cart.

(** The options of the call of [initiatePayment]. *)
Definition paymentOptions (userData : UserData.t) (order : Order.t) (totalAmount : float)
  : PaymentParams.t :=
  PaymentParams.Build (toPaise totalAmount) "INR"
    ("Payment for order #" ++ substring 0 8 (Order.id order))%string
    (UserData.first_name userData ++ " " ++ UserData.last_name userData)%string
    (UserData.email userData) (UserData.phone userData)
    (Order.id order) (address_line (UserData.address userData)).

(** The update after the widget reported success. *)
Definition paid (paymentResponse : RazorpayResponse.t) : OrderPatch.t :=
  OrderPatch.Build (Some "paid") (Some "paid")
    (RazorpayResponse.razorpay_payment_id paymentResponse) (Some (now env)).

(** The update of the [catch] of the online branch. *)
Definition payment_failed : OrderPatch.t :=
  OrderPatch.Build (Some "payment_failed") (Some "failed") None (Some (now env)).

(** The row added to cook payments by the page. *)
Definition cookPaymentOf (first : CartItem.t) (order : Order.t) (totalAmount : float)
  : CookPaymentData.t :=
  CookPaymentData.Build (CartItem.cook_id first) (Order.id order) totalAmount "pending"
    (Some (now env)).

(** The online branch, after the order and its items were written. *)
Definition payOnline (st : PageState) (userData : UserData.t) (first : CartItem.t)
    (order : Order.t) : M unit :=
  try_catch
    (cooks_select_single (CartItem.cook_id first) ;;
     let totalAmount := (getCartTotal (cart st) * 1.18)%float in
     paymentResponse <- initiatePayment env (paymentOptions userData order totalAmount) ;;
     updateError <-
       orders_update_eq_id env orders_update_paid (paid paymentResponse) (Order.id order) ;;
     match updateError with
     | Some _ => emit (console_error "Order update error:")
     | None => ret tt
     end ;;
     paymentError <-
       cook_payments_insert_row env (cookPaymentOf first order totalAmount) ;;
     match paymentError with
     | Some _ => emit (console_error "Payment record error:")
     | None => ret tt
     end ;;
     clearCart ;;
     emit (toast "Payment successful!" "Your order has been placed and payment received." false) ;;
     emit (router_push ("/orders/" ++ Order.id order)%string))
    (fun paymentError =>
       emit (console_error "Razorpay error:") ;;
       orders_update_eq_id env orders_update_failed payment_failed (Order.id order) ;;
       throw (JS.Error ("Payment failed: " ++ JS.message_or paymentError "Unknown payment error")%string)).

(** The body of the outer [try] of [handlePayment]. *)
Definition placeOrder (st : PageState) (userData : UserData.t) : M unit :=
  setProcessingPayment true ;;
  session <- auth_getSession env ;;
  match session with
  | None => throw (JS.Error "Authentication required")
  | Some user =>
  if negb (JS.truthy (UserData.first_name userData))
     || negb (JS.truthy (UserData.last_name userData))
  then throw (JS.Error "Please complete your profile with your name before checkout")
  else
  if negb (JS.truthy_opt (Address.street (UserData.address userData)))
     || negb (JS.truthy_opt (Address.city (UserData.address userData)))
     || negb (JS.truthy_opt (Address.state (UserData.address userData)))
     || negb (JS.truthy_opt (Address.pincode (UserData.address userData)))
  then throw (JS.Error "Please add a complete delivery address to your profile")
  else
  if (List.length (cart st) =? 0)%nat
  then throw (JS.Error "Cart is empty")
  else
  let invalidItems := filter MenuId.invalid (cart st) in
  if (0 <? List.length invalidItems)%nat
  then emit (console_error "Invalid menu items:") ;;
       throw (JS.Error "Invalid menu items in cart")
  else
  match cart st with
  | [] => throw (JS.Error "Cannot read properties of undefined (reading 'cook_id')")
  | first :: _ =>
  created <- orders_insert_select_single env (orderData st userData user first) ;;
  match created with
  | error orderError =>
      emit (console_error "Order creation error:") ;;
      throw (JS.Error ("Failed to create order: " ++ orderError)%string)
  | data order =>
  itemsError <- order_items_insert_rows env (orderItems order (cart st)) ;;
  match itemsError with
  | Some message =>
      emit (console_error "Order items error:") ;;
      orders_delete_eq_id env (Order.id order) ;;
      throw (JS.Error ("Failed to add items to order: " ++ message)%string)
  | None =>
  if String.eqb (paymentMethod st) "cash"
  then
    clearCart ;;
    emit (toast "Order placed successfully!"
            "Your order has been placed with cash on delivery." false) ;;
    emit (router_push ("/orders/" ++ Order.id order)%string)
  else
  if String.eqb (paymentMethod st) "online" && razorpayLoaded st
  then payOnline st userData first order
  else ret tt
  end end end end.

(** [handlePayment], run with the state [st] of the render it belongs to. *)
Definition handlePayment (st : PageState) : M unit :=
  match isLoggedIn st, userData st with
  | true, Some userData =>
      try_finally
        (try_catch (placeOrder st userData)
           (fun error =>
              emit (console_error "Payment process error:") ;;
              emit (toast "Payment failed"
                      (JS.message_or error
                         "There was a problem processing your payment. Please try again.")
                      true)))
        (setProcessingPayment false)
  | _, _ =>
      emit (toast "Please log in" "You need to be logged in to complete your purchase." true)
  end.

End Checkout.

(** Function to check if we have complete profile info. *)
Definition hasCompleteProfile (st : PageState) : bool :=
  match userData st with
  | None => false
  | Some userData =>
      JS.truthy (UserData.first_name userData)
      && JS.truthy (UserData.last_name userData)
      && JS.truthy (UserData.email userData)
      && JS.truthy (UserData.phone userData)
      && JS.truthy_opt (Address.street (UserData.address userData))
      && JS.truthy_opt (Address.city (UserData.address userData))
      && JS.truthy_opt (Address.state (UserData.address userData))
      && JS.truthy_opt (Address.pincode (UserData.address userData))
  end.

Definition is_some {A : Type} (o : option A) : bool :=
  match o with
  | Some _ => true
  | None => false
  end.

(** The [disabled] attribute of the checkout button. *)
Definition checkoutDisabled (st : PageState) : bool :=
  negb (isLoggedIn st)
  || processingPayment st
  || negb (is_some (userData st))
  || negb (hasCompleteProfile st)
  || (String.eqb (paymentMethod st) "online" && negb (razorpayLoaded st)).

(** Whether the alert titled "Incomplete Profile" is rendered. *)
Definition incompleteProfileAlert (st : PageState) : bool :=
  isLoggedIn st && is_some (userData st) && negb (hasCompleteProfile st).

(** A click on the checkout button: a disabled button runs no handler. *)
Definition onClick (env : Env) : M unit :=
  fun w => if checkoutDisabled (page w) then (Returned tt, w) else handlePayment env (page w) w.

(** ** The payment verification route *)

(** The JSON body of the request; a field may be absent. *)
Module VerifyBody.
Record t : Type := Build
  { razorpay_payment_id : option string;
    razorpay_order_id : option string;
    razorpay_signature : option string;
    order_db_id : option string }.
End VerifyBody.

(** [await request.json()] *)
Inductive RequestJson : Type :=
| parsed (body : VerifyBody.t)
| rejects (e : JS.exn).

Inductive Json : Type :=
| error_json (error : string)
| success_json (success : bool) (payment_id order_id : option string).

(** [NextResponse.json(body, { status })] *)
Record Response : Type := MkResponse
  { status : Z;
    body : Json }.

(** [digest !== signature] *)
Definition strict_neq (digest : string) (signature : option string) : bool :=
  match signature with
  | Some s => negb (String.eqb digest s)
  | None => true
  end.

Section Verify.

Variable env : Env.

(** [process.env.RAZORPAY_KEY_SECRET || ""] *)
Definition secret : string :=
  match RAZORPAY_KEY_SECRET env with
  | Some s => if JS.truthy s then s else ""
  | None => ""
  end.

(** The signature to verify the payment with. *)
Definition digest (b : VerifyBody.t) : string :=
  Crypto.createHmac_sha256_hex secret
    (JS.template (VerifyBody.razorpay_order_id b) ++ "|"
     ++ JS.template (VerifyBody.razorpay_payment_id b))%string.

(** The patch of the route: [payment_status] is not named. *)
Definition paidPatch (b : VerifyBody.t) : OrderPatch.t :=
  OrderPatch.Build (Some "paid") None (VerifyBody.razorpay_payment_id b) (Some (now env)).

(** The Payable of the route for the fetched order. *)
Definition cookPayment (orderData : Order.t) (order_db_id : string) : CookPaymentData.t :=
  CookPaymentData.Build (Order.cook_id orderData) order_db_id (Order.total orderData)
    "pending" None.

(** If we have an order ID in our database, update it. *)
Definition updateOrder (b : VerifyBody.t) : M unit :=
  if JS.truthy_opt (VerifyBody.order_db_id b)
  then
    let order_db_id := JS.template (VerifyBody.order_db_id b) in
    orderError <- orders_update_eq_id env orders_update_paid (paidPatch b) order_db_id ;;
    match orderError with
    | Some _ => emit (console_error "Error updating order:")
    | None => ret tt
    end ;;
    fetched <- orders_select_single env order_db_id ;;
    match fetched with
    | data orderData =>
        cookPaymentError <- cook_payments_insert_row env (cookPayment orderData order_db_id) ;;
        match cookPaymentError with
        | Some _ => emit (console_error "Error creating cook payment:")
        | None => ret tt
        end
    | error _ => ret tt
    end
  else ret tt.

Definition POST (request : RequestJson) : M Response :=
  try_catch
    (match request with
     | rejects e => throw e
     | parsed b =>
     if negb (JS.truthy_opt (VerifyBody.razorpay_payment_id b))
        || negb (JS.truthy_opt (VerifyBody.razorpay_order_id b))
        || negb (JS.truthy_opt (VerifyBody.razorpay_signature b))
     then ret (MkResponse 400 (error_json "Payment verification failed: Missing parameters"))
     else
     if strict_neq (digest b) (VerifyBody.razorpay_signature b)
     then ret (MkResponse 400 (error_json "Payment verification failed: Invalid signature"))
     else
       updateOrder b ;;
       ret (MkResponse 200
              (success_json true (VerifyBody.razorpay_payment_id b)
                 (VerifyBody.razorpay_order_id b)))
     end)
    (fun e =>
       emit (console_error "Error verifying payment:") ;;
       ret (MkResponse 500
              (error_json
                 (if JS.truthy (JS.message_or e "") then JS.message_or e ""
                  else "Payment verification failed")))).

End Verify.

(** ** What the spec says, for comparison *)

Module Spec.

(** [round(x, 2)]: the nearest multiple of one hundredth. *)
Definition round2 (x : float) : float :=
  (JS.Math_round (x * 100) / 100)%float.

(** [total == round(subtotal × 1.18, 2)] *)
Definition total (cart : list CartItem.t) : float :=
  round2 (getCartTotal cart * 1.18)%float.

(** The profile fields the spec lists are all filled in. *)
Definition complete_profile (u : UserData.t) : bool :=
  JS.truthy (UserData.first_name u)
  && JS.truthy (UserData.last_name u)
  && JS.truthy (UserData.phone u)
  && JS.truthy_opt (Address.street (UserData.address u))
  && JS.truthy_opt (Address.city (UserData.address u))
  && JS.truthy_opt (Address.state (UserData.address u))
  && JS.truthy_opt (Address.pincode (UserData.address u)).

(** The callback carries its three fields and the signature is the HMAC
    of [order_id|payment_id] under the secret of the server. *)
Definition verifies (env : Env) (b : VerifyBody.t) : bool :=
  JS.truthy_opt (VerifyBody.razorpay_payment_id b)
  && JS.truthy_opt (VerifyBody.razorpay_order_id b)
  && JS.truthy_opt (VerifyBody.razorpay_signature b)
  && negb (strict_neq (digest env b) (VerifyBody.razorpay_signature b)).

(** The callback the widget's response would make for the order [id]. *)
Definition callback (r : RazorpayResponse.t) (id : string) : VerifyBody.t :=
  VerifyBody.Build (RazorpayResponse.razorpay_payment_id r)
    (RazorpayResponse.razorpay_order_id r) (RazorpayResponse.razorpay_signature r)
    (Some id).

(** The number of Payables of an order. *)
Definition payables (id : string) (d : Database) : nat :=
  List.length (filter (fun p => String.eqb (CookPayment.order_id p) id) (cook_payments d)).

End Spec.

(** ** The checks of [handlePayment], as one condition each *)

(** The name and address checks. *)
Definition profile_checks (u : UserData.t) : bool :=
  JS.truthy (UserData.first_name u)
  && JS.truthy (UserData.last_name u)
  && JS.truthy_opt (Address.street (UserData.address u))
  && JS.truthy_opt (Address.city (UserData.address u))
  && JS.truthy_opt (Address.state (UserData.address u))
  && JS.truthy_opt (Address.pincode (UserData.address u)).

(** No item of the cart is in [invalidItems]. *)
Definition cart_checks (items : list CartItem.t) : bool :=
  forallb (fun item => negb (MenuId.invalid item)) items.

(** No character of the string is white space. *)
Fixpoint no_space (s : string) : bool :=
  match s with
  | EmptyString => true
  | String c rest => negb (JS.is_space c) && no_space rest
  end.

(** Every check that [handlePayment] makes before it writes. *)
Definition preconditions (env : Env) (st : PageState) : bool :=
  isLoggedIn st
  && match userData st with
     | Some u =>
         is_some (session env) && profile_checks u
         && negb (List.length (cart st) =? 0)%nat && cart_checks (cart st)
     | None => false
     end.

(** No event of the list is a statement sent to the backend. *)
Definition nothing_sent (events : list Event) : Prop :=
  forall q, ~ In (sent q) events.

(** No statement is answered with an error. *)
Definition accepting (env : Env) : Prop := forall s, db_error env s = None.

(** The order row a checkout writes, and its lines. *)
Definition the_order (env : Env) (st : PageState) (u : UserData.t) (user : string)
    (first : CartItem.t) : Order.t :=
  inserted_order env (orderData env st u user first).

Definition the_items (env : Env) (st : PageState) (u : UserData.t) (user : string)
    (first : CartItem.t) : list OrderItem.t :=
  orderItems (the_order env st u user first) (cart st).

(** The page after a run: the spinner is off, the cart is [items]. *)
Definition page_after (p : PageState) (items : list CartItem.t) : PageState :=
  MkPage (isLoggedIn p) (userData p) false (razorpayLoaded p) (paymentMethod p) items.

(** ** Sample data: the scenarios of the spec *)

Module Sample.

Definition address : Address.t :=
  Address.Build (Some "12 Hostel Road") (Some "Pune") (Some "MH") (Some "411001").

Definition student : UserData.t :=
  UserData.Build "user-1" "asha@example.org" "Asha" "Rao" "9876543210" address.

(** The student of the scenarios, with no phone number. *)
Definition student_without_phone : UserData.t :=
  UserData.Build "user-1" "asha@example.org" "Asha" "Rao" "" address.

(** cart = [{item A, qty 2, price 100}] *)
Definition item_A : CartItem.t :=
  CartItem.Build "0a1b2c3d-0000-4000-8000-00000000000a" "item A" 2 100 "cook-1".

(** An item from a tainted cart: its id is not a UUID. *)
Definition item_without_uuid : CartItem.t :=
  CartItem.Build "42" "item C" 1 80 "cook-1".

(** One item at 12.25. *)
Definition item_B : CartItem.t :=
  CartItem.Build "0a1b2c3d-0000-4000-8000-00000000000b" "item B" 1 12.25 "cook-1".

Definition checkout (method : string) (loaded : bool) (u : UserData.t)
    (items : list CartItem.t) : PageState :=
  MkPage true (Some u) false loaded method items.

Definition empty_db : Database := MkDatabase [] [] [].

Definition start (st : PageState) : World := MkWorld empty_db st [].

Definition no_error : Stmt -> option string := fun _ => None.

(** Only the insert of the order lines fails. *)
Definition items_fail : Stmt -> option string :=
  fun s => match s with order_items_insert => Some "insert failed" | _ => None end.

(** Every statement fails. *)
Definition all_fail : Stmt -> option string := fun _ => Some "backend unreachable".

Definition order_db_id : string := "7f000001-aaaa-4bbb-8ccc-000000000001".

Definition env_with (errors : Stmt -> option string) (g : GatewayOutcome) : Env :=
  MkEnv 1700000000000 (Some "user-1") order_db_id errors g (Some "test_secret").

(** The gateway reports success with a payment id and nothing else. *)
Definition pay_1 : RazorpayResponse.t :=
  RazorpayResponse.Build (Some "pay_1") None None.

(** The order of the scenarios once written, still pending. *)
Definition pending_order : Order.t :=
  Order.Build order_db_id "user-1" "cook-1" "pending" 236 "online" "pending" None address
    1700000000000 1700000000000.

Definition db_with_order : Database := MkDatabase [pending_order] [] [].

Definition server (d : Database) : World :=
  MkWorld d (MkPage false None false false "cash" []) [].

(** signature = HMAC(secret, "order_db_id|pay_1") *)
Definition valid_body : VerifyBody.t :=
  VerifyBody.Build (Some "pay_1") (Some order_db_id)
    (Some (Crypto.createHmac_sha256_hex "test_secret" (order_db_id ++ "|pay_1")))
    (Some order_db_id).

(** The lowest bit of the first hexadecimal digit of a signature, flipped. *)
Definition flip_bit (signature : string) : string :=
  match signature with
  | EmptyString => EmptyString
  | String c rest =>
      let n := nat_of_ascii c in
      String (ascii_of_nat (if Bool.eqb (Nat.even n) (n <? 58)%nat then n + 1 else n - 1)%nat) rest
  end.

(** The same payload with a single bit of the signature flipped. *)
Definition tampered_body : VerifyBody.t :=
  VerifyBody.Build (Some "pay_1") (Some order_db_id)
    (Some (flip_bit (Crypto.createHmac_sha256_hex "test_secret" (order_db_id ++ "|pay_1"))))
    (Some order_db_id).

(** What the widget hands over when the signature was tampered with. *)
Definition tampered_response : RazorpayResponse.t :=
  RazorpayResponse.Build (Some "pay_1") (Some order_db_id)
    (Some (flip_bit (Crypto.createHmac_sha256_hex "test_secret" (order_db_id ++ "|pay_1")))).

End Sample.

(** * The rest of the code *)

(** ** Effects over any state *)

Module Eff.

Section With_state.

Variable S : Type.

Definition t (A : Type) : Type := S -> Outcome A * S.

Definition ret {A : Type} (a : A) : t A := fun s => (Returned a, s).

Definition bind {A B : Type} (m : t A) (k : A -> t B) : t B :=
  fun s =>
    match m s with
    | (Returned a, s') => k a s'
    | (Thrown e, s') => (Thrown e, s')
    | (Suspended, s') => (Suspended, s')
    end.

Definition throw {A : Type} (e : JS.exn) : t A := fun s => (Thrown e, s).

Definition modify (f : S -> S) : t unit := fun s => (Returned tt, f s).

Definition try_catch {A : Type} (m : t A) (h : JS.exn -> t A) : t A :=
  fun s =>
    match m s with
    | (Thrown e, s') => h e s'
    | r => r
    end.

Definition try_finally {A : Type} (m : t A) (f : t unit) : t A :=
  fun s =>
    match m s with
    | (Suspended, s') => (Suspended, s')
    | (r, s') =>
        match f s' with
        | (Returned _, s'') => (r, s'')
        | (Thrown e, s'') => (Thrown e, s'')
        | (Suspended, s'') => (Suspended, s'')
        end
    end.

End With_state.

Arguments ret {S A} a.
Arguments bind {S A B} m k.
Arguments throw {S A} e.
Arguments modify {S} f.
Arguments try_catch {S A} m h.
Arguments try_finally {S A} m f.

End Eff.

Declare Scope eff_scope.
Delimit Scope eff_scope with eff.
Notation "x <- m ;; k" := (Eff.bind m (fun x => k))
  (at level 61, m at next level, right associativity) : eff_scope.
Notation "m ;; k" := (Eff.bind m (fun _ => k))
  (at level 61, right associativity) : eff_scope.

(** ** The checkout page: loading the user *)

(** [supabase.auth.getSession()]: a session with the id of its user, no
    session, or an error. *)
Inductive SessionAnswer : Type :=
| got_session (user_id : option string)
| session_error (message : string).

(** A row of [users], as selected by the page; a column may be null. *)
Module UserRow.
Record t : Type := Build
  { email : option string;
    first_name : option string;
    last_name : option string;
    phone : option string;
    address : option Address.t }.
End UserRow.

(** [.from("users").select(...).eq("id", id).single()] *)
Inductive UsersAnswer : Type :=
| users_row (row : UserRow.t)
| users_error (code message : string).

(** [supabase.auth.getUser()]: the email of the user, when there is one. *)
Inductive AuthUserAnswer : Type :=
| auth_user (email : option string)
| auth_error (message : string).

Record AuthEnv : Type := MkAuthEnv
  { getSession : SessionAnswer;
    users_single : string -> UsersAnswer;
    getUser : AuthUserAnswer }.

(** What the page writes besides its state. *)
Inductive PageEvent : Type :=
| shown (e : Event)
| console_log (label : string).

(** The state of the page with what [checkAuth] drives. *)
Record CheckoutView : Type := MkView
  { view_page : PageState;
    view_loading : bool;
    view_error : option string;
    view_log : list PageEvent }.

(** [value || fallback] for a string that may be null. *)
Definition or_else (value : option string) (fallback : string) : string :=
  match value with
  | Some s => if JS.truthy s then s else fallback
  | None => fallback
  end.

(** The address a user without one gets. *)
Definition empty_address : Address.t :=
  Address.Build (Some "") (Some "") (Some "") (Some "").

(** [combinedUserData] *)
Definition combinedUserData (user_id : string) (userProfile : option UserRow.t)
    (auth_email : option string) : UserData.t :=
  UserData.Build user_id
    (or_else (match userProfile with Some r => UserRow.email r | None => None end)
       (or_else auth_email ""))
    (or_else (match userProfile with Some r => UserRow.first_name r | None => None end) "")
    (or_else (match userProfile with Some r => UserRow.last_name r | None => None end) "")
    (or_else (match userProfile with Some r => UserRow.phone r | None => None end) "")
    (match userProfile with
     | Some r => match UserRow.address r with Some a => a | None => empty_address end
     | None => empty_address
     end).

Section LoadUser.

Local Open Scope eff_scope.

Variable auth : AuthEnv.

Definition on_page (f : PageState -> PageState) : Eff.t CheckoutView unit :=
  Eff.modify (fun v => MkView (f (view_page v)) (view_loading v) (view_error v) (view_log v)).

Definition setIsLoading (b : bool) : Eff.t CheckoutView unit :=
  Eff.modify (fun v => MkView (view_page v) b (view_error v) (view_log v)).

Definition setError (e : option string) : Eff.t CheckoutView unit :=
  Eff.modify (fun v => MkView (view_page v) (view_loading v) e (view_log v)).

Definition setIsLoggedIn (b : bool) : Eff.t CheckoutView unit :=
  on_page (fun p =>
    MkPage b (userData p) (processingPayment p) (razorpayLoaded p) (paymentMethod p) (cart p)).

Definition setUserData (u : UserData.t) : Eff.t CheckoutView unit :=
  on_page (fun p =>
    MkPage (isLoggedIn p) (Some u) (processingPayment p) (razorpayLoaded p) (paymentMethod p)
      (cart p)).

Definition page_event (e : PageEvent) : Eff.t CheckoutView unit :=
  Eff.modify (fun v =>
    MkView (view_page v) (view_loading v) (view_error v) (view_log v ++ [e])%list).

(** [checkAuth] up to its first [await]. *)
Definition checkAuth_begins : Eff.t CheckoutView unit :=
  setIsLoading true ;;
  setError None.

(** [checkAuth] from the answer of [getSession] on. *)
Definition checkAuth_resumes : Eff.t CheckoutView unit :=
  match getSession auth with
  | session_error message =>
      page_event (shown (console_error "Session error:")) ;;
      Eff.throw (JS.Error ("Authentication error: " ++ message)%string)
  | got_session None =>
      page_event (console_log "No active session found") ;;
      setIsLoggedIn false
  | got_session (Some user_id) =>
      setIsLoggedIn true ;;
      userProfile <-
        match users_single auth user_id with
        | users_row row => Eff.ret (Some row)
        | users_error code message =>
            if negb (String.eqb code "PGRST116")
            then
              page_event (shown (console_error "Error fetching user profile:")) ;;
              Eff.throw (JS.Error ("Failed to load user data: " ++ message)%string)
            else Eff.ret None
        end ;;
      match getUser auth with
      | auth_error message =>
          page_event (shown (console_error "Auth data error:")) ;;
          Eff.throw (JS.Error ("Failed to load auth data: " ++ message)%string)
      | auth_user email =>
          setUserData (combinedUserData user_id userProfile email)
      end
  end.

(** The [catch] of [checkAuth]. *)
Definition checkAuth_catch (e : JS.exn) : Eff.t CheckoutView unit :=
  page_event (shown (console_error "Error in checkout auth check:")) ;;
  setError (Some (JS.message_or e "Unknown error occurred")).

(** Immediately check authentication state. *)
Definition checkAuth : Eff.t CheckoutView unit :=
  Eff.try_finally
    (Eff.try_catch (checkAuth_begins ;; checkAuth_resumes) checkAuth_catch)
    (setIsLoading false).

(** Redirect if cart is empty. *)
Definition redirectIfEmpty : Eff.t CheckoutView unit :=
  fun v =>
    if (List.length (cart (view_page v)) =? 0)%nat
    then
      (page_event
         (shown (toast "Your cart is empty"
                   "Please add items to your cart before checking out." false)) ;;
       page_event (shown (router_push "/"))) v
    else (Returned tt, v).

(** The effect on [supabase, router, cart]: [checkAuth()] runs up to its
    first [await], the cart is looked at, and [checkAuth] goes on when the
    answers arrive. The look at the cart is outside the [try] of
    [checkAuth]; it throws nothing, so its place among the steps is all
    that matters. *)
Definition checkoutEffect : Eff.t CheckoutView unit :=
  Eff.try_finally
    (Eff.try_catch
       (checkAuth_begins ;;
        redirectIfEmpty ;;
        checkAuth_resumes)
       checkAuth_catch)
    (setIsLoading false).

End LoadUser.

(** The page a run of [handlePayment] leaves, as the effects see it. *)
Definition rendered (w : World) (loading : bool) (message : option string) : CheckoutView :=
  MkView (page w) loading message [].

(** The page as it is first rendered: the initial values of its state. *)
Definition initial_view (items : list CartItem.t) : CheckoutView :=
  MkView (MkPage false None false false "cash" items) true None [].

(** One of the calls of [checkAuth] fails; the message is the one of the
    [Error] that is thrown then. *)
Inductive load_fails (auth : AuthEnv) : string -> Prop :=
| session_fails (m : string) :
    getSession auth = session_error m ->
    load_fails auth ("Authentication error: " ++ m)
| profile_fails (id code m : string) :
    getSession auth = got_session (Some id) ->
    users_single auth id = users_error code m ->
    String.eqb code "PGRST116" = false ->
    load_fails auth ("Failed to load user data: " ++ m)
| auth_fails (id m : string) :
    getSession auth = got_session (Some id) ->
    (forall code m', users_single auth id = users_error code m' ->
                     String.eqb code "PGRST116" = true) ->
    getUser auth = auth_error m ->
    load_fails auth ("Failed to load auth data: " ++ m).

(** The stored row has every field the checkout asks for; the email may
    come from the auth user instead. *)
Definition row_complete (row : UserRow.t) (auth_email : option string) : bool :=
  JS.truthy_opt (UserRow.first_name row)
  && JS.truthy_opt (UserRow.last_name row)
  && (JS.truthy_opt (UserRow.email row) || JS.truthy_opt auth_email)
  && JS.truthy_opt (UserRow.phone row)
  && match UserRow.address row with
     | Some a =>
         JS.truthy_opt (Address.street a) && JS.truthy_opt (Address.city a)
         && JS.truthy_opt (Address.state a) && JS.truthy_opt (Address.pincode a)
     | None => false
     end.

(** What the card of the page renders for the user: the tabs to log in,
    the link to the profile, or the fields of the profile. *)
Inductive CardContent : Type :=
| login_tabs
| profile_link
| profile_fields.

Definition cardContent (st : PageState) : CardContent :=
  if isLoggedIn st
  then if is_some (userData st) then profile_fields else profile_link
  else login_tabs.

(** The world a click on the page acts on: the tables, the page as the
    effects left it, and an empty log. *)
Definition clicked (d : Database) (v : CheckoutView) : World :=
  MkWorld d (view_page v) [].

(** Students as the backend may know them. *)
Module Students.

(** A row of [users] with every field filled in. *)
Definition asha : UserRow.t :=
  UserRow.Build (Some "asha@example.org") (Some "Asha") (Some "Rao") (Some "9876543210")
    (Some Sample.address).

(** The student is signed in and has a row. *)
Definition known : AuthEnv :=
  MkAuthEnv (got_session (Some "user-1")) (fun _ => users_row asha)
    (auth_user (Some "asha@example.org")).

(** The student is signed in and has no row yet. *)
Definition without_row : AuthEnv :=
  MkAuthEnv (got_session (Some "user-1"))
    (fun _ => users_error "PGRST116" "JSON object requested, multiple (or no) rows returned")
    (auth_user (Some "asha@example.org")).

(** The student is signed in and the table cannot be read. *)
Definition unreadable : AuthEnv :=
  MkAuthEnv (got_session (Some "user-1"))
    (fun _ => users_error "42501" "permission denied for table users")
    (auth_user (Some "asha@example.org")).

End Students.

(** ** Amounts: paise, rupees and what the page shows *)

(** [lib/utils]: convert paise to rupees for display (divide by 100). *)
Definition toRupees (paise : float) : float := (paise / 100)%float.

Module Number.

(** The number whose value is the integer [n], for [0 <= n < 2^53]. *)
Definition integer (n : Z) : float := PrimFloat.of_uint63 (Uint63.of_Z n).

(** Two numbers are the same value (the same bits, up to the payload of a
    NaN). *)
Definition same (x y : float) : bool :=
  match Prim2SF x, Prim2SF y with
  | S754_zero a, S754_zero b => Bool.eqb a b
  | S754_infinity a, S754_infinity b => Bool.eqb a b
  | S754_nan, S754_nan => true
  | S754_finite s m e, S754_finite s' m' e' => Bool.eqb s s' && Pos.eqb m m' && Z.eqb e e'
  | _, _ => false
  end.

(** [!!x] for a number: zero and NaN are falsy. *)
Definition truthy (x : float) : bool :=
  match Prim2SF x with
  | S754_zero _ => false
  | S754_nan => false
  | _ => true
  end.

Definition digit (n : Z) : ascii := ascii_of_nat (48 + Z.to_nat n).

Fixpoint digits_from (fuel : nat) (n : Z) (acc : string) : string :=
  match fuel with
  | O => acc
  | S k =>
      let (q, r) := Z.div_eucl n 10 in
      let acc' := String (digit r) acc in
      if q =? 0 then acc' else digits_from k q acc'
  end.

(** The decimal digits of [n >= 0]; ["0"] for zero. *)
Definition digits (n : Z) : string :=
  digits_from (S (Z.to_nat (Z.log2 n))) n "".

Definition zeros (n : nat) : string := string_of_list_ascii (repeat "0"%char n).

(** The digits of [n] with a point before the last [f] of them, padded
    with zeros on the left to [f + 1] digits. *)
Definition point (n : Z) (f : nat) : string :=
  let m := digits n in
  if (f =? 0)%nat then m
  else
    let m :=
      if (String.length m <=? f)%nat then zeros (f + 1 - String.length m) ++ m else m in
    let k := String.length m in
    substring 0 (k - f) m ++ "." ++ substring (k - f) f m.

Section Fixed.

(** [Number::toString], which [toFixed] falls back on from 1e21 on. *)
Variable toString : float -> string.

(** [x.toFixed(fractionDigits)], for [0 <= fractionDigits <= 100]: the
    integer [n] for which [n / 10^f - x] is as close to zero as possible,
    the larger one if there are two, written with [f] digits after the
    point. With [|x| = m * 2^e], that is [m * 2^e * 10^f] when [e >= 0] and
    the floor of [(2 * m * 10^f + 2^-e) / 2^(1-e)] otherwise. *)
Definition toFixed (x : float) (fractionDigits : nat) : string :=
  let f := Z.of_nat fractionDigits in
  match Prim2SF x with
  | S754_nan => "NaN"
  | S754_infinity s => if s then "-Infinity" else "Infinity"
  | S754_zero _ => point 0 fractionDigits
  | S754_finite s m e =>
      let sign := if s then "-" else "" in
      let large :=
        if 0 <=? e then 10 ^ 21 <=? Z.shiftl (Z.pos m) e
        else Z.shiftl (10 ^ 21) (- e) <=? Z.pos m in
      if large then sign ++ toString (PrimFloat.abs x)
      else
        let n :=
          if 0 <=? e then Z.shiftl (Z.pos m) e * 10 ^ f
          else Z.shiftr (2 * Z.pos m * 10 ^ f + Z.shiftl 1 (- e)) (1 - e) in
        sign ++ point n fractionDigits
  end.

End Fixed.

End Number.

(** The order summary of the checkout page and the label of its button. *)
Section Summary.

Variable toString : float -> string.

Definition subtotalShown (cart : list CartItem.t) : string :=
  Number.toFixed toString (getCartTotal cart) 2.

Definition taxShown (cart : list CartItem.t) : string :=
  Number.toFixed toString (getCartTotal cart * 0.18)%float 2.

Definition totalShown (cart : list CartItem.t) : string :=
  Number.toFixed toString (getCartTotal cart * 1.18)%float 2.

Definition buttonLabel (st : PageState) : string :=
  if processingPayment st then "Processing..."
  else if String.eqb (paymentMethod st) "cash" then "Place Order (Cash on Delivery)"
  else "Pay ₹" ++ Number.toFixed toString (getCartTotal (cart st) * 1.18)%float 2.

End Summary.

(** Bounded checks, run by computation: [check] holds on the [count]
    integers from [lo] on. *)
Fixpoint all_from (check : Z -> bool) (lo : Z) (count : positive) : bool :=
  match count with
  | xH => check lo
  | xO p => all_from check lo p && all_from check (lo + Z.pos p) p
  | xI p => check lo && all_from check (lo + 1) p && all_from check (lo + 1 + Z.pos p) p
  end.

(** The paise [p] come back from [toRupees] and [toPaise]. *)
Definition paise_round_trip (p : Z) : bool :=
  Number.same (toPaise (toRupees (Number.integer p))) (Number.integer p).

(** For a subtotal of [s] whole rupees, the summary shows [s], 18 percent
    of it and 118 percent of it to the paisa, and 118 percent of it is what
    [toPaise] makes of the total. *)
Definition whole_rupees_check (toString : float -> string) (s : Z) : bool :=
  let subtotal := Number.integer s in
  String.eqb (Number.toFixed toString subtotal 2) (Number.point (100 * s) 2)
  && String.eqb (Number.toFixed toString (subtotal * 0.18)%float 2) (Number.point (18 * s) 2)
  && String.eqb (Number.toFixed toString (subtotal * 1.18)%float 2) (Number.point (118 * s) 2)
  && Number.same (toPaise (subtotal * 1.18)%float) (Number.integer (118 * s)).

(** A cart of one item at 1.25. *)
Definition item_at_1_25 : CartItem.t :=
  CartItem.Build "0a1b2c3d-0000-4000-8000-00000000000c" "item C" 1 1.25 "cook-1".

(** ** The route that creates an order at the gateway *)

Module CreateOrder.

(** The JSON body of the request; a field may be absent. *)
Record Body : Type := MkBody
  { amount : option float;
    currency : option string;
    receipt : option string;
    notes : option (list (string * string)) }.

(** [await request.json()] *)
Inductive RequestJson : Type :=
| parsed (body : Body)
| rejects (e : JS.exn).

(** The argument of [razorpay.orders.create]. *)
Record Options : Type := MkOptions
  { options_amount : float;
    options_currency : string;
    options_receipt : string;
    options_notes : list (string * string) }.

Section Route.

(** The order as the gateway describes it; the route hands it on as it is. *)
Variable RazorpayOrder : Type.

(** How [razorpay.orders.create] settles. *)
Inductive Created : Type :=
| created (order : RazorpayOrder)
| create_rejects (e : JS.exn).

Record Gateway : Type := MkGateway
  { uuidv4 : string;
    orders_create : Options -> Created }.

Inductive Call : Type :=
| create_called (options : Options)
| error_logged (label : string).

Inductive Json : Type :=
| error_json (error : string)
| order_json (order : RazorpayOrder).

(** [NextResponse.json(body, { status })]; the status is 200 when none is
    given. *)
Record Response : Type := MkResponse
  { status : Z;
    body : Json }.

Local Open Scope eff_scope.

Variable gateway : Gateway.

Definition call (c : Call) : Eff.t (list Call) unit :=
  Eff.modify (fun calls => calls ++ [c])%list.

(** [!amount || !currency] *)
Definition incomplete (b : Body) : bool :=
  negb (match amount b with Some x => Number.truthy x | None => false end)
  || negb (JS.truthy_opt (currency b)).

(** [const options = {...}], for a body that is not [incomplete]. *)
Definition options (b : Body) : Options :=
  MkOptions
    (match amount b with Some x => x | None => PrimFloat.nan end)
    (JS.template (currency b))
    (match receipt b with
     | Some r => if JS.truthy r then r else ("receipt_" ++ uuidv4 gateway)%string
     | None => ("receipt_" ++ uuidv4 gateway)%string
     end)
    (match notes b with Some n => n | None => [] end).

Definition POST (request : RequestJson) : Eff.t (list Call) Response :=
  Eff.try_catch
    (match request with
     | rejects e => Eff.throw e
     | parsed b =>
         if incomplete b
         then Eff.ret (MkResponse 400 (error_json "Amount and currency are required"))
         else
           call (create_called (options b)) ;;
           match orders_create gateway (options b) with
           | created order => Eff.ret (MkResponse 200 (order_json order))
           | create_rejects e => Eff.throw e
           end
     end)
    (fun e =>
       call (error_logged "Error creating Razorpay order:") ;;
       Eff.ret (MkResponse 500
                  (error_json
                     (if JS.truthy (JS.message_or e "") then JS.message_or e ""
                      else "Failed to create order")))).

End Route.

Arguments MkGateway {RazorpayOrder} uuidv4 orders_create.
Arguments uuidv4 {RazorpayOrder} g.
Arguments orders_create {RazorpayOrder} g options.
Arguments MkResponse {RazorpayOrder} status body.
Arguments status {RazorpayOrder} r.
Arguments body {RazorpayOrder} r.
Arguments options {RazorpayOrder} gateway b.
Arguments POST {RazorpayOrder} gateway request.
Arguments created {RazorpayOrder} order.
Arguments create_rejects {RazorpayOrder} e.
Arguments error_json {RazorpayOrder} error.
Arguments order_json {RazorpayOrder} order.

End CreateOrder.

(** ** The cook's payments *)

Module PaymentStatus.

(** A row of [cook_payments] as the component selects it, with the user of
    its order ([orders:order_id(user_id)]) when there is one. *)
Module PaymentRow.
Record t : Type := Build
  { id : string;
    order_id : string;
    amount : float;
    status : string;
    created_at : string;
    orders_user_id : option string }.
End PaymentRow.

(** A payment as the component keeps it: the row and the name of the
    customer. *)
Module Payment.
Record t : Type := Build
  { row : PaymentRow.t;
    customer_name : string }.
End Payment.

(** [first_name, last_name] of a row of [users]; either may be null. *)
Module Name.
Record t : Type := Build
  { first_name : option string;
    last_name : option string }.
End Name.

(** [{ data, error }] of a statement the component throws the error of. *)
Inductive Fetched (A : Type) : Type :=
| fetched (rows : A)
| refused (e : JS.exn).
Arguments fetched {A} rows.
Arguments refused {A} e.

(** What the backend answers to the component. *)
Record Backend : Type := MkBackend
  { session_user : option string;
    cooks_single : string -> Fetched string;
    cook_payments_of : string -> Fetched (list PaymentRow.t);
    users_single : string -> option Name.t }.

(** The state of the component, and its console. *)
Record View : Type := MkView
  { payments : list Payment.t;
    isLoading : bool;
    error : option string;
    totalEarnings : float;
    pendingEarnings : float;
    console : list string }.

(** A value that may be null inside a template literal. *)
Definition template (o : option string) : string :=
  match o with
  | Some s => s
  | None => "null"
  end.

Section Component.

Local Open Scope eff_scope.

Variable backend : Backend.

Definition setIsLoading (b : bool) : Eff.t View unit :=
  Eff.modify (fun v =>
    MkView (payments v) b (error v) (totalEarnings v) (pendingEarnings v) (console v)).

Definition setError (e : option string) : Eff.t View unit :=
  Eff.modify (fun v =>
    MkView (payments v) (isLoading v) e (totalEarnings v) (pendingEarnings v) (console v)).

Definition setPayments (l : list Payment.t) : Eff.t View unit :=
  Eff.modify (fun v =>
    MkView l (isLoading v) (error v) (totalEarnings v) (pendingEarnings v) (console v)).

Definition setTotalEarnings (x : float) : Eff.t View unit :=
  Eff.modify (fun v =>
    MkView (payments v) (isLoading v) (error v) x (pendingEarnings v) (console v)).

Definition setPendingEarnings (x : float) : Eff.t View unit :=
  Eff.modify (fun v =>
    MkView (payments v) (isLoading v) (error v) (totalEarnings v) x (console v)).

Definition console_error (label : string) : Eff.t View unit :=
  Eff.modify (fun v =>
    MkView (payments v) (isLoading v) (error v) (totalEarnings v) (pendingEarnings v)
      (console v ++ [label])%list).

(** Get customer names for each payment. *)
Definition withCustomer (payment : PaymentRow.t) : Payment.t :=
  Payment.Build payment
    (if JS.truthy_opt (PaymentRow.orders_user_id payment)
     then
       match users_single backend (JS.template (PaymentRow.orders_user_id payment)) with
       | Some userData =>
           (template (Name.first_name userData) ++ " "
            ++ template (Name.last_name userData))%string
       | None => "Unknown Customer"
       end
     else "Unknown Customer").

(** [payments.reduce((sum, payment) => sum + payment.amount, 0)] *)
Definition sum (l : list Payment.t) : float :=
  fold_left (fun sum payment => (sum + PaymentRow.amount (Payment.row payment))%float) l 0%float.

Definition pending (payment : Payment.t) : bool :=
  String.eqb (PaymentRow.status (Payment.row payment)) "pending".

Definition fetchPayments : Eff.t View unit :=
  Eff.try_finally
    (Eff.try_catch
       (setIsLoading true ;;
        setError None ;;
        match session_user backend with
        | None => Eff.throw (JS.Error "Not authenticated")
        | Some user =>
            match cooks_single backend user with
            | refused cookError => Eff.throw cookError
            | fetched cookData_id =>
                match cook_payments_of backend cookData_id with
                | refused paymentsError => Eff.throw paymentsError
                | fetched paymentsData =>
                    let payments := map withCustomer paymentsData in
                    setPayments payments ;;
                    let total := sum payments in
                    let pending := sum (filter pending payments) in
                    setTotalEarnings total ;;
                    setPendingEarnings pending
                end
            end
        end)
       (fun _ =>
          console_error "Error fetching payments:" ;;
          setError (Some "Failed to load payment data")))
    (setIsLoading false).

End Component.

(** The text of the badge of a payment. *)
Definition badge (status : string) : string :=
  if String.eqb status "completed" then "Paid"
  else if String.eqb status "pending" then "Processing"
  else status.

(** What the component renders. *)
Inductive Rendered : Type :=
| spinner
| error_card (message : string)
| no_records (total pending : float)
| table (total pending : float) (rows : list Payment.t).

Definition records (v : View) : Rendered :=
  if (List.length (payments v) =? 0)%nat
  then no_records (totalEarnings v) (pendingEarnings v)
  else table (totalEarnings v) (pendingEarnings v) (payments v).

Definition render (v : View) : Rendered :=
  if isLoading v then spinner
  else
    match error v with
    | Some message => if JS.truthy message then error_card message else records v
    | None => records v
    end.

(** The component as it is first rendered. *)
Definition initial : View := MkView [] true None 0%float 0%float [].

(** The fetch cannot go through: nobody is signed in, the row of the cook
    cannot be read, or the payments cannot. *)
Definition refuses (backend : Backend) : Prop :=
  match session_user backend with
  | None => True
  | Some user =>
      match cooks_single backend user with
      | refused _ => True
      | fetched cook =>
          match cook_payments_of backend cook with
          | refused _ => True
          | fetched _ => False
          end
      end
  end.

End PaymentStatus.

(** ** What the runs keep *)

(** From the tables [d] to the tables [d'], outside the order [id]: every
    other order is still there as it was, order lines were only added, and
    so were Payables, each of them pending. *)
Definition grows_around (id : string) (d d' : Database) : Prop :=
  (forall o, In o (orders d) -> Order.id o <> id -> In o (orders d'))
  /\ (exists lines, order_items d' = (order_items d ++ lines)%list)
  /\ (exists payables,
        cook_payments d' = (cook_payments d ++ payables)%list
        /\ forall p, In p payables -> CookPayment.status p = "pending").

(** Every run of [m] relates the tables before and after by [R], returns
    only values in [Q], and is suspended only when [may_suspend]. *)
Definition keeps {A : Type} (R : Database -> Database -> Prop) (may_suspend : Prop)
    (Q : A -> Prop) (m : M A) : Prop :=
  forall w,
    R (db w) (db (snd (m w)))
    /\ match fst (m w) with
       | Returned a => Q a
       | Thrown _ => True
       | Suspended => may_suspend
       end.

(** The order a request of the verification route names. *)
Definition named (r : RequestJson) : string :=
  match r with
  | parsed b => JS.template (VerifyBody.order_db_id b)
  | rejects _ => ""
  end.

(** The columns of an Order that the verification route does not name. *)
Definition unwritten (o : Order.t)
  : string * string * string * float * string * string * Address.t * timestamp :=
  (Order.id o, Order.user_id o, Order.cook_id o, Order.total o, Order.payment_method o,
   Order.payment_status o, Order.delivery_address o, Order.created_at o).

(** ** Loading scripts *)

(** How the load of a script ends: [onload], [onerror], or neither. *)
Inductive ScriptLoad : Type :=
| loads
| fails
| never_settles.

(** The browser: which [src] attributes a selector matches, and how the
    load of a script ends. *)
Record Browser : Type := MkBrowser
  { selects : string -> string -> bool;
    load : string -> ScriptLoad }.

(** The tab: the [src] of the scripts of the document, in document order,
    the page, and what was shown or logged. *)
Record Tab : Type := MkTab
  { scripts : list string;
    tab_page : PageState;
    tab_log : list Event }.

Definition double_quote : string := String (ascii_of_nat 34) EmptyString.

(** [`script[src="${src}"]`] *)
Definition script_selector (src : string) : string :=
  "script[src=" ++ double_quote ++ src ++ double_quote ++ "]".

Definition razorpay_checkout_js : string := "https://checkout.razorpay.com/v1/checkout.js".

Section Scripts.

Local Open Scope eff_scope.

Variable browser : Browser.

(** [document.querySelector(selector)], as a truth value. *)
Definition querySelector (selector : string) : Eff.t Tab bool :=
  fun t => (Returned (existsb (selects browser selector) (scripts t)), t).

(** [document.body.appendChild(script)] for a script with this [src]. *)
Definition appendChild (src : string) : Eff.t Tab unit :=
  Eff.modify (fun t => MkTab (scripts t ++ [src])%list (tab_page t) (tab_log t)).

Definition tab_event (e : Event) : Eff.t Tab unit :=
  Eff.modify (fun t => MkTab (scripts t) (tab_page t) (tab_log t ++ [e])%list).

Definition unsettled {A : Type} : Eff.t Tab A := fun t => (Suspended, t).

(** [lib/utils]: load external scripts dynamically. *)
Definition loadScript (src : string) : Eff.t Tab bool :=
  found <- querySelector (script_selector src) ;;
  if found then Eff.ret true
  else
    appendChild src ;;
    match load browser src with
    | loads => Eff.ret true
    | fails => Eff.ret false
    | never_settles => unsettled
    end.

(** [lib/razorpay]: load Razorpay script. *)
Definition loadRazorpay : Eff.t Tab bool :=
  appendChild razorpay_checkout_js ;;
  match load browser razorpay_checkout_js with
  | loads => Eff.ret true
  | fails =>
      tab_event (console_error "Failed to load Razorpay SDK") ;;
      tab_event (toast "Payment system error"
                   "Failed to load payment system. Please try again later." true) ;;
      Eff.ret false
  | never_settles => unsettled
  end.

Definition setRazorpayLoaded (b : bool) : Eff.t Tab unit :=
  Eff.modify (fun t =>
    let p := tab_page t in
    MkTab (scripts t)
      (MkPage (isLoggedIn p) (userData p) (processingPayment p) b (paymentMethod p) (cart p))
      (tab_log t)).

(** The effect of the checkout page that loads the Razorpay SDK. *)
Definition loadRazorpaySDK : Eff.t Tab unit :=
  isLoaded <- loadRazorpay ;;
  setRazorpayLoaded isLoaded.

End Scripts.

(** A browser whose selector for a [src] matches that [src] and no other. *)
Definition exact_browser (load : string -> ScriptLoad) : Browser :=
  MkBrowser (fun selector src => String.eqb selector (script_selector src)) load.

(** ** The auth provider *)

Module AuthProvider.

(** The user of a session. *)
Module User.
Record t : Type := Build
  { id : string;
    email : option string }.
End User.

(** A session; [session?.user] may be missing. *)
Module Session.
Record t : Type := Build
  { user : option User.t }.
End Session.

(** [UserProfile]: a row of [users], or the basic info of the user. *)
Module UserProfile.
Record t : Type := Build
  { id : string;
    first_name : option string;
    last_name : option string;
    email : option string;
    phone : option string;
    address : option Address.t;
    profile_image : option string }.
End UserProfile.

(** [supabase.auth.getSession()] *)
Inductive SessionAnswer : Type :=
| session_data (session : option Session.t)
| session_error (e : JS.exn).

(** [.from("users").select("*").eq("id", userId).single()]: a row, an
    error with its code, or a call that throws. *)
Inductive ProfileAnswer : Type :=
| profile_row (row : UserProfile.t)
| profile_error (code : string)
| profile_throws (e : JS.exn).

Record Backend : Type := MkBackend
  { getSession : SessionAnswer;
    users_single : string -> ProfileAnswer }.

(** The state of the provider, and its console. *)
Record State : Type := MkState
  { session : option Session.t;
    user : option User.t;
    profile : option UserProfile.t;
    isLoading : bool;
    error : option string;
    console : list string }.

(** If no profile exists yet, just use basic user info. *)
Definition basic (u : User.t) : UserProfile.t :=
  UserProfile.Build (User.id u) None None (User.email u) None None None.

(** [{ id: user.id, ...profileData }]: the row has an [id] of its own,
    which the spread puts over the one given. *)
Definition spread (u : User.t) (profileData : UserProfile.t) : UserProfile.t :=
  profileData.

Section Provider.

Local Open Scope eff_scope.

Variable backend : Backend.

Definition setSession (s : option Session.t) : Eff.t State unit :=
  Eff.modify (fun st =>
    MkState s (user st) (profile st) (isLoading st) (error st) (console st)).

Definition setUser (u : option User.t) : Eff.t State unit :=
  Eff.modify (fun st =>
    MkState (session st) u (profile st) (isLoading st) (error st) (console st)).

Definition setProfile (p : option UserProfile.t) : Eff.t State unit :=
  Eff.modify (fun st =>
    MkState (session st) (user st) p (isLoading st) (error st) (console st)).

Definition setIsLoading (b : bool) : Eff.t State unit :=
  Eff.modify (fun st =>
    MkState (session st) (user st) (profile st) b (error st) (console st)).

Definition setError (e : option string) : Eff.t State unit :=
  Eff.modify (fun st =>
    MkState (session st) (user st) (profile st) (isLoading st) e (console st)).

Definition console_error (label : string) : Eff.t State unit :=
  Eff.modify (fun st =>
    MkState (session st) (user st) (profile st) (isLoading st) (error st)
      (console st ++ [label])%list).

Definition fetchProfile (userId : string) : Eff.t State (option UserProfile.t) :=
  Eff.try_catch
    (match users_single backend userId with
     | profile_throws e => Eff.throw e
     | profile_error code =>
         if negb (String.eqb code "PGRST116")
         then
           console_error "Error fetching user profile:" ;;
           setError (Some "Failed to load user profile") ;;
           Eff.ret None
         else Eff.ret None
     | profile_row row => Eff.ret (Some row)
     end)
    (fun _ =>
       console_error "Error in fetchProfile:" ;;
       Eff.ret None).

(** The profile of a user: the row when there is one, the basic info
    otherwise. *)
Definition loadProfile (u : User.t) : Eff.t State unit :=
  profileData <- fetchProfile (User.id u) ;;
  match profileData with
  | Some row => setProfile (Some (spread u row))
  | None => setProfile (Some (basic u))
  end.

Definition refreshProfile : Eff.t State unit :=
  fun st =>
    match user st with
    | None => (Returned tt, st)
    | Some u =>
        (setIsLoading true ;;
         loadProfile u ;;
         setIsLoading false) st
    end.

(** [signOut], once [supabase.auth.signOut()] has settled. *)
Definition signOut : Eff.t State unit :=
  setProfile None.

Definition loadSession : Eff.t State unit :=
  setIsLoading true ;;
  setError None ;;
  Eff.try_finally
    (Eff.try_catch
       (match getSession backend with
        | session_error e => Eff.throw e
        | session_data s =>
            setSession s ;;
            match s with
            | Some (Session.Build (Some u)) =>
                setUser (Some u) ;;
                loadProfile u
            | _ => Eff.ret tt
            end
        end)
       (fun _ =>
          console_error "Auth provider error:" ;;
          setError (Some "Authentication error")))
    (setIsLoading false).

(** The listener given to [supabase.auth.onAuthStateChange]. *)
Definition onAuthStateChange (s : option Session.t) : Eff.t State unit :=
  setSession s ;;
  match s with
  | Some (Session.Build (Some u)) =>
      setUser (Some u) ;;
      loadProfile u
  | _ =>
      setUser None ;;
      setProfile None
  end.

End Provider.

(** The provider as it is first rendered. *)
Definition initial : State := MkState None None None true None [].

End AuthProvider.

(** ** More sample data *)

Module Cases.

(** The backend refuses what follows a successful payment. *)
Definition after_payment_fail : Stmt -> option string :=
  fun s =>
    match s with
    | orders_update_paid => Some "update refused"
    | cook_payments_insert => Some "insert refused"
    | _ => None
    end.

(** Nobody is signed in. *)
Definition nobody : PaymentStatus.Backend :=
  PaymentStatus.MkBackend None (fun _ => PaymentStatus.refused JS.NotAnError)
    (fun _ => PaymentStatus.refused JS.NotAnError) (fun _ => None).

Definition pending_row : PaymentStatus.PaymentRow.t :=
  PaymentStatus.PaymentRow.Build "payable-1" Sample.order_db_id 236 "pending"
    "2023-11-14T22:13:20+00:00" (Some "user-1").

Definition completed_row : PaymentStatus.PaymentRow.t :=
  PaymentStatus.PaymentRow.Build "payable-0" "7f000001-aaaa-4bbb-8ccc-000000000000" 118 "completed"
    "2023-11-13T22:13:20+00:00" None.

(** A cook with a pending and a completed payment; the customer of the
    first has no last name. *)
Definition cook : PaymentStatus.Backend :=
  PaymentStatus.MkBackend (Some "cook-user-1") (fun _ => PaymentStatus.fetched "cook-1")
    (fun _ => PaymentStatus.fetched [pending_row; completed_row])
    (fun _ => Some (PaymentStatus.Name.Build (Some "Asha") None)).

(** What the widget hands over for a payment of the order of the
    scenarios, with the signature of the gateway. *)
Definition signed_response : RazorpayResponse.t :=
  RazorpayResponse.Build (Some "pay_1") (Some Sample.order_db_id)
    (Some (Crypto.createHmac_sha256_hex "test_secret" (Sample.order_db_id ++ "|pay_1"))).

(** The user of the provider, and a backend where the user has no row. *)
Definition provider_user : AuthProvider.User.t :=
  AuthProvider.User.Build "user-1" (Some "asha@example.org").

Definition provider : AuthProvider.Backend :=
  AuthProvider.MkBackend
    (AuthProvider.session_data (Some (AuthProvider.Session.Build (Some provider_user))))
    (fun _ => AuthProvider.profile_error "PGRST116").

(** A tab on the checkout page with no script yet. *)
Definition tab : Tab :=
  MkTab [] (Sample.checkout "online" false Sample.student [Sample.item_A]) [].

(** The script cannot be loaded. *)
Definition offline : Browser := exact_browser (fun _ => fails).

End Cases.

(** ** Tactics *)

(** Symbolic execution of a run: unfold the effects and project. *)
Ltac exec :=
  repeat (progress
    (unfold bind, ret, throw, suspend, try_catch, try_finally, emit, get_db, set_db,
       setProcessingPayment, clearCart, orders_insert_select_single,
       order_items_insert_rows, orders_delete_eq_id, orders_update_eq_id,
       orders_select_single, cooks_select_single, cook_payments_insert_row,
       auth_getSession, initiatePayment;
     cbn [db page log orders order_items cook_payments isLoggedIn userData
          processingPayment razorpayLoaded paymentMethod cart JS.message_or])).

(** An event is among those appended to the log. *)
Ltac in_log :=
  rewrite <- ?app_assoc; apply in_or_app; right; cbn [app In];
  repeat (first [left; reflexivity | right]).


(** * Properties *)

(** ** The hash, checked against published values *)

Example sha256_abc :
  Crypto.hex (Crypto.sha256 (Crypto.bytes_of_string "abc"))
  = "ba7816bf8f01cfea414140de5dae2223b00361a396177a9cb410ff61f20015ad".
Proof. vm_compute. reflexivity. Qed.

Example sha256_empty :
  Crypto.hex (Crypto.sha256 [])
  = "e3b0c44298fc1c149afbf4c8996fb92427ae41e4649b934ca495991b7852b855".
Proof. vm_compute. reflexivity. Qed.

Example hmac_quick_brown_fox :
  Crypto.createHmac_sha256_hex "key" "The quick brown fox jumps over the lazy dog"
  = "f7bc83f430538424b13298e6aa6fb143ef4d59a14946175997479dbc2d1a3cd8".
Proof. vm_compute. reflexivity. Qed.

Example sha256_two_blocks :
  Crypto.hex (Crypto.sha256 (repeat 97 100))
  = "2816597888e4a0d3a36b82b83316ab32680eb8f00f8cd3b904d681246d285a0e".
Proof. vm_compute. reflexivity. Qed.

(** The padding at the edge of a block: 55, 56 and 64 bytes. *)
Example sha256_padding :
  Crypto.hex (Crypto.sha256 (repeat 97 55))
  = "9f4390f8d30c2dd92ec9f095b65e2b9ae9b0a925a5258e241c9f1e910f734318"
  /\ Crypto.hex (Crypto.sha256 (repeat 97 56))
     = "b35439a4ac6f0948b6d6f9e3c6af0f5f590ce20f1bde7090ef7970686ec6738a"
  /\ Crypto.hex (Crypto.sha256 (repeat 97 64))
     = "ffe054fe7ae0cb6dc65c3af9b61d5209f439851db43d0ba5997337df154668eb".
Proof. repeat split; vm_compute; reflexivity. Qed.

Example hmac_long_key :
  Crypto.createHmac_sha256_hex
    "kkkkkkkkkkkkkkkkkkkkkkkkkkkkkkkkkkkkkkkkkkkkkkkkkkkkkkkkkkkkkkkkkkkkkkkkkkkkkkkk"
    "order_abc|pay_1"
  = "196dde918458b56b542b718667b947ee2569303907946bd8ac4c66ff9ce1bc71".
Proof. vm_compute. reflexivity. Qed.

Example hmac_empty_secret :
  Crypto.createHmac_sha256_hex "" "order_abc|pay_1"
  = "b6261b1566bb9d53279f06e420f4554fb6593d2188adbb3735fb3d64a9be09cb".
Proof. vm_compute. reflexivity. Qed.

(** ** The JavaScript operations, on known values *)

Example Math_round_values :
  JS.Math_round 2.5 = 3%float
  /\ JS.Math_round (-2.5) = (-2)%float
  /\ JS.Math_round 2.4 = 2%float
  /\ JS.Math_round 0.49999999999999994 = 0%float
  /\ JS.Math_round (-0.2) = (-0)%float
  /\ JS.Math_round 1445.5 = 1446%float
  /\ toPaise 14.455 = 1446%float.
Proof. repeat split; vm_compute; reflexivity. Qed.

Example menu_ids :
  MenuId.matches "0a1b2c3d-0000-4000-8000-00000000000a" = true
  /\ MenuId.matches "0A1B2C3D-0000-4000-8000-00000000000A" = true
  /\ MenuId.matches "0a1b2c3d-0000-4000-8000-00000000000" = false
  /\ MenuId.matches "0a1b2c3d-0000-4000-8000-00000000000a " = false
  /\ MenuId.matches "0a1b2c3d00004000800000000000000a0000" = false
  /\ MenuId.matches "0g1b2c3d-0000-4000-8000-00000000000a" = false
  /\ MenuId.matches "" = false.
Proof. repeat split; reflexivity. Qed.

Example trim_values :
  JS.trim "  0a1b  " = "0a1b" /\ JS.trim "a b" = "a b" /\ JS.trim "   " = "".
Proof. repeat split; reflexivity. Qed.

(** ** Helper lemmas *)

Lemma filter_invalid_nil (items : list CartItem.t) :
  cart_checks items = true -> filter MenuId.invalid items = [].
Proof.
  unfold cart_checks.
  induction items as [|item rest IH]; simpl; intros H; [reflexivity|].
  apply andb_prop in H. destruct H as [Hitem Hrest].
  apply negb_true_iff in Hitem. rewrite Hitem. auto.
Qed.

Lemma profile_checks_split (u : UserData.t) :
  profile_checks u = true ->
  negb (JS.truthy (UserData.first_name u)) || negb (JS.truthy (UserData.last_name u)) = false
  /\ negb (JS.truthy_opt (Address.street (UserData.address u)))
     || negb (JS.truthy_opt (Address.city (UserData.address u)))
     || negb (JS.truthy_opt (Address.state (UserData.address u)))
     || negb (JS.truthy_opt (Address.pincode (UserData.address u))) = false.
Proof.
  unfold profile_checks. intros H.
  repeat (apply andb_prop in H; destruct H as [H ?]).
  repeat match goal with E : _ = true |- _ => rewrite E; clear E end.
  split; reflexivity.
Qed.

Lemma filter_fresh (id : string) (rows : list Order.t) :
  existsb (has_id id) rows = false ->
  filter (fun o => negb (has_id id o)) rows = rows.
Proof.
  induction rows as [|o rows IH]; simpl; intros H; [reflexivity|].
  apply orb_false_elim in H. destruct H as [Ho Hrows].
  rewrite Ho. simpl. f_equal. auto.
Qed.

Lemma has_own_id (o : Order.t) : has_id (Order.id o) o = true.
Proof. unfold has_id. apply String.eqb_refl. Qed.

Lemma update_fresh (id : string) (f : Order.t -> Order.t) (rows : list Order.t) :
  existsb (has_id id) rows = false ->
  map (fun o => if has_id id o then f o else o) rows = rows.
Proof.
  induction rows as [|o rows IH]; simpl; intros H; [reflexivity|].
  apply orb_false_elim in H. destruct H as [Ho Hrows].
  rewrite Ho. f_equal. auto.
Qed.

Lemma update_keeps_totals (id : string) (p : OrderPatch.t) (rows : list Order.t) :
  map Order.total (map (fun o => if has_id id o then apply_patch p o else o) rows)
  = map Order.total rows.
Proof.
  induction rows as [|o rows IH]; simpl; [reflexivity|].
  rewrite IH. destruct (has_id id o); reflexivity.
Qed.

Lemma existsb_filter_out (id : string) (rows : list Order.t) :
  existsb (has_id id) (filter (fun o => negb (has_id id o)) rows) = false.
Proof.
  induction rows as [|o rows IH]; simpl; [reflexivity|].
  destruct (has_id id o) eqn:Ho; simpl; [exact IH|].
  rewrite Ho. exact IH.
Qed.

(** The run of [placeOrder] up to the two inserts, when every check passes. *)
Section ValidCheckout.

Variables (env : Env) (st : PageState) (u : UserData.t) (user : string).
Variables (first : CartItem.t) (rest : list CartItem.t).

Hypothesis logged_in : isLoggedIn st = true.
Hypothesis profile : userData st = Some u.
Hypothesis signed_in : session env = Some user.
Hypothesis profile_ok : profile_checks u = true.
Hypothesis cart_is : cart st = first :: rest.
Hypothesis cart_ok : cart_checks (cart st) = true.

Lemma placeOrder_validated (w : World) :
  placeOrder env st u w
  = (created <- orders_insert_select_single env (orderData env st u user first) ;;
     match created with
     | error orderError =>
         emit (console_error "Order creation error:") ;;
         throw (JS.Error ("Failed to create order: " ++ orderError)%string)
     | data order =>
         itemsError <- order_items_insert_rows env (orderItems order (cart st)) ;;
         match itemsError with
         | Some message =>
             emit (console_error "Order items error:") ;;
             orders_delete_eq_id env (Order.id order) ;;
             throw (JS.Error ("Failed to add items to order: " ++ message)%string)
         | None =>
             if String.eqb (paymentMethod st) "cash"
             then
               clearCart ;;
               emit (toast "Order placed successfully!"
                       "Your order has been placed with cash on delivery." false) ;;
               emit (router_push ("/orders/" ++ Order.id order)%string)
             else
               if String.eqb (paymentMethod st) "online" && razorpayLoaded st
               then payOnline env st u first order
               else ret tt
         end
     end)
    (MkWorld (db w)
       (MkPage (isLoggedIn (page w)) (userData (page w)) true (razorpayLoaded (page w))
          (paymentMethod (page w)) (cart (page w)))
       (log w)).
Proof.
  destruct (profile_checks_split u profile_ok) as [Hname Haddr].
  unfold placeOrder.
  unfold bind at 1. unfold setProcessingPayment at 1. cbv zeta.
  unfold bind at 1. unfold auth_getSession at 1. unfold ret at 1. rewrite signed_in.
  rewrite Hname, Haddr.
  rewrite (filter_invalid_nil _ cart_ok).
  rewrite cart_is. cbn [List.length Nat.eqb Nat.ltb Nat.leb].
  reflexivity.
Qed.


Let order := the_order env st u user first.
Let items := the_items env st u user first.



(** C5. For a checkout with payment method cash whose order and order
    lines are written, the run ends with no call of the gateway (the log
    shows the two inserts, the toast and the navigation), the Order has
    status pending and payment_status pending, and [cook_payments] is what
    it was: no Payable is created. *)
Theorem cash_checkout_leaves_pending_order_and_no_payable (w : World) :
  paymentMethod st = "cash" ->
  db_error env orders_insert = None ->
  db_error env order_items_insert = None ->
  handlePayment env st w
  = (Returned tt,
     MkWorld
       (MkDatabase (orders (db w) ++ [order]) (order_items (db w) ++ items)
          (cook_payments (db w)))
       (page_after (page w) [])
       (log w ++ [sent (InsertOrder (orderData env st u user first));
                  sent (InsertOrderItems items);
                  toast "Order placed successfully!"
                    "Your order has been placed with cash on delivery." false;
                  router_push ("/orders/" ++ Order.id order)]))
  /\ Order.status order = "pending"
  /\ Order.payment_status order = "pending"
  /\ Order.payment_method order = "cash".
Proof.
  intros Hmethod Hinsert Hitems.
  split; [|split; [reflexivity|split; [reflexivity|exact Hmethod]]].
  unfold handlePayment. rewrite logged_in, profile.
  unfold try_finally, try_catch.
  rewrite placeOrder_validated.
  unfold bind, orders_insert_select_single, order_items_insert_rows, emit, get_db, set_db, ret.
  cbn [db page log fst snd].
  rewrite Hinsert. cbn [db page log].
  rewrite Hitems. cbn [db page log orders order_items cook_payments].
  rewrite Hmethod. cbn [String.eqb Ascii.eqb Bool.eqb andb].
  unfold clearCart, setProcessingPayment, page_after. cbn.
  rewrite <- !app_assoc. reflexivity.
Qed.


(** X3. When the insert of the Order fails, [handlePayment] stops there:
    nothing else is sent to the backend, the tables are what they were, and
    the failure is surfaced with the message of the backend. *)
Theorem failed_order_insert_stops_the_checkout (w : World) (message : string) :
  db_error env orders_insert = Some message ->
  handlePayment env st w
  = (Returned tt,
     MkWorld (db w) (page_after (page w) (cart (page w)))
       (log w ++ [sent (InsertOrder (orderData env st u user first));
                  console_error "Order creation error:";
                  console_error "Payment process error:";
                  toast "Payment failed" ("Failed to create order: " ++ message) true])).
Proof.
  intros Hinsert.
  unfold handlePayment. rewrite logged_in, profile.
  unfold try_finally, try_catch.
  rewrite placeOrder_validated.
  exec. rewrite Hinsert. exec.
  unfold page_after. rewrite <- !app_assoc. reflexivity.
Qed.

(** X4. When the widget reports success, the page marks the Order paid at
    once, with no check of a signature: status and payment_status become
    paid, payment_id the id the widget gave and updated_at the present; one
    Payable {cook_id, order_id, amount = total, status = pending} is
    inserted, and the cart is cleared. *)
Theorem online_success_marks_paid (w : World) (r : RazorpayResponse.t) :
  paymentMethod st = "online" ->
  razorpayLoaded st = true ->
  gateway env = handler r ->
  accepting env ->
  existsb (has_id (generated_id env)) (orders (db w)) = false ->
  handlePayment env st w
  = (Returned tt,
     MkWorld
       (MkDatabase (orders (db w) ++ [apply_patch (paid env r) order])
          (order_items (db w) ++ items)
          (cook_payments (db w)
           ++ [inserted_cook_payment env
                 (cookPaymentOf env first order (getCartTotal (cart st) * 1.18)%float)]))
       (page_after (page w) [])
       (log w ++ [sent (InsertOrder (orderData env st u user first));
                  sent (InsertOrderItems items);
                  sent (SelectCook (CartItem.cook_id first));
                  razorpay_open
                    (paymentOptions u order (getCartTotal (cart st) * 1.18)%float);
                  sent (UpdateOrder (paid env r) (Order.id order));
                  sent (InsertCookPayment
                          (cookPaymentOf env first order
                             (getCartTotal (cart st) * 1.18)%float));
                  toast "Payment successful!"
                    "Your order has been placed and payment received." false;
                  router_push ("/orders/" ++ Order.id order)])).
Proof.
  intros Hmethod Hloaded Hgateway Hquiet Hfresh.
  unfold handlePayment. rewrite logged_in, profile.
  unfold try_finally, try_catch.
  rewrite placeOrder_validated.
  exec. rewrite !Hquiet. exec.
  rewrite Hmethod, Hloaded. cbn [String.eqb Ascii.eqb Bool.eqb andb].
  unfold payOnline. exec. rewrite Hgateway. exec. rewrite !Hquiet. exec.
  unfold page_after.
  rewrite <- !app_assoc. cbn [app].
  rewrite map_app. cbn [map].
  rewrite has_own_id.
  change (Order.id (inserted_order env (orderData env st u user first)))
    with (generated_id env).
  rewrite (update_fresh _ _ _ Hfresh).
  reflexivity.
Qed.

(** X5. When the widget never reports back, the run stays suspended after
    the widget was opened: the Order is left at pending/pending, no Payable
    exists, the cart is kept and the spinner stays on. *)
Theorem online_no_answer_leaves_pending_order (w : World) :
  paymentMethod st = "online" ->
  razorpayLoaded st = true ->
  gateway env = no_answer ->
  db_error env orders_insert = None ->
  db_error env order_items_insert = None ->
  handlePayment env st w
  = (Suspended,
     MkWorld
       (MkDatabase (orders (db w) ++ [order]) (order_items (db w) ++ items)
          (cook_payments (db w)))
       (MkPage (isLoggedIn (page w)) (userData (page w)) true (razorpayLoaded (page w))
          (paymentMethod (page w)) (cart (page w)))
       (log w ++ [sent (InsertOrder (orderData env st u user first));
                  sent (InsertOrderItems items);
                  sent (SelectCook (CartItem.cook_id first));
                  razorpay_open
                    (paymentOptions u order (getCartTotal (cart st) * 1.18)%float)]))
  /\ Order.status order = "pending"
  /\ Order.payment_status order = "pending".
Proof.
  intros Hmethod Hloaded Hgateway Hinsert Hitems.
  split; [|split; reflexivity].
  unfold handlePayment. rewrite logged_in, profile.
  unfold try_finally, try_catch.
  rewrite placeOrder_validated.
  exec. rewrite Hinsert. exec. rewrite Hitems. exec.
  rewrite Hmethod, Hloaded. cbn [String.eqb Ascii.eqb Bool.eqb andb].
  unfold payOnline. exec. rewrite Hgateway. exec.
  rewrite <- !app_assoc. reflexivity.
Qed.

(** The online branch when the widget is dismissed. *)
Lemma online_dismissed_marks_failed (w : World) :
  paymentMethod st = "online" ->
  razorpayLoaded st = true ->
  gateway env = ondismiss ->
  accepting env ->
  existsb (has_id (generated_id env)) (orders (db w)) = false ->
  handlePayment env st w
  = (Returned tt,
     MkWorld
       (MkDatabase (orders (db w) ++ [apply_patch (payment_failed env) order])
          (order_items (db w) ++ items) (cook_payments (db w)))
       (page_after (page w) (cart (page w)))
       (log w ++ [sent (InsertOrder (orderData env st u user first));
                  sent (InsertOrderItems items);
                  sent (SelectCook (CartItem.cook_id first));
                  razorpay_open
                    (paymentOptions u order (getCartTotal (cart st) * 1.18)%float);
                  console_error "Razorpay error:";
                  sent (UpdateOrder (payment_failed env) (Order.id order));
                  console_error "Payment process error:";
                  toast "Payment failed" "Payment failed: Payment cancelled by user" true])).
Proof.
  intros Hmethod Hloaded Hgateway Hquiet Hfresh.
  unfold handlePayment. rewrite logged_in, profile.
  unfold try_finally, try_catch.
  rewrite placeOrder_validated.
  exec. rewrite !Hquiet. exec.
  rewrite Hmethod, Hloaded. cbn [String.eqb Ascii.eqb Bool.eqb andb].
  unfold payOnline. exec. rewrite Hgateway. exec. rewrite !Hquiet. exec.
  unfold page_after.
  rewrite <- !app_assoc. cbn [app].
  rewrite map_app. cbn [map].
  rewrite has_own_id.
  change (Order.id (inserted_order env (orderData env st u user first)))
    with (generated_id env).
  rewrite (update_fresh _ _ _ Hfresh).
  reflexivity.
Qed.


End ValidCheckout.

(** ** The verification route *)

Lemma has_id_patch (id : string) (p : OrderPatch.t) (o : Order.t) :
  has_id id (apply_patch p o) = has_id id o.
Proof. reflexivity. Qed.

Lemma filter_updated (id : string) (p : OrderPatch.t) (rows : list Order.t) :
  filter (has_id id) (map (fun o => if has_id id o then apply_patch p o else o) rows)
  = map (apply_patch p) (filter (has_id id) rows).
Proof.
  induction rows as [|o rows IH]; simpl; [reflexivity|].
  destruct (has_id id o) eqn:Ho.
  - rewrite has_id_patch, Ho. simpl. f_equal. exact IH.
  - rewrite Ho. exact IH.
Qed.

(** The database block of the route never throws. *)
Lemma updateOrder_returns (env : Env) (b : VerifyBody.t) (w : World) :
  fst (updateOrder env b w) = Returned tt.
Proof.
  unfold updateOrder.
  destruct (JS.truthy_opt (VerifyBody.order_db_id b)); [|reflexivity].
  exec.
  destruct (db_error env orders_update_paid); exec;
    (destruct (db_error env orders_select); exec; [reflexivity|]);
    match goal with
    | |- context [filter ?f ?l] => destruct (filter f l) as [|o [|o' rows]]
    end; exec; try reflexivity;
    destruct (db_error env cook_payments_insert); exec; reflexivity.
Qed.

Lemma verifies_split (env : Env) (b : VerifyBody.t) :
  Spec.verifies env b = true ->
  negb (JS.truthy_opt (VerifyBody.razorpay_payment_id b))
  || negb (JS.truthy_opt (VerifyBody.razorpay_order_id b))
  || negb (JS.truthy_opt (VerifyBody.razorpay_signature b)) = false
  /\ strict_neq (digest env b) (VerifyBody.razorpay_signature b) = false.
Proof.
  unfold Spec.verifies. intros H.
  repeat (apply andb_prop in H; destruct H as [H ?]).
  apply negb_true_iff in H0.
  rewrite H, H1, H2. split; [reflexivity | assumption].
Qed.

(** A callback that verifies: the database block runs and the answer is 200. *)
Lemma POST_verified (env : Env) (b : VerifyBody.t) (w : World) :
  Spec.verifies env b = true ->
  POST env (parsed b) w
  = (Returned
       (MkResponse 200
          (success_json true (VerifyBody.razorpay_payment_id b)
             (VerifyBody.razorpay_order_id b))),
     snd (updateOrder env b w)).
Proof.
  intros H. destruct (verifies_split env b H) as [Hfields Hsig].
  unfold POST, try_catch. rewrite Hfields, Hsig.
  unfold bind. pose proof (updateOrder_returns env b w) as Hret.
  destruct (updateOrder env b w) as [out w']. simpl in Hret. subst out.
  reflexivity.
Qed.

(** A callback that does not verify: the answer is 400 and nothing is
    written, not even to the console. *)
Lemma POST_unverified (env : Env) (b : VerifyBody.t) (w : World) :
  Spec.verifies env b = false ->
  POST env (parsed b) w
  = (Returned
       (MkResponse 400
          (error_json
             (if negb (JS.truthy_opt (VerifyBody.razorpay_payment_id b))
                 || negb (JS.truthy_opt (VerifyBody.razorpay_order_id b))
                 || negb (JS.truthy_opt (VerifyBody.razorpay_signature b))
              then "Payment verification failed: Missing parameters"
              else "Payment verification failed: Invalid signature"))),
     w).
Proof.
  unfold Spec.verifies, POST, try_catch. intros H.
  destruct (JS.truthy_opt (VerifyBody.razorpay_payment_id b)); [|reflexivity].
  destruct (JS.truthy_opt (VerifyBody.razorpay_order_id b)); [|reflexivity].
  destruct (JS.truthy_opt (VerifyBody.razorpay_signature b)); [|reflexivity].
  cbn [negb orb andb] in *.
  apply negb_false_iff in H. rewrite H. reflexivity.
Qed.

(** A body that is not JSON: the answer is 500. *)
Lemma POST_rejected (env : Env) (e : JS.exn) (w : World) :
  exists message,
    POST env (rejects e) w
    = (Returned (MkResponse 500 (error_json message)),
       MkWorld (db w) (page w) (log w ++ [console_error "Error verifying payment:"])).
Proof. eexists. reflexivity. Qed.

(** The database block when the backend accepts every statement and one
    order has the id. *)
Lemma updateOrder_settles (env : Env) (b : VerifyBody.t) (id : string) (o : Order.t)
    (w : World) :
  VerifyBody.order_db_id b = Some id ->
  JS.truthy id = true ->
  accepting env ->
  filter (has_id id) (orders (db w)) = [o] ->
  updateOrder env b w
  = (Returned tt,
     MkWorld
       (MkDatabase
          (map (fun o' => if has_id id o' then apply_patch (paidPatch env b) o' else o')
             (orders (db w)))
          (order_items (db w))
          (cook_payments (db w)
           ++ [inserted_cook_payment env
                 (cookPayment (apply_patch (paidPatch env b) o) id)]))
       (page w)
       (log w ++ [sent (UpdateOrder (paidPatch env b) id);
                  sent (SelectOrder id);
                  sent (InsertCookPayment
                          (cookPayment (apply_patch (paidPatch env b) o) id))])).
Proof.
  intros Hid Htruthy Hquiet Hone.
  unfold updateOrder. rewrite Hid. cbn [JS.truthy_opt JS.template]. rewrite Htruthy.
  exec. rewrite !Hquiet. exec.
  rewrite filter_updated, Hone. cbn [map]. exec.
  rewrite <- !app_assoc. reflexivity.
Qed.

(** The route never writes [payment_status]. *)
Lemma POST_keeps_payment_status (env : Env) (r : RequestJson) (w : World) :
  map Order.payment_status (orders (db (snd (POST env r w))))
  = map Order.payment_status (orders (db w)).
Proof.
  assert (Hupd : forall id p rows,
             OrderPatch.payment_status p = None ->
             map Order.payment_status
               (map (fun o => if has_id id o then apply_patch p o else o) rows)
             = map Order.payment_status rows).
  { intros id p rows Hp. induction rows as [|o rows IH]; simpl; [reflexivity|].
    rewrite IH. destruct (has_id id o); [|reflexivity].
    unfold apply_patch. rewrite Hp. reflexivity. }
  destruct r as [b|e]; [|reflexivity].
  destruct (Spec.verifies env b) eqn:Hv.
  - rewrite POST_verified by assumption. cbn [snd].
    unfold updateOrder.
    destruct (JS.truthy_opt (VerifyBody.order_db_id b)); [|reflexivity].
    exec.
    destruct (db_error env orders_update_paid); exec;
      (destruct (db_error env orders_select); exec; [try apply Hupd; reflexivity|]);
      match goal with
      | |- context [filter ?f ?l] => destruct (filter f l) as [|o [|o' rows]]
      end; exec; try (try apply Hupd; reflexivity);
      destruct (db_error env cook_payments_insert); exec; try apply Hupd; reflexivity.
  - rewrite POST_unverified by assumption. reflexivity.
Qed.


(** C9. After a valid signature the route answers 200 {success: true}
    whatever the backend answers: when the update of the Order fails, the
    Order rows are unchanged and the failure is only logged; when the fetch
    of the Order or the insert of the Payable fails, no Payable exists. *)
Theorem verified_payment_answers_200_whatever_the_backend_says
    (env : Env) (b : VerifyBody.t) (w : World) :
  Spec.verifies env b = true ->
  let w' := snd (POST env (parsed b) w) in
  fst (POST env (parsed b) w)
  = Returned
      (MkResponse 200
         (success_json true (VerifyBody.razorpay_payment_id b)
            (VerifyBody.razorpay_order_id b)))
  /\ (forall e, db_error env orders_update_paid = Some e -> orders (db w') = orders (db w))
  /\ (forall e,
        db_error env orders_update_paid = Some e ->
        JS.truthy_opt (VerifyBody.order_db_id b) = true ->
        In (console_error "Error updating order:") (log w'))
  /\ (forall e,
        db_error env orders_select = Some e ->
        cook_payments (db w') = cook_payments (db w))
  /\ (forall e,
        db_error env cook_payments_insert = Some e ->
        cook_payments (db w') = cook_payments (db w))
  /\ (forall e o,
        db_error env cook_payments_insert = Some e ->
        db_error env orders_select = None ->
        JS.truthy_opt (VerifyBody.order_db_id b) = true ->
        filter (has_id (JS.template (VerifyBody.order_db_id b))) (orders (db w)) = [o] ->
        In (console_error "Error creating cook payment:") (log w')).
Proof.
  intros Hv w'. subst w'. rewrite POST_verified by assumption. cbn [fst snd].
  split; [reflexivity|].
  unfold updateOrder.
  destruct (JS.truthy_opt (VerifyBody.order_db_id b)).
  2:{ repeat split; try reflexivity; intros; discriminate. }
  exec.
  destruct (db_error env orders_update_paid) as [e1|] eqn:Hupdate; exec;
    (destruct (db_error env orders_select) as [e2|] eqn:Hselect; exec;
     [ repeat split; intros; try discriminate; try reflexivity; in_log | ]);
    rewrite ?filter_updated;
    match goal with
    | |- context [filter ?f ?l] => destruct (filter f l) as [|o [|o' rows]] eqn:Hfilter
    end; cbn [map]; exec;
    try (repeat split; intros; try discriminate; try reflexivity; in_log);
    destruct (db_error env cook_payments_insert) as [e3|] eqn:Hpay; exec;
    repeat split; intros; try discriminate; try reflexivity; in_log.
Qed.

(** Applying the patch of the route again changes neither the status nor
    the payment id. *)
Lemma paid_again (env1 env2 : Env) (b : VerifyBody.t) (id : string) (rows : list Order.t) :
  let once := map (fun o => if has_id id o then apply_patch (paidPatch env1 b) o else o) rows in
  let twice := map (fun o => if has_id id o then apply_patch (paidPatch env2 b) o else o) once in
  map Order.status twice = map Order.status once
  /\ map Order.payment_id twice = map Order.payment_id once.
Proof.
  cbv zeta. induction rows as [|o rows [IHs IHp]]; cbn [map]; [split; reflexivity|].
  rewrite IHs, IHp.
  destruct (has_id id o) eqn:Ho.
  - rewrite has_id_patch, Ho. unfold apply_patch, paidPatch. cbn.
    destruct (VerifyBody.razorpay_payment_id b); split; reflexivity.
  - rewrite Ho. split; reflexivity.
Qed.

(** C1, as amended. Each call of the route with a valid payload for an
    existing order inserts one Payable {cook_id, order_id, amount = total,
    status = pending}: after two calls with the same payload the order has
    two Payables more than before. Only the update of the Order is
    repeatable: the second call leaves every status and payment id as the
    first call made them. *)
Theorem each_verification_adds_a_payable
    (env1 env2 : Env) (b : VerifyBody.t) (id : string) (o : Order.t) (w : World) :
  Spec.verifies env1 b = true ->
  Spec.verifies env2 b = true ->
  VerifyBody.order_db_id b = Some id ->
  JS.truthy id = true ->
  accepting env1 ->
  accepting env2 ->
  filter (has_id id) (orders (db w)) = [o] ->
  let w1 := snd (POST env1 (parsed b) w) in
  let w2 := snd (POST env2 (parsed b) w1) in
  cook_payments (db w2)
  = (cook_payments (db w)
     ++ [CookPayment.Build (Order.cook_id o) id (Order.total o) "pending" (now env1);
         CookPayment.Build (Order.cook_id o) id (Order.total o) "pending" (now env2)])%list
  /\ Spec.payables id (db w2) = (2 + Spec.payables id (db w))%nat
  /\ map Order.status (orders (db w2)) = map Order.status (orders (db w1))
  /\ map Order.payment_id (orders (db w2)) = map Order.payment_id (orders (db w1)).
Proof.
  intros Hv1 Hv2 Hid Htruthy Hq1 Hq2 Hone w1 w2. subst w2 w1.
  rewrite (POST_verified env1) by assumption. cbn [snd].
  rewrite (updateOrder_settles env1 b id o w) by assumption. cbn [snd].
  rewrite (POST_verified env2) by assumption. cbn [snd].
  rewrite (updateOrder_settles env2 b id (apply_patch (paidPatch env1 b) o)).
  2-4: assumption.
  2:{ cbn [db orders]. rewrite filter_updated, Hone. reflexivity. }
  cbn [snd db orders order_items cook_payments].
  split; [|split].
  - rewrite <- app_assoc. reflexivity.
  - unfold Spec.payables. cbn [cook_payments].
    rewrite !filter_app, !length_app. cbn [filter inserted_cook_payment cookPayment
      CookPayment.order_id CookPaymentData.order_id].
    rewrite String.eqb_refl. cbn [List.length]. lia.
  - apply paid_again.
Qed.


(** ** The profile checks *)

Lemma complete_profile_checks (u : UserData.t) :
  Spec.complete_profile u = profile_checks u && JS.truthy (UserData.phone u).
Proof.
  unfold Spec.complete_profile, profile_checks.
  destruct (JS.truthy (UserData.first_name u)), (JS.truthy (UserData.last_name u)),
    (JS.truthy (UserData.phone u)),
    (JS.truthy_opt (Address.street (UserData.address u))),
    (JS.truthy_opt (Address.city (UserData.address u))),
    (JS.truthy_opt (Address.state (UserData.address u))),
    (JS.truthy_opt (Address.pincode (UserData.address u))); reflexivity.
Qed.

Lemma incomplete_profile_not_complete (st : PageState) (u : UserData.t) :
  userData st = Some u ->
  Spec.complete_profile u = false ->
  hasCompleteProfile st = false.
Proof.
  unfold hasCompleteProfile, Spec.complete_profile. intros -> H.
  destruct (JS.truthy (UserData.first_name u)), (JS.truthy (UserData.last_name u)),
    (JS.truthy (UserData.phone u)), (JS.truthy (UserData.email u)),
    (JS.truthy_opt (Address.street (UserData.address u))),
    (JS.truthy_opt (Address.city (UserData.address u))),
    (JS.truthy_opt (Address.state (UserData.address u))),
    (JS.truthy_opt (Address.pincode (UserData.address u)));
    try reflexivity; discriminate H.
Qed.

(** [handlePayment] with a name or an address field missing. *)
Lemma handlePayment_profile_error (env : Env) (st : PageState) (u : UserData.t)
    (user : string) (w : World) :
  isLoggedIn st = true ->
  userData st = Some u ->
  session env = Some user ->
  profile_checks u = false ->
  handlePayment env st w
  = (Returned tt,
     MkWorld (db w) (page_after (page w) (cart (page w)))
       (log w ++ [console_error "Payment process error:";
                  toast "Payment failed"
                    (if negb (JS.truthy (UserData.first_name u))
                        || negb (JS.truthy (UserData.last_name u))
                     then "Please complete your profile with your name before checkout"
                     else "Please add a complete delivery address to your profile")
                    true])).
Proof.
  intros Hlogged Hu Hsession Hchecks.
  unfold handlePayment. rewrite Hlogged, Hu.
  unfold placeOrder. exec. rewrite Hsession.
  unfold profile_checks in Hchecks.
  destruct (JS.truthy (UserData.first_name u)), (JS.truthy (UserData.last_name u));
    cbn [negb orb andb] in *; exec; unfold page_after;
    rewrite <- ?app_assoc; try reflexivity.
  destruct (JS.truthy_opt (Address.street (UserData.address u))),
    (JS.truthy_opt (Address.city (UserData.address u))),
    (JS.truthy_opt (Address.state (UserData.address u))),
    (JS.truthy_opt (Address.pincode (UserData.address u)));
    cbn [negb orb andb] in *; try discriminate Hchecks; exec;
    rewrite <- ?app_assoc; reflexivity.
Qed.

(** [handlePayment] writes nothing when a name or an address field is missing. *)
Lemma handlePayment_profile_error_writes_nothing (env : Env) (st : PageState)
    (u : UserData.t) (w : World) :
  userData st = Some u ->
  profile_checks u = false ->
  db (snd (handlePayment env st w)) = db w.
Proof.
  intros Hu Hchecks.
  destruct (isLoggedIn st) eqn:Hlogged.
  - destruct (session env) as [user|] eqn:Hsession.
    + rewrite (handlePayment_profile_error env st u user) by assumption. reflexivity.
    + unfold handlePayment. rewrite Hlogged, Hu. unfold placeOrder. exec.
      rewrite Hsession. exec. reflexivity.
  - unfold handlePayment. rewrite Hlogged. reflexivity.
Qed.


(** ** Before and after the writes *)

Lemma filter_invalid_cons (items : list CartItem.t) :
  cart_checks items = false ->
  (0 <? List.length (filter MenuId.invalid items))%nat = true.
Proof.
  unfold cart_checks.
  induction items as [|item rest IH]; simpl; intros H; [discriminate H|].
  destruct (MenuId.invalid item); [reflexivity|]. simpl in H. auto.
Qed.


(** X2. The route never writes [payment_status]: whatever the request and
    the answers of the backend, every Order keeps the payment_status it
    had. *)
Theorem route_never_writes_payment_status (env : Env) (r : RequestJson) (w : World) :
  map Order.payment_status (orders (db (snd (POST env r w))))
  = map Order.payment_status (orders (db w)).
Proof. apply POST_keeps_payment_status. Qed.

(** ** The ids of the order lines *)

Lemma hex_is_no_space (c : ascii) : MenuId.is_hex c = true -> JS.is_space c = false.
Proof.
  destruct c as [[] [] [] [] [] [] [] []]; intros H; solve [reflexivity | discriminate H].
Qed.

Lemma hex_run_no_space (n : nat) (s r : string) :
  MenuId.hex_run n s = Some r -> no_space r = true -> no_space s = true.
Proof.
  revert s. induction n as [|n IH]; intros s Hrun Hr.
  - injection Hrun as <-. exact Hr.
  - destruct s as [|c rest]; [discriminate Hrun|]. simpl in Hrun.
    destruct (MenuId.is_hex c) eqn:Hc; [|discriminate Hrun].
    simpl. rewrite (hex_is_no_space c Hc). simpl. exact (IH rest Hrun Hr).
Qed.

Lemma hyphen_no_space (s r : string) :
  MenuId.hyphen s = Some r -> no_space r = true -> no_space s = true.
Proof.
  destruct s as [|c rest]; [discriminate|]. simpl.
  destruct (Ascii.eqb c "-") eqn:Hc; [|discriminate].
  intros [= <-] Hr. apply Ascii.eqb_eq in Hc. subst c. simpl. exact Hr.
Qed.

Lemma matches_no_space (s : string) : MenuId.matches s = true -> no_space s = true.
Proof.
  unfold MenuId.matches, MenuId.and_then. intros H.
  destruct (MenuId.hex_run 8 s) as [r1|] eqn:H1; [|discriminate H].
  destruct (MenuId.hyphen r1) as [r2|] eqn:H2; [|discriminate H].
  destruct (MenuId.hex_run 4 r2) as [r3|] eqn:H3; [|discriminate H].
  destruct (MenuId.hyphen r3) as [r4|] eqn:H4; [|discriminate H].
  destruct (MenuId.hex_run 4 r4) as [r5|] eqn:H5; [|discriminate H].
  destruct (MenuId.hyphen r5) as [r6|] eqn:H6; [|discriminate H].
  destruct (MenuId.hex_run 4 r6) as [r7|] eqn:H7; [|discriminate H].
  destruct (MenuId.hyphen r7) as [r8|] eqn:H8; [|discriminate H].
  destruct (MenuId.hex_run 12 r8) as [r9|] eqn:H9; [|discriminate H].
  destruct r9; [|discriminate H].
  apply (hex_run_no_space _ _ _ H1), (hyphen_no_space _ _ H2),
    (hex_run_no_space _ _ _ H3), (hyphen_no_space _ _ H4),
    (hex_run_no_space _ _ _ H5), (hyphen_no_space _ _ H6),
    (hex_run_no_space _ _ _ H7), (hyphen_no_space _ _ H8),
    (hex_run_no_space _ _ _ H9).
  reflexivity.
Qed.

Lemma no_space_forallb (s : string) :
  no_space s = forallb (fun c => negb (JS.is_space c)) (list_ascii_of_string s).
Proof. induction s as [|c rest IH]; simpl; [reflexivity|]. rewrite IH. reflexivity. Qed.

Lemma no_space_reverse (s : string) : no_space s = true -> no_space (JS.reverse s) = true.
Proof.
  unfold JS.reverse. rewrite !no_space_forallb, list_ascii_of_string_of_list_ascii.
  rewrite !forallb_forall. intros H c Hin. apply H, in_rev. exact Hin.
Qed.

Lemma trimStart_no_space (s : string) : no_space s = true -> JS.trimStart s = s.
Proof.
  destruct s as [|c rest]; simpl; [reflexivity|]. intros H.
  apply andb_prop in H. destruct H as [Hc _]. apply negb_true_iff in Hc.
  rewrite Hc. reflexivity.
Qed.

Lemma reverse_involutive (s : string) : JS.reverse (JS.reverse s) = s.
Proof.
  unfold JS.reverse.
  rewrite list_ascii_of_string_of_list_ascii, rev_involutive.
  apply string_of_list_ascii_of_string.
Qed.

Lemma trim_no_space (s : string) : no_space s = true -> JS.trim s = s.
Proof.
  intros H. unfold JS.trim.
  rewrite (trimStart_no_space s H).
  rewrite (trimStart_no_space _ (no_space_reverse s H)).
  apply reverse_involutive.
Qed.

(** X6. The lines of an order carry the ids of the cart items as they are:
    on an id that passed the UUID check, [trim] changes nothing, and each
    line has the quantity and the price of its item. *)
Theorem order_lines_carry_the_cart (order : Order.t) (items : list CartItem.t) :
  cart_checks items = true ->
  map OrderItem.menu_id (orderItems order items) = map CartItem.id items
  /\ map OrderItem.quantity (orderItems order items) = map CartItem.quantity items
  /\ map OrderItem.price_at_time (orderItems order items) = map CartItem.price items
  /\ Forall (fun line => OrderItem.order_id line = Order.id order) (orderItems order items).
Proof.
  unfold cart_checks, orderItems.
  induction items as [|item rest IH]; intros H.
  - repeat split. constructor.
  - simpl in H. apply andb_prop in H. destruct H as [Hitem Hrest].
    destruct (IH Hrest) as (Hids & Hquantities & Hprices & Horder).
    apply negb_true_iff, orb_false_elim in Hitem. destruct Hitem as [_ Hmatch].
    apply negb_false_iff in Hmatch.
    cbn [map OrderItem.menu_id OrderItem.quantity OrderItem.price_at_time].
    rewrite Hids, Hquantities, Hprices, (trim_no_space _ (matches_no_space _ Hmatch)).
    repeat split. constructor; [reflexivity | exact Horder].
Qed.

(** ** The scenarios of the spec, run *)

(** cart = [{item A, qty 2, price 100}], tax 18% → subtotal 200, total 236.00 *)
Example scenario_total : getCartTotal [Sample.item_A] = 200%float
  /\ (getCartTotal [Sample.item_A] * 1.18)%float = 236%float
  /\ Spec.total [Sample.item_A] = 236%float
  /\ toPaise 236 = 23600%float.
Proof. repeat split; vm_compute; reflexivity. Qed.

Example signature_of_the_scenario :
  VerifyBody.razorpay_signature Sample.valid_body
  = Some "77b85a5f8da87cb5704f97c07834ad0f68d297bf12ffe559593776adf43914ea"
  /\ VerifyBody.razorpay_signature Sample.tampered_body
     = Some "67b85a5f8da87cb5704f97c07834ad0f68d297bf12ffe559593776adf43914ea".
Proof. split; vm_compute; reflexivity. Qed.

(** C1: verified twice, the order of the scenario has two Payables. *)
Lemma verified_twice_two_payables :
  let env := Sample.env_with Sample.no_error no_answer in
  let w1 := snd (POST env (parsed Sample.valid_body) (Sample.server Sample.db_with_order)) in
  let w2 := snd (POST env (parsed Sample.valid_body) w1) in
  map Order.status (orders (db w1)) = ["paid"]
  /\ Spec.payables Sample.order_db_id (db w1) = 1%nat
  /\ Spec.payables Sample.order_db_id (db w2) = 2%nat
  /\ Spec.payables Sample.order_db_id (db w2) <> 1%nat
  /\ db w2 <> db w1.
Proof.
  cbv zeta.
  split; [vm_compute; reflexivity|].
  split; [vm_compute; reflexivity|].
  split; [vm_compute; reflexivity|].
  split; [vm_compute; discriminate|].
  intros H. apply (f_equal (fun d => List.length (cook_payments d))) in H.
  vm_compute in H. discriminate H.
Qed.

(** C1: the theorem at the scenario. *)
Lemma each_verification_adds_a_payable_witness :
  let env := Sample.env_with Sample.no_error no_answer in
  let w1 := snd (POST env (parsed Sample.valid_body) (Sample.server Sample.db_with_order)) in
  let w2 := snd (POST env (parsed Sample.valid_body) w1) in
  Spec.verifies env Sample.valid_body = true
  /\ filter (has_id Sample.order_db_id) (orders Sample.db_with_order) = [Sample.pending_order]
  /\ Spec.payables Sample.order_db_id (db w2)
     = (2 + Spec.payables Sample.order_db_id Sample.db_with_order)%nat.
Proof.
  cbv zeta.
  assert (Hv : Spec.verifies (Sample.env_with Sample.no_error no_answer) Sample.valid_body
               = true) by (vm_compute; reflexivity).
  split; [exact Hv|]. split; [reflexivity|].
  apply (each_verification_adds_a_payable
           (Sample.env_with Sample.no_error no_answer)
           (Sample.env_with Sample.no_error no_answer)
           Sample.valid_body Sample.order_db_id Sample.pending_order
           (Sample.server Sample.db_with_order) Hv Hv eq_refl eq_refl
           (fun s => eq_refl) (fun s => eq_refl) eq_refl).
Defined.






(** C5: the theorem at the cash scenario of the spec. *)
Lemma cash_checkout_witness :
  let env := Sample.env_with Sample.no_error no_answer in
  let st := Sample.checkout "cash" true Sample.student [Sample.item_A] in
  let w' := snd (handlePayment env st (Sample.start st)) in
  paymentMethod st = "cash"
  /\ map (fun o => (Order.total o, Order.status o, Order.payment_status o)) (orders (db w'))
     = [(236%float, "pending", "pending")]
  /\ cook_payments (db w') = [].
Proof.
  cbv zeta.
  split; [reflexivity|].
  rewrite (proj1 (cash_checkout_leaves_pending_order_and_no_payable
                    (Sample.env_with Sample.no_error no_answer)
                    (Sample.checkout "cash" true Sample.student [Sample.item_A])
                    Sample.student "user-1" Sample.item_A []
                    eq_refl eq_refl eq_refl eq_refl eq_refl eq_refl
                    (Sample.start (Sample.checkout "cash" true Sample.student [Sample.item_A]))
                    eq_refl eq_refl eq_refl)).
  split; vm_compute; reflexivity.
Defined.

(** C7: the route, given the valid callback of the scenario, marks the
    order paid and leaves its [payment_status] pending. *)
Theorem route_leaves_payment_status_pending :
  let env := Sample.env_with Sample.no_error no_answer in
  let run := POST env (parsed Sample.valid_body) (Sample.server Sample.db_with_order) in
  Spec.verifies env Sample.valid_body = true
  /\ fst run = Returned (MkResponse 200 (success_json true (Some "pay_1")
                                           (Some Sample.order_db_id)))
  /\ orders (db (snd run))
     = [Order.Build Sample.order_db_id "user-1" "cook-1" "paid" 236 "online" "pending"
          (Some "pay_1") Sample.address 1700000000000 1700000000000]
  /\ cook_payments (db (snd run))
     = [CookPayment.Build "cook-1" Sample.order_db_id 236 "pending" 1700000000000].
Proof.
  cbv zeta. repeat split; vm_compute; reflexivity.
Qed.




(** C9: every statement fails, and the route still answers 200. *)
Lemma verified_payment_answers_200_witness :
  let env := Sample.env_with Sample.all_fail no_answer in
  let run := POST env (parsed Sample.valid_body) (Sample.server Sample.db_with_order) in
  Spec.verifies env Sample.valid_body = true
  /\ fst run = Returned (MkResponse 200 (success_json true (Some "pay_1")
                                           (Some Sample.order_db_id)))
  /\ orders (db (snd run)) = [Sample.pending_order]
  /\ cook_payments (db (snd run)) = [].
Proof.
  cbv zeta.
  assert (Hv : Spec.verifies (Sample.env_with Sample.all_fail no_answer) Sample.valid_body
               = true) by (vm_compute; reflexivity).
  split; [exact Hv|].
  destruct (verified_payment_answers_200_whatever_the_backend_says
              (Sample.env_with Sample.all_fail no_answer) Sample.valid_body
              (Sample.server Sample.db_with_order) Hv)
    as (Hanswer & Horders & _ & Hpayables & _ & _).
  split; [exact Hanswer|].
  split; [exact (Horders _ eq_refl)|exact (Hpayables _ eq_refl)].
Defined.



(** X3: the theorem at the scenario, every statement failing. *)
Lemma failed_order_insert_witness :
  let env := Sample.env_with Sample.all_fail no_answer in
  let st := Sample.checkout "cash" true Sample.student [Sample.item_A] in
  db_error env orders_insert = Some "backend unreachable"
  /\ handlePayment env st (Sample.start st)
     = (Returned tt,
        MkWorld Sample.empty_db (page_after st [Sample.item_A])
          [sent (InsertOrder (orderData env st Sample.student "user-1" Sample.item_A));
           console_error "Order creation error:";
           console_error "Payment process error:";
           toast "Payment failed" "Failed to create order: backend unreachable" true]).
Proof.
  cbv zeta. split; [reflexivity|].
  exact (failed_order_insert_stops_the_checkout
           (Sample.env_with Sample.all_fail no_answer)
           (Sample.checkout "cash" true Sample.student [Sample.item_A])
           Sample.student "user-1" Sample.item_A []
           eq_refl eq_refl eq_refl eq_refl eq_refl eq_refl
           (Sample.start (Sample.checkout "cash" true Sample.student [Sample.item_A]))
           "backend unreachable" eq_refl).
Defined.

(** X4: the theorem at the online scenario of the spec: order paid,
    Payable {amount: 236.00, status: pending} created. *)
Lemma online_success_witness :
  let env := Sample.env_with Sample.no_error (handler Sample.pay_1) in
  let st := Sample.checkout "online" true Sample.student [Sample.item_A] in
  let w' := snd (handlePayment env st (Sample.start st)) in
  gateway env = handler Sample.pay_1
  /\ orders (db w')
     = [Order.Build Sample.order_db_id "user-1" "cook-1" "paid" 236 "online" "paid"
          (Some "pay_1") Sample.address 1700000000000 1700000000000]
  /\ cook_payments (db w')
     = [CookPayment.Build "cook-1" Sample.order_db_id 236 "pending" 1700000000000]
  /\ cart (page w') = [].
Proof.
  cbv zeta. split; [reflexivity|].
  rewrite (online_success_marks_paid
             (Sample.env_with Sample.no_error (handler Sample.pay_1))
             (Sample.checkout "online" true Sample.student [Sample.item_A])
             Sample.student "user-1" Sample.item_A []
             eq_refl eq_refl eq_refl eq_refl eq_refl eq_refl
             (Sample.start (Sample.checkout "online" true Sample.student [Sample.item_A]))
             Sample.pay_1 eq_refl eq_refl eq_refl (fun s => eq_refl) eq_refl).
  repeat split; vm_compute; reflexivity.
Defined.

(** X5: the theorem at the online scenario, the widget never reporting. *)
Lemma online_no_answer_witness :
  let env := Sample.env_with Sample.no_error no_answer in
  let st := Sample.checkout "online" true Sample.student [Sample.item_A] in
  let run := handlePayment env st (Sample.start st) in
  gateway env = no_answer
  /\ fst run = Suspended
  /\ map (fun o => (Order.status o, Order.payment_status o)) (orders (db (snd run)))
     = [("pending", "pending")]
  /\ cook_payments (db (snd run)) = []
  /\ processingPayment (page (snd run)) = true.
Proof.
  cbv zeta. split; [reflexivity|].
  rewrite (proj1 (online_no_answer_leaves_pending_order
                    (Sample.env_with Sample.no_error no_answer)
                    (Sample.checkout "online" true Sample.student [Sample.item_A])
                    Sample.student "user-1" Sample.item_A []
                    eq_refl eq_refl eq_refl eq_refl eq_refl eq_refl
                    (Sample.start (Sample.checkout "online" true Sample.student [Sample.item_A]))
                    eq_refl eq_refl eq_refl eq_refl eq_refl)).
  repeat split.
Defined.

(** X6: the theorem at the cart of the scenario. *)
Lemma order_lines_carry_the_cart_witness :
  cart_checks [Sample.item_A] = true
  /\ map OrderItem.menu_id (orderItems Sample.pending_order [Sample.item_A])
     = ["0a1b2c3d-0000-4000-8000-00000000000a"].
Proof.
  split; [reflexivity|].
  exact (proj1 (order_lines_carry_the_cart Sample.pending_order [Sample.item_A] eq_refl)).
Defined.

(** * Properties of the rest of the code *)

(** Symbolic execution of a run of the page's effects. *)
Ltac run :=
  repeat (progress
    (unfold checkAuth, checkoutEffect, checkAuth_begins, checkAuth_resumes, checkAuth_catch,
       redirectIfEmpty, setIsLoading, setError, setIsLoggedIn, setUserData, on_page,
       page_event, Eff.try_finally, Eff.try_catch, Eff.bind, Eff.ret, Eff.throw, Eff.modify;
     cbn [view_page view_loading view_error view_log isLoggedIn userData processingPayment
          razorpayLoaded paymentMethod cart JS.message_or fst snd negb])).

(** ** Loading the user on the checkout page *)

Lemma truthy_or_else (o : option string) : JS.truthy (or_else o "") = JS.truthy_opt o.
Proof.
  destruct o as [s|]; [|reflexivity].
  unfold or_else. cbn [JS.truthy_opt].
  destruct (JS.truthy s) eqn:E; [exact E|reflexivity].
Qed.

Lemma truthy_or_else_2 (a b : option string) :
  JS.truthy (or_else a (or_else b "")) = JS.truthy_opt a || JS.truthy_opt b.
Proof.
  destruct a as [s|]; cbn [or_else JS.truthy_opt orb].
  - unfold or_else at 1. destruct (JS.truthy s) eqn:E; [exact E|].
    cbn [orb]. apply truthy_or_else.
  - apply truthy_or_else.
Qed.

(** The cases of [checkAuth], by the answers of the three calls. *)
Lemma checkAuth_cases (auth : AuthEnv) (v : CheckoutView) :
  (exists m, getSession auth = session_error m
     /\ checkAuth auth v
        = (Returned tt,
           MkView (view_page v) false (Some ("Authentication error: " ++ m))
             (view_log v ++ [shown (console_error "Session error:");
                             shown (console_error "Error in checkout auth check:")])))
  \/ (getSession auth = got_session None
      /\ checkAuth auth v
         = (Returned tt,
            MkView (MkPage false (userData (view_page v)) (processingPayment (view_page v))
                      (razorpayLoaded (view_page v)) (paymentMethod (view_page v))
                      (cart (view_page v)))
              false None (view_log v ++ [console_log "No active session found"])))
  \/ (exists id code m, getSession auth = got_session (Some id)
      /\ users_single auth id = users_error code m
      /\ String.eqb code "PGRST116" = false
      /\ checkAuth auth v
         = (Returned tt,
            MkView (MkPage true (userData (view_page v)) (processingPayment (view_page v))
                      (razorpayLoaded (view_page v)) (paymentMethod (view_page v))
                      (cart (view_page v)))
              false (Some ("Failed to load user data: " ++ m))
              (view_log v ++ [shown (console_error "Error fetching user profile:");
                              shown (console_error "Error in checkout auth check:")])))
  \/ (exists id m, getSession auth = got_session (Some id)
      /\ (forall code m', users_single auth id = users_error code m' ->
                          String.eqb code "PGRST116" = true)
      /\ getUser auth = auth_error m
      /\ checkAuth auth v
         = (Returned tt,
            MkView (MkPage true (userData (view_page v)) (processingPayment (view_page v))
                      (razorpayLoaded (view_page v)) (paymentMethod (view_page v))
                      (cart (view_page v)))
              false (Some ("Failed to load auth data: " ++ m))
              (view_log v ++ [shown (console_error "Auth data error:");
                              shown (console_error "Error in checkout auth check:")])))
  \/ (exists id e, getSession auth = got_session (Some id)
      /\ getUser auth = auth_user e
      /\ (forall code m', users_single auth id = users_error code m' ->
                          String.eqb code "PGRST116" = true)
      /\ checkAuth auth v
         = (Returned tt,
            MkView (MkPage true
                      (Some (combinedUserData id
                               match users_single auth id with
                               | users_row row => Some row
                               | users_error _ _ => None
                               end e))
                      (processingPayment (view_page v))
                      (razorpayLoaded (view_page v)) (paymentMethod (view_page v))
                      (cart (view_page v)))
              false None (view_log v))).
Proof.
  destruct (getSession auth) as [[id|]|m] eqn:Hs.
  - destruct (users_single auth id) as [row|code m] eqn:Hu.
    + destruct (getUser auth) as [e|m] eqn:Hg.
      * do 4 right. exists id, e.
        split; [reflexivity|]. split; [reflexivity|]. split; [intros ? ? H; rewrite Hu in H; discriminate|].
        run. rewrite Hs. run. rewrite Hu. run. rewrite Hg. run.
        reflexivity.
      * do 3 right. left. exists id, m.
        split; [reflexivity|]. split; [intros ? ? H; rewrite Hu in H; discriminate|]. split; [reflexivity|].
        run. rewrite Hs. run. rewrite Hu. run. rewrite Hg. run.
        rewrite <- ?app_assoc. reflexivity.
    + destruct (String.eqb code "PGRST116") eqn:Hc.
      * assert (Hcode : forall code' m', users_single auth id = users_error code' m' ->
                                         String.eqb code' "PGRST116" = true).
        { intros code' m' H. rewrite Hu in H. injection H as <- _. exact Hc. }
        destruct (getUser auth) as [e|m'] eqn:Hg.
        -- do 4 right. exists id, e.
           split; [reflexivity|]. split; [reflexivity|]. split; [exact Hcode|].
           run. rewrite Hs. run. rewrite Hu. run. rewrite Hc. run. rewrite Hg. run.
        reflexivity.
        -- do 3 right. left. exists id, m'.
           split; [reflexivity|]. split; [exact Hcode|]. split; [reflexivity|].
           run. rewrite Hs. run. rewrite Hu. run. rewrite Hc. run. rewrite Hg. run.
           rewrite <- ?app_assoc. reflexivity.
      * do 2 right. left. exists id, code, m.
        split; [reflexivity|]. split; [exact Hu|]. split; [exact Hc|].
        run. rewrite Hs. run. rewrite Hu. run. rewrite Hc. run.
        rewrite <- ?app_assoc. reflexivity.
  - right. left. split; [reflexivity|].
    run. rewrite Hs. run. reflexivity.
  - left. exists m. split; [reflexivity|].
    run. rewrite Hs. run. rewrite <- ?app_assoc. reflexivity.
Qed.

Lemma load_fails_session (auth : AuthEnv) (m message : string) :
  getSession auth = session_error m ->
  load_fails auth message ->
  message = ("Authentication error: " ++ m)%string.
Proof.
  intros Hs H. destruct H as [m0 H0|id code m0 H0 _ _|id m0 H0 _ _];
    rewrite Hs in H0; [injection H0 as <-; reflexivity|discriminate H0|discriminate H0].
Qed.

Lemma load_fails_profile (auth : AuthEnv) (id code m message : string) :
  getSession auth = got_session (Some id) ->
  users_single auth id = users_error code m ->
  String.eqb code "PGRST116" = false ->
  load_fails auth message ->
  message = ("Failed to load user data: " ++ m)%string.
Proof.
  intros Hs Hu Hc H. destruct H as [m0 H0|id0 code0 m0 H0 H1 _|id0 m0 H0 H1 _];
    rewrite Hs in H0; try discriminate H0; injection H0 as <-.
  - rewrite Hu in H1. injection H1 as _ <-. reflexivity.
  - rewrite (H1 _ _ Hu) in Hc. discriminate Hc.
Qed.

Lemma load_fails_auth (auth : AuthEnv) (id m message : string) :
  getSession auth = got_session (Some id) ->
  (forall code m', users_single auth id = users_error code m' ->
                   String.eqb code "PGRST116" = true) ->
  getUser auth = auth_error m ->
  load_fails auth message ->
  message = ("Failed to load auth data: " ++ m)%string.
Proof.
  intros Hs Hu Hg H. destruct H as [m0 H0|id0 code0 m0 H0 H1 H2|id0 m0 H0 _ H2];
    rewrite Hs in H0; try discriminate H0; injection H0 as <-.
  - rewrite (Hu _ _ H1) in H2. discriminate H2.
  - rewrite Hg in H2. injection H2 as <-. reflexivity.
Qed.

Lemma load_fails_not_loaded (auth : AuthEnv) (id message : string) (e : option string) :
  getSession auth = got_session (Some id) ->
  (forall code m', users_single auth id = users_error code m' ->
                   String.eqb code "PGRST116" = true) ->
  getUser auth = auth_user e ->
  load_fails auth message -> False.
Proof.
  intros Hs Hu Hg H. destruct H as [m0 H0|id0 code0 m0 H0 H1 H2|id0 m0 H0 _ H2];
    rewrite Hs in H0; try discriminate H0; injection H0 as <-.
  - rewrite (Hu _ _ H1) in H2. discriminate H2.
  - rewrite Hg in H2. discriminate H2.
Qed.

(** X7. [checkAuth] always settles: whatever the three calls answer, no
    exception leaves it and the page stops loading; it touches neither the
    cart nor the payment method, the SDK flag or the spinner; and it leaves
    an error message only when one of its calls failed, in which case the
    user data is the one of before. *)
Theorem checkAuth_always_settles (auth : AuthEnv) (v : CheckoutView) :
  exists v',
    checkAuth auth v = (Returned tt, v')
    /\ view_loading v' = false
    /\ cart (view_page v') = cart (view_page v)
    /\ paymentMethod (view_page v') = paymentMethod (view_page v)
    /\ razorpayLoaded (view_page v') = razorpayLoaded (view_page v)
    /\ processingPayment (view_page v') = processingPayment (view_page v)
    /\ (view_error v' = None
        \/ exists message,
             view_error v' = Some message
             /\ load_fails auth message
             /\ userData (view_page v') = userData (view_page v)).
Proof.
  destruct (checkAuth_cases auth v)
    as [(m & Hs & ->)|[(Hs & ->)|[(id & code & m & Hs & Hu & Hc & ->)
       |[(id & m & Hs & Hu & Hg & ->)|(id & e & Hs & Hg & Hu & ->)]]]];
    eexists; (split; [reflexivity|]); cbn [view_page view_loading view_error cart
      paymentMethod razorpayLoaded processingPayment userData];
    repeat (split; [reflexivity|]).
  - right. eexists. split; [reflexivity|]. split; [|reflexivity].
    apply session_fails. exact Hs.
  - left. reflexivity.
  - right. eexists. split; [reflexivity|]. split; [|reflexivity].
    apply (profile_fails auth id code m); assumption.
  - right. eexists. split; [reflexivity|]. split; [|reflexivity].
    apply (auth_fails auth id m); assumption.
  - left. reflexivity.
Qed.

(** X8. When a call of [checkAuth] fails, the page shows the message of
    that failure and keeps the user data it had. On a page that had none
    (the first load) the checkout button is therefore disabled, and the
    fields of the profile are not rendered: the page offers the login tabs
    (failed session) or the link to the profile (failed row or auth user),
    although the user may be logged in with a complete profile. *)
Theorem failed_load_is_reported (auth : AuthEnv) (v : CheckoutView) (message : string) :
  load_fails auth message ->
  let v' := snd (checkAuth auth v) in
  view_error v' = Some message
  /\ userData (view_page v') = userData (view_page v)
  /\ (userData (view_page v) = None ->
      checkoutDisabled (view_page v') = true
      /\ cardContent (view_page v') <> profile_fields).
Proof.
  intros Hfails v'. subst v'.
  assert (Hdisabled : forall st, userData st = None ->
            checkoutDisabled st = true /\ cardContent st <> profile_fields).
  { intros st Hnone. unfold checkoutDisabled, cardContent. rewrite Hnone.
    cbn [is_some negb]. split.
    - destruct (isLoggedIn st), (processingPayment st); reflexivity.
    - destruct (isLoggedIn st); discriminate. }
  destruct (checkAuth_cases auth v)
    as [(m & Hs & ->)|[(Hs & ->)|[(id & code & m & Hs & Hu & Hc & ->)
       |[(id & m & Hs & Hu & Hg & ->)|(id & e & Hs & Hg & Hu & ->)]]]];
    cbn [snd view_error view_page userData].
  - rewrite (load_fails_session auth m message Hs Hfails).
    split; [reflexivity|]. split; [reflexivity|]. apply Hdisabled.
  - exfalso. destruct Hfails as [m0 H0|id code m0 H0 _ _|id m0 H0 _ _];
      rewrite Hs in H0; discriminate H0.
  - rewrite (load_fails_profile auth id code m message Hs Hu Hc Hfails).
    split; [reflexivity|]. split; [reflexivity|]. intros Hnone. apply Hdisabled. exact Hnone.
  - rewrite (load_fails_auth auth id m message Hs Hu Hg Hfails).
    split; [reflexivity|]. split; [reflexivity|]. intros Hnone. apply Hdisabled. exact Hnone.
  - exfalso. exact (load_fails_not_loaded auth id message e Hs Hu Hg Hfails).
Qed.

Lemma checkAuth_without_row (auth : AuthEnv) (v : CheckoutView) (id m : string)
    (e : option string) :
  getSession auth = got_session (Some id) ->
  users_single auth id = users_error "PGRST116" m ->
  getUser auth = auth_user e ->
  checkAuth auth v
  = (Returned tt,
     MkView (MkPage true
               (Some (UserData.Build id (or_else e "") "" "" "" empty_address))
               (processingPayment (view_page v)) (razorpayLoaded (view_page v))
               (paymentMethod (view_page v)) (cart (view_page v)))
       false None (view_log v)).
Proof.
  intros Hs Hu Hg. run. rewrite Hs. run. rewrite Hu. run.
  cbn [String.eqb Ascii.eqb Bool.eqb negb]. run. rewrite Hg. run. reflexivity.
Qed.

(** X9. A user who is signed in and has no row in [users] (the answer
    PGRST116) is loaded without an error, with an empty profile: the names
    and the phone are empty, the address has four empty fields, the email is
    the one of the auth user. The page shows the alert Incomplete Profile
    and disables the checkout button, a click does nothing, and
    [handlePayment] itself would stop at the name: it leaves the tables as
    they are. *)
Theorem missing_profile_row_gives_empty_profile
    (auth : AuthEnv) (v : CheckoutView) (id m : string) (e : option string) :
  getSession auth = got_session (Some id) ->
  users_single auth id = users_error "PGRST116" m ->
  getUser auth = auth_user e ->
  let v' := snd (checkAuth auth v) in
  userData (view_page v')
  = Some (UserData.Build id (or_else e "") "" "" "" empty_address)
  /\ isLoggedIn (view_page v') = true
  /\ view_error v' = None
  /\ incompleteProfileAlert (view_page v') = true
  /\ checkoutDisabled (view_page v') = true
  /\ (forall env d, onClick env (clicked d v') = (Returned tt, clicked d v'))
  /\ (forall env w, db (snd (handlePayment env (view_page v') w)) = db w).
Proof.
  intros Hs Hu Hg v'. subst v'.
  rewrite (checkAuth_without_row auth v id m e Hs Hu Hg).
  cbn [snd view_page view_error userData isLoggedIn].
  assert (Hdisabled : forall p r pm c,
            checkoutDisabled
              (MkPage true (Some (UserData.Build id (or_else e "") "" "" "" empty_address))
                 p r pm c) = true).
  { intros p r pm c. unfold checkoutDisabled, hasCompleteProfile.
    cbn [isLoggedIn processingPayment userData is_some negb UserData.first_name
         JS.truthy String.eqb andb orb].
    destruct p; reflexivity. }
  split; [reflexivity|]. split; [reflexivity|]. split; [reflexivity|].
  split; [reflexivity|]. split; [apply Hdisabled|]. split.
  - intros env d. unfold onClick, clicked. cbn [page view_page]. rewrite Hdisabled.
    reflexivity.
  - intros env w.
    apply (handlePayment_profile_error_writes_nothing env _
             (UserData.Build id (or_else e "") "" "" "" empty_address)); reflexivity.
Qed.

Lemma loaded_profile_checks (id : string) (row : UserRow.t) (e : option string) :
  row_complete row e = true ->
  profile_checks (combinedUserData id (Some row) e) = true
  /\ JS.truthy (UserData.email (combinedUserData id (Some row) e)) = true
  /\ JS.truthy (UserData.phone (combinedUserData id (Some row) e)) = true.
Proof.
  unfold row_complete, profile_checks, combinedUserData.
  cbn [UserData.first_name UserData.last_name UserData.email UserData.phone UserData.address].
  rewrite !truthy_or_else, truthy_or_else_2.
  destruct (UserRow.address row) as [a|].
  - destruct (JS.truthy_opt (UserRow.first_name row)),
      (JS.truthy_opt (UserRow.last_name row)),
      (JS.truthy_opt (UserRow.email row) || JS.truthy_opt e),
      (JS.truthy_opt (UserRow.phone row)),
      (JS.truthy_opt (Address.street a)), (JS.truthy_opt (Address.city a)),
      (JS.truthy_opt (Address.state a)), (JS.truthy_opt (Address.pincode a));
      cbn [andb]; intros H; try discriminate H; repeat split.
  - rewrite !andb_false_r. discriminate.
Qed.

(** X10. After [checkAuth] on a page without user data, the profile is
    complete ([hasCompleteProfile]) exactly when there is a session, the
    row of the user was read, the auth user was read, and the row has a
    first name, a last name, a phone, the four address fields and an email
    (in the row or, failing that, on the auth user). *)
Theorem loaded_profile_is_complete_iff (auth : AuthEnv) (v : CheckoutView) :
  userData (view_page v) = None ->
  hasCompleteProfile (view_page (snd (checkAuth auth v)))
  = match getSession auth with
    | got_session (Some id) =>
        match users_single auth id, getUser auth with
        | users_row row, auth_user e => row_complete row e
        | _, _ => false
        end
    | _ => false
    end.
Proof.
  intros Hnone.
  destruct (checkAuth_cases auth v)
    as [(m & Hs & ->)|[(Hs & ->)|[(id & code & m & Hs & Hu & Hc & ->)
       |[(id & m & Hs & Hu & Hg & ->)|(id & e & Hs & Hg & Hu & ->)]]]];
    rewrite Hs; cbn [snd view_page]; unfold hasCompleteProfile; cbn [userData];
    rewrite ?Hnone; try reflexivity.
  - rewrite Hu. reflexivity.
  - rewrite Hg. destruct (users_single auth id); reflexivity.
  - rewrite Hg. destruct (users_single auth id) as [row|code m].
    + unfold row_complete, combinedUserData.
      cbn [UserData.first_name UserData.last_name UserData.email UserData.phone
           UserData.address].
      rewrite !truthy_or_else, truthy_or_else_2.
      destruct (UserRow.address row) as [a|].
      * destruct (JS.truthy_opt (UserRow.first_name row)),
          (JS.truthy_opt (UserRow.last_name row)),
          (JS.truthy_opt (UserRow.email row) || JS.truthy_opt e),
          (JS.truthy_opt (UserRow.phone row)),
          (JS.truthy_opt (Address.street a)), (JS.truthy_opt (Address.city a)),
          (JS.truthy_opt (Address.state a)), (JS.truthy_opt (Address.pincode a));
          reflexivity.
      * cbn [empty_address Address.street JS.truthy_opt JS.truthy String.eqb negb].
        rewrite !andb_false_r. reflexivity.
    + unfold combinedUserData. cbn [UserData.first_name or_else JS.truthy String.eqb negb andb].
      reflexivity.
Qed.

(** ** Runs of a valid checkout *)

Lemma ends_with_app {A : Type} (l1 l2 : list A) (x : A) :
  (exists before, l2 = before ++ [x])%list ->
  (exists before, l1 ++ l2 = before ++ [x])%list.
Proof.
  intros [before ->]. exists (l1 ++ before)%list. apply app_assoc.
Qed.

Section CheckoutRuns.

Variables (env : Env) (st : PageState) (u : UserData.t) (user : string).
Variables (first : CartItem.t) (rest : list CartItem.t).

Hypothesis logged_in : isLoggedIn st = true.
Hypothesis profile : userData st = Some u.
Hypothesis signed_in : session env = Some user.
Hypothesis profile_ok : profile_checks u = true.
Hypothesis cart_is : cart st = first :: rest.
Hypothesis cart_ok : cart_checks (cart st) = true.
Hypothesis order_written : db_error env orders_insert = None.
Hypothesis lines_written : db_error env order_items_insert = None.

Let order := the_order env st u user first.
Let items := the_items env st u user first.
Let total := (getCartTotal (cart st) * 1.18)%float.

(** The run with payment method cash. *)
Lemma cash_run (w : World) :
  paymentMethod st = "cash" ->
  handlePayment env st w
  = (Returned tt,
     MkWorld
       (MkDatabase (orders (db w) ++ [order]) (order_items (db w) ++ items)
          (cook_payments (db w)))
       (page_after (page w) [])
       (log w ++ [sent (InsertOrder (orderData env st u user first));
                  sent (InsertOrderItems items);
                  toast "Order placed successfully!"
                    "Your order has been placed with cash on delivery." false;
                  router_push ("/orders/" ++ Order.id order)])).
Proof.
  intros Hmethod.
  unfold handlePayment. rewrite logged_in, profile.
  unfold try_finally, try_catch.
  rewrite (placeOrder_validated env st u user first rest) by assumption.
  exec. rewrite order_written. exec. rewrite lines_written. exec.
  rewrite Hmethod. cbn [String.eqb Ascii.eqb Bool.eqb andb].
  exec. unfold page_after. cbn.
  rewrite <- !app_assoc. reflexivity.
Qed.

(** The run with payment method online when the widget reports success,
    whatever the backend answers afterwards. *)
Lemma online_success_run (w : World) (r : RazorpayResponse.t) :
  paymentMethod st = "online" ->
  razorpayLoaded st = true ->
  gateway env = handler r ->
  existsb (has_id (generated_id env)) (orders (db w)) = false ->
  handlePayment env st w
  = (Returned tt,
     MkWorld
       (MkDatabase
          (orders (db w)
           ++ [match db_error env orders_update_paid with
               | None => apply_patch (paid env r) order
               | Some _ => order
               end])
          (order_items (db w) ++ items)
          (cook_payments (db w)
           ++ match db_error env cook_payments_insert with
              | None => [inserted_cook_payment env (cookPaymentOf env first order total)]
              | Some _ => []
              end))
       (page_after (page w) [])
       (log w
        ++ [sent (InsertOrder (orderData env st u user first));
            sent (InsertOrderItems items);
            sent (SelectCook (CartItem.cook_id first));
            razorpay_open (paymentOptions u order total);
            sent (UpdateOrder (paid env r) (Order.id order))]
        ++ match db_error env orders_update_paid with
           | None => []
           | Some _ => [console_error "Order update error:"]
           end
        ++ [sent (InsertCookPayment (cookPaymentOf env first order total))]
        ++ match db_error env cook_payments_insert with
           | None => []
           | Some _ => [console_error "Payment record error:"]
           end
        ++ [toast "Payment successful!"
              "Your order has been placed and payment received." false;
            router_push ("/orders/" ++ Order.id order)])).
Proof.
  intros Hmethod Hloaded Hgateway Hfresh.
  unfold handlePayment. rewrite logged_in, profile.
  unfold try_finally, try_catch.
  rewrite (placeOrder_validated env st u user first rest) by assumption.
  exec. rewrite order_written. exec. rewrite lines_written. exec.
  rewrite Hmethod, Hloaded. cbn [String.eqb Ascii.eqb Bool.eqb andb].
  unfold payOnline. exec. rewrite Hgateway. exec.
  destruct (db_error env orders_update_paid) as [e1|];
    destruct (db_error env cook_payments_insert) as [e2|]; exec;
    unfold page_after; rewrite <- ?app_assoc; cbn [app];
    rewrite ?map_app; cbn [map]; rewrite ?has_own_id;
    change (Order.id (inserted_order env (orderData env st u user first)))
      with (generated_id env);
    rewrite ?(update_fresh _ _ _ Hfresh), ?app_nil_r;
    reflexivity.
Qed.

(** The run with payment method online when the widget is dismissed or
    cannot be built. *)
Lemma online_failure_run (w : World) :
  paymentMethod st = "online" ->
  razorpayLoaded st = true ->
  (gateway env = ondismiss \/ exists e, gateway env = widget_throws e) ->
  existsb (has_id (generated_id env)) (orders (db w)) = false ->
  handlePayment env st w
  = (Returned tt,
     MkWorld
       (MkDatabase
          (orders (db w)
           ++ [match db_error env orders_update_failed with
               | None => apply_patch (payment_failed env) order
               | Some _ => order
               end])
          (order_items (db w) ++ items)
          (cook_payments (db w)))
       (page_after (page w) (cart (page w)))
       (log w
        ++ [sent (InsertOrder (orderData env st u user first));
            sent (InsertOrderItems items);
            sent (SelectCook (CartItem.cook_id first))]
        ++ match gateway env with
           | widget_throws _ => []
           | _ => [razorpay_open (paymentOptions u order total)]
           end
        ++ [console_error "Razorpay error:";
            sent (UpdateOrder (payment_failed env) (Order.id order));
            console_error "Payment process error:";
            toast "Payment failed"
              ("Payment failed: "
               ++ match gateway env with
                  | widget_throws e => JS.message_or e "Unknown payment error"
                  | _ => "Payment cancelled by user"
                  end)
              true])).
Proof.
  intros Hmethod Hloaded Hgateway Hfresh.
  unfold handlePayment. rewrite logged_in, profile.
  unfold try_finally, try_catch.
  rewrite (placeOrder_validated env st u user first rest) by assumption.
  exec. rewrite order_written. exec. rewrite lines_written. exec.
  rewrite Hmethod, Hloaded. cbn [String.eqb Ascii.eqb Bool.eqb andb].
  unfold payOnline. exec.
  destruct Hgateway as [Hgateway|[e Hgateway]]; rewrite Hgateway; exec;
    destruct (db_error env orders_update_failed) as [e1|]; exec;
    unfold page_after; rewrite <- ?app_assoc; cbn [app];
    rewrite ?map_app; cbn [map]; rewrite ?has_own_id;
    change (Order.id (inserted_order env (orderData env st u user first)))
      with (generated_id env);
    rewrite ?(update_fresh _ _ _ Hfresh), ?app_nil_r;
    reflexivity.
Qed.

(** X11. When the widget is dismissed, or cannot be built, the run of
    [handlePayment] ends with the failure shown: the Order written a moment
    before is sent the update {status payment_failed, payment_status failed},
    no Payable is written, the cart is kept and the spinner is off. If the
    backend carries the update out the Order reads payment_failed/failed with
    no payment id; if it refuses it, the Order stays pending/pending and
    nothing records the failure of the update. *)
Theorem unfinished_payment_marks_the_order_failed (w : World) :
  paymentMethod st = "online" ->
  razorpayLoaded st = true ->
  (gateway env = ondismiss \/ exists e, gateway env = widget_throws e) ->
  existsb (has_id (generated_id env)) (orders (db w)) = false ->
  let w' := snd (handlePayment env st w) in
  fst (handlePayment env st w) = Returned tt
  /\ cook_payments (db w') = cook_payments (db w)
  /\ order_items (db w') = (order_items (db w) ++ items)%list
  /\ cart (page w') = cart (page w)
  /\ processingPayment (page w') = false
  /\ In (sent (UpdateOrder (payment_failed env) (Order.id order))) (log w')
  /\ (exists message,
        In (toast "Payment failed" ("Payment failed: " ++ message) true) (log w'))
  /\ (db_error env orders_update_failed = None ->
      orders (db w') = (orders (db w) ++ [apply_patch (payment_failed env) order])%list
      /\ Order.status (apply_patch (payment_failed env) order) = "payment_failed"
      /\ Order.payment_status (apply_patch (payment_failed env) order) = "failed"
      /\ Order.payment_id (apply_patch (payment_failed env) order) = None)
  /\ (db_error env orders_update_failed <> None ->
      orders (db w') = (orders (db w) ++ [order])%list
      /\ Order.status order = "pending"
      /\ Order.payment_status order = "pending"
      /\ ~ In (console_error "Order update error:") (skipn (List.length (log w)) (log w'))).
Proof.
  intros Hmethod Hloaded Hgateway Hfresh w'. subst w'.
  rewrite (online_failure_run w Hmethod Hloaded Hgateway Hfresh).
  cbn [fst snd db page log cook_payments order_items orders].
  split; [reflexivity|]. split; [reflexivity|]. split; [reflexivity|].
  split; [reflexivity|]. split; [reflexivity|].
  split; [|split; [|split]].
  - apply in_or_app. right. apply in_or_app. right. apply in_or_app. right.
    cbn [In]. auto.
  - eexists. apply in_or_app. right. apply in_or_app. right. apply in_or_app. right.
    cbn [In]. do 3 right. left. reflexivity.
  - intros ->. repeat split.
  - intros Herr. destruct (db_error env orders_update_failed) as [e1|];
      [|contradiction Herr; reflexivity].
    split; [reflexivity|]. split; [reflexivity|]. split; [reflexivity|].
    rewrite skipn_app, skipn_all, Nat.sub_diag. cbn [skipn app].
    destruct (gateway env); cbn [app In]; intros H;
      repeat (destruct H as [H|H]; [discriminate H|]); exact H.
Qed.

(** X12. When the widget reports success the page reports success too,
    whatever the backend answers to the update of the Order and to the
    insert of the Payable: the cart is cleared, the toast Payment successful
    is shown and the page goes to the order. If the update was refused the
    Order is still pending/pending, and if the insert was refused there is
    no Payable: the only trace is a line on the console. *)
Theorem online_success_is_reported_whatever_the_backend_says
    (w : World) (r : RazorpayResponse.t) :
  paymentMethod st = "online" ->
  razorpayLoaded st = true ->
  gateway env = handler r ->
  existsb (has_id (generated_id env)) (orders (db w)) = false ->
  let w' := snd (handlePayment env st w) in
  fst (handlePayment env st w) = Returned tt
  /\ cart (page w') = []
  /\ processingPayment (page w') = false
  /\ In (toast "Payment successful!" "Your order has been placed and payment received."
           false) (log w')
  /\ In (router_push ("/orders/" ++ Order.id order)) (log w')
  /\ (db_error env orders_update_paid <> None ->
      orders (db w') = (orders (db w) ++ [order])%list
      /\ Order.status order = "pending"
      /\ Order.payment_status order = "pending"
      /\ In (console_error "Order update error:") (log w'))
  /\ (db_error env cook_payments_insert <> None ->
      cook_payments (db w') = cook_payments (db w)
      /\ In (console_error "Payment record error:") (log w')).
Proof.
  intros Hmethod Hloaded Hgateway Hfresh w'. subst w'.
  rewrite (online_success_run w r Hmethod Hloaded Hgateway Hfresh).
  cbn [fst snd db page log cook_payments order_items orders cart processingPayment
       page_after].
  split; [reflexivity|]. split; [reflexivity|]. split; [reflexivity|].
  split; [|split; [|split]].
  - repeat (apply in_or_app; right). cbn [In]. auto.
  - repeat (apply in_or_app; right). cbn [In]. auto.
  - intros Herr. destruct (db_error env orders_update_paid) as [e1|];
      [|contradiction Herr; reflexivity].
    split; [reflexivity|]. split; [reflexivity|]. split; [reflexivity|].
    apply in_or_app. right. apply in_or_app. right. apply in_or_app. left.
    cbn [In]. auto.
  - intros Herr. destruct (db_error env cook_payments_insert) as [e2|];
      [|contradiction Herr; reflexivity].
    split; [apply app_nil_r|].
    do 3 (apply in_or_app; right). apply in_or_app. right. apply in_or_app. left.
    cbn [In]. auto.
Qed.


End CheckoutRuns.

(** ** From the load of the user to the order *)

(** X14. A user whom [checkAuth] loads with a complete row can check out:
    the button is enabled, and a click with payment method cash, under the
    session of the same user and with a backend that takes the two inserts,
    writes one Order that belongs to the user of the session, is delivered
    to the address of the row, goes to the cook of the first item of the
    cart, totals the cart with 18 percent on top and is pending, together
    with a line for every item of the cart. *)
Theorem loaded_user_places_cash_order
    (auth : AuthEnv) (env : Env) (d : Database) (v : CheckoutView)
    (id : string) (row : UserRow.t) (e : option string)
    (first : CartItem.t) (rest : list CartItem.t) :
  getSession auth = got_session (Some id) ->
  users_single auth id = users_row row ->
  getUser auth = auth_user e ->
  row_complete row e = true ->
  session env = Some id ->
  cart (view_page v) = first :: rest ->
  cart_checks (first :: rest) = true ->
  paymentMethod (view_page v) = "cash" ->
  processingPayment (view_page v) = false ->
  db_error env orders_insert = None ->
  db_error env order_items_insert = None ->
  let v' := snd (checkAuth auth v) in
  checkoutDisabled (view_page v') = false
  /\ exists order,
       db (snd (onClick env (clicked d v')))
       = MkDatabase (orders d ++ [order])
           (order_items d ++ orderItems order (first :: rest)) (cook_payments d)
       /\ Order.user_id order = id
       /\ Some (Order.delivery_address order) = UserRow.address row
       /\ Order.cook_id order = CartItem.cook_id first
       /\ Order.total order = (getCartTotal (first :: rest) * 1.18)%float
       /\ Order.payment_method order = "cash"
       /\ Order.status order = "pending"
       /\ Order.payment_status order = "pending".
Proof.
  intros Hs Hu Hg Hrow Hsession Hcart Hitems Hmethod Hspinner Hinsert Hlines v'.
  destruct (loaded_profile_checks id row e Hrow) as (Hchecks & Hemail & Hphone).
  assert (Hv' : v' = MkView (MkPage true (Some (combinedUserData id (Some row) e)) false
                               (razorpayLoaded (view_page v)) "cash" (first :: rest))
                       false None (view_log v)).
  { subst v'. run. rewrite Hs. run. rewrite Hu. run. rewrite Hg. run.
    rewrite Hcart, Hmethod, Hspinner. reflexivity. }
  rewrite Hv'. cbn [view_page].
  assert (Hdisabled : checkoutDisabled
                        (MkPage true (Some (combinedUserData id (Some row) e)) false
                           (razorpayLoaded (view_page v)) "cash" (first :: rest)) = false).
  { destruct (profile_checks_split _ Hchecks) as [Hname Haddr].
    apply orb_false_iff in Hname. destruct Hname as [Hfirst Hlast].
    apply negb_false_iff in Hfirst, Hlast.
    repeat (apply orb_false_iff in Haddr; destruct Haddr as [Haddr ?]).
    repeat match goal with H : negb _ = false |- _ => apply negb_false_iff in H end.
    unfold checkoutDisabled, hasCompleteProfile.
    cbn [isLoggedIn processingPayment userData is_some paymentMethod razorpayLoaded negb orb].
    rewrite Hfirst, Hlast, Hemail, Hphone.
    repeat match goal with H : JS.truthy_opt _ = true |- _ => rewrite H; clear H end.
    reflexivity. }
  split; [exact Hdisabled|].
  unfold onClick, clicked. cbn [page view_page]. rewrite Hdisabled.
  rewrite (cash_run env
             (MkPage true (Some (combinedUserData id (Some row) e)) false
                (razorpayLoaded (view_page v)) "cash" (first :: rest))
             (combinedUserData id (Some row) e) id first rest
             eq_refl eq_refl Hsession Hchecks eq_refl Hitems Hinsert Hlines _ eq_refl).
  eexists. cbn [snd db orders order_items cook_payments].
  split; [reflexivity|].
  unfold the_order, inserted_order, orderData.
  cbn [Order.user_id Order.delivery_address Order.cook_id Order.total Order.payment_method
       Order.status Order.payment_status OrderData.user_id OrderData.delivery_address
       OrderData.cook_id OrderData.total OrderData.payment_method OrderData.status
       OrderData.payment_status cart paymentMethod].
  split; [reflexivity|]. split.
  { unfold combinedUserData. cbn [UserData.address].
    unfold row_complete in Hrow. destruct (UserRow.address row) as [a|]; [reflexivity|].
    rewrite !andb_false_r in Hrow. discriminate Hrow. }
  repeat split.
Qed.

(** X15. The effect of the page is [checkAuth] with the redirect in front:
    it leaves the page, the loading flag and the error that [checkAuth]
    alone would leave, so an empty cart does not stop the load of the user;
    with an empty cart it first shows the toast Your cart is empty and asks
    for the home page, with any other cart it writes what [checkAuth] writes
    and asks for no page. *)
Theorem effect_redirects_exactly_on_an_empty_cart (auth : AuthEnv) (v : CheckoutView) :
  let v1 := snd (checkAuth auth v) in
  let v2 := snd (checkoutEffect auth v) in
  fst (checkoutEffect auth v) = Returned tt
  /\ view_page v2 = view_page v1
  /\ view_loading v2 = view_loading v1
  /\ view_error v2 = view_error v1
  /\ exists events,
       view_log v1 = (view_log v ++ events)%list
       /\ (forall path, ~ In (shown (router_push path)) events)
       /\ (cart (view_page v) = [] ->
           view_log v2
           = (view_log v
              ++ [shown (toast "Your cart is empty"
                           "Please add items to your cart before checking out." false);
                  shown (router_push "/")]
              ++ events)%list)
       /\ (cart (view_page v) <> [] -> view_log v2 = view_log v1).
Proof.
  intros v1 v2. subst v1 v2.
  assert (Hnone : forall events : list PageEvent,
            (forall ev, In ev events ->
                        match ev with shown (router_push _) => False | _ => True end) ->
            forall path, ~ In (shown (router_push path)) events).
  { intros events Hall path Hin. exact (Hall _ Hin). }
  destruct (getSession auth) as [[id|]|m] eqn:Hs;
    [destruct (users_single auth id) as [row|code m] eqn:Hu;
       [|destruct (String.eqb code "PGRST116") eqn:Hc];
       try (destruct (getUser auth) as [e|m'] eqn:Hg)| |];
    run; destruct (cart (view_page v)) as [|item items] eqn:Hcart;
    cbn [List.length Nat.eqb]; run; rewrite Hs; run;
    rewrite ?Hu; run; rewrite ?Hc; run; rewrite ?Hg; run;
    (split; [reflexivity|]); (split; [reflexivity|]); (split; [reflexivity|]);
    (split; [reflexivity|]);
    rewrite <- ?app_assoc; cbn [app];
    first [ exists []; rewrite ?app_nil_r; split; [reflexivity|];
            split; [apply Hnone; intros ev []|];
            split; [intros H; try discriminate H; reflexivity
                   |intros H; try (contradiction H; reflexivity); reflexivity]
          | eexists; split; [reflexivity|];
            split; [apply Hnone; intros ev Hin; cbn [In] in Hin;
                    repeat (destruct Hin as [<-|Hin]; [exact I|]); contradiction Hin|];
            split; [intros H; try discriminate H; reflexivity
                   |intros H; try (contradiction H; reflexivity); reflexivity] ].
Qed.

(** ** Amounts *)

Lemma all_from_spec (check : Z -> bool) (count : positive) :
  forall lo, all_from check lo count = true ->
  forall z, lo <= z < lo + Z.pos count -> check z = true.
Proof.
  induction count as [p IH|p IH|]; intros lo H z Hz; cbn [all_from] in H.
  - apply andb_prop in H. destruct H as [H H2]. apply andb_prop in H. destruct H as [H0 H1].
    destruct (Z.eq_dec z lo) as [->|Hne]; [exact H0|].
    destruct (Z_lt_le_dec z (lo + 1 + Z.pos p)) as [Hlt|Hge].
    + apply (IH _ H1). lia.
    + apply (IH _ H2). lia.
  - apply andb_prop in H. destruct H as [H1 H2].
    destruct (Z_lt_le_dec z (lo + Z.pos p)) as [Hlt|Hge].
    + apply (IH _ H1). lia.
    + apply (IH _ H2). lia.
  - assert (z = lo) as -> by lia. exact H.
Qed.

Lemma same_eq (x y : float) : Number.same x y = true -> x = y.
Proof.
  unfold Number.same. intros H. apply Prim2SF_inj.
  destruct (Prim2SF x) as [a|a| |s m e], (Prim2SF y) as [b|b| |s' m' e'];
    try discriminate H; try reflexivity.
  - apply Bool.eqb_prop in H. subst. reflexivity.
  - apply Bool.eqb_prop in H. subst. reflexivity.
  - apply andb_prop in H. destruct H as [H He]. apply andb_prop in H. destruct H as [Hs Hm].
    apply Bool.eqb_prop in Hs. apply Pos.eqb_eq in Hm. apply Z.eqb_eq in He.
    subst. reflexivity.
Qed.

Lemma paise_checked : all_from paise_round_trip 0 50001 = true.
Proof. vm_compute. reflexivity. Qed.

Lemma whole_rupees_checked (toString : float -> string) :
  all_from (whole_rupees_check toString) 0 5001 = true.
Proof. vm_compute. reflexivity. Qed.

(** X16. Paise survive the way to rupees and back: for every whole number
    of paise up to 50000 (500 rupees), [toPaise (toRupees p)] is [p]
    again, although [p / 100] is not exact in binary. *)
Theorem paise_survive_the_round_trip (p : Z) :
  0 <= p <= 50000 ->
  toPaise (toRupees (Number.integer p)) = Number.integer p.
Proof.
  intros Hp. apply same_eq.
  apply (all_from_spec paise_round_trip 50001 0 paise_checked). lia.
Qed.

(** X17. For a cart whose subtotal is a whole number of rupees up to 5000,
    the order summary is exact: it shows the subtotal, 18 percent of it as
    the tax and 118 percent of it as the total, each to the paisa, and the
    amount handed to the gateway in paise is that same total, so that what
    the button says (Pay and the total) is what is charged. *)
Theorem whole_rupee_total_shown_is_charged
    (toString : float -> string) (st : PageState) (u : UserData.t) (order : Order.t)
    (s : Z) :
  0 <= s <= 5000 ->
  getCartTotal (cart st) = Number.integer s ->
  subtotalShown toString (cart st) = Number.point (100 * s) 2
  /\ taxShown toString (cart st) = Number.point (18 * s) 2
  /\ totalShown toString (cart st) = Number.point (118 * s) 2
  /\ PaymentParams.amount (paymentOptions u order (getCartTotal (cart st) * 1.18)%float)
     = Number.integer (118 * s)
  /\ (processingPayment st = false ->
      paymentMethod st = "online" ->
      buttonLabel toString st = "Pay ₹" ++ Number.point (118 * s) 2).
Proof.
  intros Hs Htotal.
  assert (Hcheck : whole_rupees_check toString s = true).
  { apply (all_from_spec _ 5001 0 (whole_rupees_checked toString)). lia. }
  unfold whole_rupees_check in Hcheck.
  apply andb_prop in Hcheck. destruct Hcheck as [Hcheck Hpaise].
  apply andb_prop in Hcheck. destruct Hcheck as [Hcheck Htot].
  apply andb_prop in Hcheck. destruct Hcheck as [Hsub Htax].
  apply String.eqb_eq in Hsub, Htax, Htot. apply same_eq in Hpaise.
  unfold subtotalShown, taxShown, totalShown, buttonLabel, paymentOptions.
  cbn [PaymentParams.amount]. rewrite Htotal.
  split; [exact Hsub|]. split; [exact Htax|]. split; [exact Htot|].
  split; [exact Hpaise|].
  intros -> ->. cbn [String.eqb Ascii.eqb Bool.eqb]. rewrite Htot. reflexivity.
Qed.

(** A subtotal with paise in it need not be shown as it is charged: at
    1.25 the total is shown as 1.47 and charged as 148 paise. *)
Example fractional_total_shown_is_not_charged (toString : float -> string) :
  totalShown toString [item_at_1_25] = "1.47"
  /\ toPaise (getCartTotal [item_at_1_25] * 1.18)%float = 148%float.
Proof. split; vm_compute; reflexivity. Qed.

(** ** The route that creates an order at the gateway *)


(** ** The cook's payments *)

Ltac fetch :=
  repeat (progress
    (unfold PaymentStatus.fetchPayments, PaymentStatus.setIsLoading, PaymentStatus.setError,
       PaymentStatus.setPayments, PaymentStatus.setTotalEarnings,
       PaymentStatus.setPendingEarnings, PaymentStatus.console_error,
       Eff.try_finally, Eff.try_catch, Eff.bind, Eff.ret, Eff.throw, Eff.modify;
     cbn [PaymentStatus.payments PaymentStatus.isLoading PaymentStatus.error
          PaymentStatus.totalEarnings PaymentStatus.pendingEarnings PaymentStatus.console
          fst snd])).

(** X19. When the fetch of the cook's payments cannot go through (nobody
    is signed in, the signed-in user has no readable row in [cooks], or the
    payments cannot be read), the component settles with the one message
    Failed to load payment data, whatever the cause; the list and the two
    sums stay what they were, and the error card is rendered. *)
Theorem failed_fetch_shows_one_message
    (backend : PaymentStatus.Backend) (v : PaymentStatus.View) :
  PaymentStatus.refuses backend ->
  PaymentStatus.fetchPayments backend v
  = (Returned tt,
     PaymentStatus.MkView (PaymentStatus.payments v) false
       (Some "Failed to load payment data")
       (PaymentStatus.totalEarnings v) (PaymentStatus.pendingEarnings v)
       (PaymentStatus.console v ++ ["Error fetching payments:"]))
  /\ PaymentStatus.render (snd (PaymentStatus.fetchPayments backend v))
     = PaymentStatus.error_card "Failed to load payment data".
Proof.
  unfold PaymentStatus.refuses. intros H.
  assert (Hrun : PaymentStatus.fetchPayments backend v
                 = (Returned tt,
                    PaymentStatus.MkView (PaymentStatus.payments v) false
                      (Some "Failed to load payment data")
                      (PaymentStatus.totalEarnings v) (PaymentStatus.pendingEarnings v)
                      (PaymentStatus.console v ++ ["Error fetching payments:"]))).
  { fetch. destruct (PaymentStatus.session_user backend) as [user|]; fetch; [|reflexivity].
    destruct (PaymentStatus.cooks_single backend user) as [cook|e]; fetch; [|reflexivity].
    destruct (PaymentStatus.cook_payments_of backend cook) as [rows|e]; fetch;
      [contradiction H|reflexivity]. }
  split; [exact Hrun|]. rewrite Hrun. reflexivity.
Qed.

Lemma filter_all {A : Type} (f : A -> bool) (l : list A) :
  (forall x, In x l -> f x = true) -> filter f l = l.
Proof.
  induction l as [|x l IH]; intros H; cbn [filter]; [reflexivity|].
  rewrite (H x (or_introl eq_refl)). f_equal. apply IH. intros y Hy. apply H. right. exact Hy.
Qed.

Lemma filter_none {A : Type} (f : A -> bool) (l : list A) :
  (forall x, In x l -> f x = false) -> filter f l = [].
Proof.
  induction l as [|x l IH]; intros H; cbn [filter]; [reflexivity|].
  rewrite (H x (or_introl eq_refl)). apply IH. intros y Hy. apply H. right. exact Hy.
Qed.

(** X20. When the payments of the cook are read, the component shows them
    in the order and with the amounts the backend gave, one entry per row,
    each with the name of its customer or Unknown Customer; Total Earnings
    is the sum of all the amounts, whatever their status, and Pending
    Payments the sum of the pending ones. So while every payment is pending
    the two figures are the same, and without a pending payment the second
    is zero. *)
Theorem fetched_payments_are_totalled
    (backend : PaymentStatus.Backend) (v : PaymentStatus.View)
    (user cook : string) (rows : list PaymentStatus.PaymentRow.t) :
  PaymentStatus.session_user backend = Some user ->
  PaymentStatus.cooks_single backend user = PaymentStatus.fetched cook ->
  PaymentStatus.cook_payments_of backend cook = PaymentStatus.fetched rows ->
  let v' := snd (PaymentStatus.fetchPayments backend v) in
  fst (PaymentStatus.fetchPayments backend v) = Returned tt
  /\ map PaymentStatus.Payment.row (PaymentStatus.payments v') = rows
  /\ PaymentStatus.payments v' = map (PaymentStatus.withCustomer backend) rows
  /\ PaymentStatus.totalEarnings v' = PaymentStatus.sum (PaymentStatus.payments v')
  /\ PaymentStatus.pendingEarnings v'
     = PaymentStatus.sum (filter PaymentStatus.pending (PaymentStatus.payments v'))
  /\ PaymentStatus.isLoading v' = false
  /\ PaymentStatus.error v' = None
  /\ PaymentStatus.console v' = PaymentStatus.console v
  /\ ((forall r, In r rows -> PaymentStatus.PaymentRow.status r = "pending") ->
      PaymentStatus.pendingEarnings v' = PaymentStatus.totalEarnings v')
  /\ ((forall r, In r rows -> PaymentStatus.PaymentRow.status r <> "pending") ->
      PaymentStatus.pendingEarnings v' = 0%float).
Proof.
  intros Hs Hc Hp v'. subst v'.
  fetch. rewrite Hs. fetch. rewrite Hc. fetch. rewrite Hp. fetch.
  split; [reflexivity|]. split.
  { rewrite map_map. cbn [PaymentStatus.withCustomer PaymentStatus.Payment.row].
    apply map_id. }
  split; [reflexivity|]. split; [reflexivity|]. split; [reflexivity|].
  split; [reflexivity|]. split; [reflexivity|]. split; [reflexivity|]. split.
  - intros Hall. rewrite filter_all; [reflexivity|].
    intros p Hin. apply in_map_iff in Hin. destruct Hin as (r & <- & Hr).
    unfold PaymentStatus.pending. cbn [PaymentStatus.withCustomer PaymentStatus.Payment.row].
    rewrite (Hall r Hr). reflexivity.
  - intros Hnone. rewrite filter_none; [reflexivity|].
    intros p Hin. apply in_map_iff in Hin. destruct Hin as (r & <- & Hr).
    unfold PaymentStatus.pending. cbn [PaymentStatus.withCustomer PaymentStatus.Payment.row].
    apply String.eqb_neq. apply Hnone. exact Hr.
Qed.

(** ** What the runs keep *)

Section Keeping.

Variable R : Database -> Database -> Prop.
Variable may_suspend : Prop.

Hypothesis R_refl : forall d, R d d.
Hypothesis R_trans : forall a b c, R a b -> R b c -> R a c.

Lemma keeps_ret {A : Type} (Q : A -> Prop) (a : A) : Q a -> keeps R may_suspend Q (ret a).
Proof. intros H w. split; [apply R_refl|exact H]. Qed.

Lemma keeps_throw {A : Type} (Q : A -> Prop) (e : JS.exn) :
  keeps R may_suspend Q (throw e).
Proof. intros w. split; [apply R_refl|exact I]. Qed.

Lemma keeps_bind {A B : Type} (Q : A -> Prop) (Q' : B -> Prop) (m : M A) (k : A -> M B) :
  keeps R may_suspend Q m ->
  (forall a, Q a -> keeps R may_suspend Q' (k a)) ->
  keeps R may_suspend Q' (bind m k).
Proof.
  intros Hm Hk w. unfold bind. specialize (Hm w).
  destruct (m w) as [[a|e|] w1]; cbn [fst snd] in *; destruct Hm as [HR HQ].
  - specialize (Hk a HQ w1). destruct Hk as [HR' HQ'].
    split; [exact (R_trans _ _ _ HR HR')|exact HQ'].
  - split; [exact HR|exact I].
  - split; [exact HR|exact HQ].
Qed.

Lemma keeps_try_catch {A : Type} (Q : A -> Prop) (m : M A) (h : JS.exn -> M A) :
  keeps R may_suspend Q m ->
  (forall e, keeps R may_suspend Q (h e)) ->
  keeps R may_suspend Q (try_catch m h).
Proof.
  intros Hm Hh w. unfold try_catch. specialize (Hm w).
  destruct (m w) as [[a|e|] w1]; cbn [fst snd] in *; destruct Hm as [HR HQ].
  - split; assumption.
  - specialize (Hh e w1). destruct Hh as [HR' HQ'].
    split; [exact (R_trans _ _ _ HR HR')|exact HQ'].
  - split; assumption.
Qed.

Lemma keeps_try_finally {A : Type} (Q : A -> Prop) (m : M A) (f : M unit) :
  keeps R may_suspend Q m ->
  keeps R may_suspend (fun _ => True) f ->
  keeps R may_suspend Q (try_finally m f).
Proof.
  intros Hm Hf w. unfold try_finally. specialize (Hm w).
  destruct (m w) as [[a|e|] w1]; cbn [fst snd] in *; destruct Hm as [HR HQ];
    try (split; assumption);
    specialize (Hf w1); destruct (f w1) as [[[]|e'|] w2]; cbn [fst snd] in *;
    destruct Hf as [HR' HQ'];
    (split; [exact (R_trans _ _ _ HR HR')|first [exact HQ|exact I|exact HQ']]).
Qed.

(** A step that leaves the tables alone and returns. *)
Lemma keeps_page {A : Type} (m : M A) :
  (forall w, exists a, fst (m w) = Returned a /\ db (snd (m w)) = db w) ->
  keeps R may_suspend (fun _ => True) m.
Proof.
  intros H w. destruct (H w) as (a & Hr & Hd). rewrite Hr, Hd.
  split; [apply R_refl|exact I].
Qed.

Lemma keeps_emit (e : Event) : keeps R may_suspend (fun _ => True) (emit e).
Proof. apply keeps_page. intros w. exists tt. split; reflexivity. Qed.

Lemma keeps_setProcessingPayment (b : bool) :
  keeps R may_suspend (fun _ => True) (setProcessingPayment b).
Proof. apply keeps_page. intros w. exists tt. split; reflexivity. Qed.

Lemma keeps_clearCart : keeps R may_suspend (fun _ => True) clearCart.
Proof. apply keeps_page. intros w. exists tt. split; reflexivity. Qed.

Lemma keeps_auth_getSession (env : Env) :
  keeps R may_suspend (fun _ => True) (auth_getSession env).
Proof. apply keeps_page. intros w. eexists. split; reflexivity. Qed.

Lemma keeps_cooks_select_single (id : string) :
  keeps R may_suspend (fun _ => True) (cooks_select_single id).
Proof. apply keeps_page. intros w. exists tt. split; reflexivity. Qed.

Lemma keeps_orders_select_single (env : Env) (id : string) :
  keeps R may_suspend (fun _ => True) (orders_select_single env id).
Proof.
  apply keeps_page. intros w. unfold orders_select_single. exec.
  destruct (db_error env orders_select); exec; [eexists; split; reflexivity|].
  destruct (filter (has_id id) (orders (db w))) as [|o [|o' rows]]; exec;
    eexists; split; reflexivity.
Qed.

Lemma keeps_initiatePayment (env : Env) (options : PaymentParams.t) :
  (gateway env = no_answer -> may_suspend) ->
  keeps R may_suspend (fun _ => True) (initiatePayment env options).
Proof.
  intros Hs w. unfold initiatePayment.
  destruct (gateway env); exec; cbn [fst snd db]; (split; [apply R_refl|]);
    first [exact I|apply Hs; reflexivity].
Qed.

End Keeping.

Lemma grows_around_refl (id : string) (d : Database) : grows_around id d d.
Proof.
  split; [intros o Ho _; exact Ho|].
  split; [exists []; symmetry; apply app_nil_r|].
  exists []. split; [symmetry; apply app_nil_r|]. intros p [].
Qed.

Lemma grows_around_trans (id : string) (a b c : Database) :
  grows_around id a b -> grows_around id b c -> grows_around id a c.
Proof.
  intros (Ho & (l & Hl) & (p & Hp & Hpending)) (Ho' & (l' & Hl') & (p' & Hp' & Hpending')).
  split; [intros o Hin Hne; apply Ho'; [apply Ho|]; assumption|].
  split; [exists (l ++ l')%list; rewrite Hl', Hl, app_assoc; reflexivity|].
  exists (p ++ p')%list. split; [rewrite Hp', Hp, app_assoc; reflexivity|].
  intros x Hx. apply in_app_or in Hx. destruct Hx as [Hx|Hx]; auto.
Qed.

Section Around.

Variable env : Env.
Variable id : string.
Variable may_suspend : Prop.

Lemma around_orders_insert (d : OrderData.t) :
  keeps (grows_around id) may_suspend
    (fun created =>
       match created with
       | data order => Order.id order = generated_id env
       | error _ => True
       end)
    (orders_insert_select_single env d).
Proof.
  intros w. unfold orders_insert_select_single. exec.
  destruct (db_error env orders_insert); exec; cbn [fst snd db].
  - split; [apply grows_around_refl|exact I].
  - split; [|reflexivity].
    split; [intros o Ho _; cbn [orders]; apply in_or_app; left; exact Ho|].
    split; [exists []; cbn [order_items]; symmetry; apply app_nil_r|].
    exists []. split; [cbn [cook_payments]; symmetry; apply app_nil_r|]. intros p [].
Qed.

Lemma around_order_items_insert (rows : list OrderItem.t) :
  keeps (grows_around id) may_suspend (fun _ => True) (order_items_insert_rows env rows).
Proof.
  intros w. unfold order_items_insert_rows. exec.
  destruct (db_error env order_items_insert); exec; cbn [fst snd db].
  - split; [apply grows_around_refl|exact I].
  - split; [|exact I].
    split; [intros o Ho _; exact Ho|].
    split; [exists rows; reflexivity|].
    exists []. split; [cbn [cook_payments]; symmetry; apply app_nil_r|]. intros p [].
Qed.

Lemma around_orders_delete :
  keeps (grows_around id) may_suspend (fun _ => True) (orders_delete_eq_id env id).
Proof.
  intros w. unfold orders_delete_eq_id. exec.
  destruct (db_error env orders_delete); exec; cbn [fst snd db].
  - split; [apply grows_around_refl|exact I].
  - split; [|exact I].
    split.
    { intros o Ho Hne. cbn [orders]. apply filter_In. split; [exact Ho|].
      unfold has_id. apply negb_true_iff. apply String.eqb_neq. exact Hne. }
    split; [exists []; cbn [order_items]; symmetry; apply app_nil_r|].
    exists []. split; [cbn [cook_payments]; symmetry; apply app_nil_r|]. intros p [].
Qed.

Lemma around_orders_update (at_ : Stmt) (p : OrderPatch.t) :
  keeps (grows_around id) may_suspend (fun _ => True) (orders_update_eq_id env at_ p id).
Proof.
  intros w. unfold orders_update_eq_id. exec.
  destruct (db_error env at_); exec; cbn [fst snd db].
  - split; [apply grows_around_refl|exact I].
  - split; [|exact I].
    split.
    { intros o Ho Hne. cbn [orders]. apply in_map_iff. exists o. split; [|exact Ho].
      unfold has_id. apply String.eqb_neq in Hne. rewrite Hne. reflexivity. }
    split; [exists []; cbn [order_items]; symmetry; apply app_nil_r|].
    exists []. split; [cbn [cook_payments]; symmetry; apply app_nil_r|]. intros q [].
Qed.

Lemma around_cook_payments_insert (d : CookPaymentData.t) :
  CookPaymentData.status d = "pending" ->
  keeps (grows_around id) may_suspend (fun _ => True) (cook_payments_insert_row env d).
Proof.
  intros Hpending w. unfold cook_payments_insert_row. exec.
  destruct (db_error env cook_payments_insert); exec; cbn [fst snd db].
  - split; [apply grows_around_refl|exact I].
  - split; [|exact I].
    split; [intros o Ho _; exact Ho|].
    split; [exists []; cbn [order_items]; symmetry; apply app_nil_r|].
    eexists. split; [reflexivity|].
    intros p [<-|[]]. exact Hpending.
Qed.

End Around.

(** ** The checkout keeps to its own order *)

Ltac around :=
  repeat
    match goal with
    | |- keeps _ _ _ (bind _ _) =>
        eapply (keeps_bind _ _ (grows_around_trans _)); [|intros ? ?]
    | |- keeps _ _ _ (ret _) => apply (keeps_ret _ _ (grows_around_refl _)); try exact I
    | |- keeps _ _ _ (throw _) => apply (keeps_throw _ _ (grows_around_refl _))
    | |- keeps _ _ _ (emit _) => apply (keeps_emit _ _ (grows_around_refl _))
    | |- keeps _ _ _ (setProcessingPayment _) =>
        apply (keeps_setProcessingPayment _ _ (grows_around_refl _))
    | |- keeps _ _ _ clearCart => apply (keeps_clearCart _ _ (grows_around_refl _))
    | |- keeps _ _ _ (auth_getSession _) =>
        apply (keeps_auth_getSession _ _ (grows_around_refl _))
    | |- keeps _ _ _ (cooks_select_single _) =>
        apply (keeps_cooks_select_single _ _ (grows_around_refl _))
    | |- keeps _ _ _ (orders_select_single _ _) =>
        apply (keeps_orders_select_single _ _ (grows_around_refl _))
    | |- keeps _ _ _ (orders_insert_select_single _ _) => apply around_orders_insert
    | |- keeps _ _ _ (order_items_insert_rows _ _) => apply around_order_items_insert
    | |- keeps _ _ _ (orders_delete_eq_id _ _) => apply around_orders_delete
    | |- keeps _ _ _ (orders_update_eq_id _ _ _ _) => apply around_orders_update
    | |- keeps _ _ _ (cook_payments_insert_row _ _) =>
        apply around_cook_payments_insert; reflexivity
    | |- keeps _ _ _ (if ?c then _ else _) => destruct c eqn:?
    | |- keeps _ _ _ (match ?x with _ => _ end) => destruct x eqn:?
    end.

Lemma payOnline_keeps (env : Env) (st : PageState) (u : UserData.t) (first : CartItem.t)
    (order : Order.t) (may_suspend : Prop) :
  (gateway env = no_answer -> may_suspend) ->
  keeps (grows_around (Order.id order)) may_suspend (fun _ => True)
    (payOnline env st u first order).
Proof.
  intros Hs. unfold payOnline.
  apply (keeps_try_catch _ _ (grows_around_trans _)); [|intros e]; around.
  apply (keeps_initiatePayment _ _ (grows_around_refl _)). exact Hs.
Qed.

Lemma placeOrder_keeps (env : Env) (st : PageState) (u : UserData.t) :
  keeps (grows_around (generated_id env))
    (gateway env = no_answer /\ paymentMethod st = "online" /\ razorpayLoaded st = true)
    (fun _ => True) (placeOrder env st u).
Proof.
  unfold placeOrder. around.
  - match goal with H : Order.id _ = generated_id env |- _ => rewrite H end.
    apply around_orders_delete.
  - match goal with H : Order.id _ = generated_id env |- _ => rewrite <- H end.
    apply payOnline_keeps. intros Hgateway.
    match goal with
    | H : (_ && _)%bool = true |- _ => apply andb_prop in H; destruct H as [Hm Hl]
    end.
    apply String.eqb_eq in Hm. auto.
Qed.

Lemma handlePayment_keeps (env : Env) (st : PageState) :
  keeps (grows_around (generated_id env))
    (gateway env = no_answer /\ paymentMethod st = "online" /\ razorpayLoaded st = true)
    (fun _ => True) (handlePayment env st).
Proof.
  unfold handlePayment.
  destruct (isLoggedIn st); [destruct (userData st) as [u|]|]; around.
  apply (keeps_try_finally _ _ (grows_around_trans _)); [|around].
  apply (keeps_try_catch _ _ (grows_around_trans _)); [|intros e; around].
  apply placeOrder_keeps.
Qed.

(** X21. A checkout keeps to its own order. Whatever the page, the cart,
    the gateway and the backend do, a run of [handlePayment] leaves every
    Order that does not carry the id generated for the new one where and as
    it was; it removes no order line and no Payable, it only adds some; and
    every Payable it adds is pending. *)
Theorem checkout_touches_no_other_order (env : Env) (st : PageState) (w : World) :
  let d := db w in
  let d' := db (snd (handlePayment env st w)) in
  (forall o, In o (orders d) -> Order.id o <> generated_id env -> In o (orders d'))
  /\ (exists lines, order_items d' = (order_items d ++ lines)%list)
  /\ (exists payables,
        cook_payments d' = (cook_payments d ++ payables)%list
        /\ forall p, In p payables -> CookPayment.status p = "pending").
Proof. exact (proj1 (handlePayment_keeps env st w)). Qed.

(** X22. [handlePayment] always settles, except when the widget never
    answers: no exception leaves it, whatever fails inside; it stays
    suspended only in an online payment with the SDK loaded whose widget
    reports neither success nor dismissal; and whenever it returns for a
    logged-in user with user data, the spinner is off again. *)
Theorem handlePayment_settles (env : Env) (st : PageState) (w : World) :
  (forall e, fst (handlePayment env st w) <> Thrown e)
  /\ (fst (handlePayment env st w) = Suspended ->
      gateway env = no_answer /\ paymentMethod st = "online" /\ razorpayLoaded st = true)
  /\ (fst (handlePayment env st w) = Returned tt ->
      isLoggedIn st = true ->
      userData st <> None ->
      processingPayment (page (snd (handlePayment env st w))) = false).
Proof.
  split; [|split].
  - intros e. unfold handlePayment.
    destruct (isLoggedIn st); [destruct (userData st) as [u|]|]; try discriminate.
    unfold try_finally, try_catch.
    destruct (placeOrder env st u w) as [[[]|e'|] w1]; exec; discriminate.
  - intros Hs. pose proof (proj2 (handlePayment_keeps env st w)) as H.
    rewrite Hs in H. exact H.
  - intros Hret Hlogged Hdata. unfold handlePayment in *. rewrite Hlogged in *.
    destruct (userData st) as [u|]; [|contradiction Hdata; reflexivity].
    unfold try_finally, try_catch in *.
    destruct (placeOrder env st u w) as [[[]|e'|] w1]; exec;
      first [reflexivity|discriminate Hret].
Qed.

(** ** The verification route keeps to the order it is given *)

Lemma update_keeps_unwritten (id : string) (p : OrderPatch.t) (rows : list Order.t) :
  OrderPatch.payment_status p = None ->
  map unwritten (map (fun o => if has_id id o then apply_patch p o else o) rows)
  = map unwritten rows.
Proof.
  intros Hp. induction rows as [|o rows IH]; cbn [map]; [reflexivity|].
  rewrite IH. f_equal. destruct (has_id id o); [|reflexivity].
  unfold unwritten, apply_patch. cbn. rewrite Hp. reflexivity.
Qed.

Lemma update_keeps_others (id : string) (p : OrderPatch.t) (rows : list Order.t)
    (o : Order.t) :
  In o rows -> Order.id o <> id ->
  In o (map (fun o => if has_id id o then apply_patch p o else o) rows).
Proof.
  intros Ho Hne. apply in_map_iff. exists o. split; [|exact Ho].
  unfold has_id. apply String.eqb_neq in Hne. rewrite Hne. reflexivity.
Qed.

(** X23. The verification route keeps to the order it is given. Whatever
    the request and the answers of the backend, it adds, removes and moves
    no Order; of an Order it writes nothing but status, payment id and
    updated_at, so user, cook, total, payment method, payment status,
    address and creation time stay; an Order with another id than the one
    named in the request is left as it was; the order lines are untouched;
    and at most one Payable is added, pending and for the order named. *)
Theorem route_writes_only_the_named_order (env : Env) (r : RequestJson) (w : World) :
  let d := db w in
  let d' := db (snd (POST env r w)) in
  map unwritten (orders d') = map unwritten (orders d)
  /\ (forall o, In o (orders d) -> Order.id o <> named r -> In o (orders d'))
  /\ order_items d' = order_items d
  /\ (exists payables,
        cook_payments d' = (cook_payments d ++ payables)%list
        /\ (List.length payables <= 1)%nat
        /\ forall p, In p payables ->
             CookPayment.status p = "pending" /\ CookPayment.order_id p = named r).
Proof.
  cbv zeta.
  assert (Hsame : forall d0 : Database,
            map unwritten (orders d0) = map unwritten (orders d0)
            /\ (forall o, In o (orders d0) -> Order.id o <> named r ->
                          In o (orders d0))
            /\ order_items d0 = order_items d0
            /\ (exists payables,
                  cook_payments d0 = (cook_payments d0 ++ payables)%list
                  /\ (List.length payables <= 1)%nat
                  /\ forall p, In p payables ->
                       CookPayment.status p = "pending"
                       /\ CookPayment.order_id p = named r)).
  { intros d0. split; [reflexivity|]. split; [auto|]. split; [reflexivity|].
    exists []. split; [symmetry; apply app_nil_r|]. split; [apply Nat.le_0_l|].
    intros p []. }
  destruct r as [b|e]; [|exact (Hsame (db w))].
  destruct (Spec.verifies env b) eqn:Hv.
  2:{ rewrite POST_unverified by assumption. exact (Hsame (db w)). }
  rewrite POST_verified by assumption. cbn [snd named].
  unfold updateOrder.
  destruct (JS.truthy_opt (VerifyBody.order_db_id b)); [|exact (Hsame (db w))].
  exec.
  destruct (db_error env orders_update_paid); exec;
    (destruct (db_error env orders_select); exec;
     [ cbn [db orders order_items cook_payments];
       split; [try apply update_keeps_unwritten; reflexivity|];
       split; [try (intros o Ho Hne; apply update_keeps_others; assumption); auto|];
       split; [reflexivity|];
       exists []; split; [symmetry; apply app_nil_r|]; split; [apply Nat.le_0_l|];
       intros p []
     | ]);
    match goal with
    | |- context [filter ?f ?l] => destruct (filter f l) as [|o1 [|o2 rows]]
    end; exec;
    try (cbn [db orders order_items cook_payments];
         split; [try apply update_keeps_unwritten; reflexivity|];
         split; [try (intros o Ho Hne; apply update_keeps_others; assumption); auto|];
         split; [reflexivity|];
         exists []; split; [symmetry; apply app_nil_r|]; split; [apply Nat.le_0_l|];
         intros p []);
    destruct (db_error env cook_payments_insert); exec;
    cbn [db orders order_items cook_payments];
    (split; [try apply update_keeps_unwritten; reflexivity|]);
    (split; [try (intros o Ho Hne; apply update_keeps_others; assumption); auto|]);
    (split; [reflexivity|]);
    first [ exists []; split; [symmetry; apply app_nil_r|]; split; [apply Nat.le_0_l|];
            intros p []
          | eexists; split; [reflexivity|]; split; [apply Nat.le_refl|];
            intros p [<-|[]]; split; reflexivity ].
Qed.

(** ** Loading scripts *)

Ltac browse :=
  repeat (progress
    (unfold loadScript, loadRazorpay, loadRazorpaySDK, setRazorpayLoaded, querySelector,
       appendChild, tab_event, unsettled, Eff.bind, Eff.ret, Eff.modify;
     cbn [scripts tab_page tab_log fst snd])).

(** X24. [loadScript] adds a script at most once, and then answers from
    the document: when the selector for a [src] matches a script with that
    [src], a call that follows one that settled adds nothing and reports
    true, also when the load of the script had failed and the first call
    had reported false. *)
Theorem loadScript_reports_a_failed_script_as_loaded
    (browser : Browser) (src : string) (t : Tab) (first : bool) (t1 : Tab) :
  selects browser (script_selector src) src = true ->
  loadScript browser src t = (Returned first, t1) ->
  loadScript browser src t1 = (Returned true, t1)
  /\ (scripts t1 = scripts t \/ scripts t1 = (scripts t ++ [src])%list)
  /\ (first = false -> load browser src = fails).
Proof.
  intros Hself Hfirst. unfold loadScript, Eff.bind, querySelector in *.
  cbn [fst snd] in *.
  destruct (existsb (selects browser (script_selector src)) (scripts t)) eqn:Hfound.
  - unfold Eff.ret in Hfirst. injection Hfirst as <- <-.
    rewrite Hfound. split; [reflexivity|]. split; [left; reflexivity|discriminate].
  - browse. unfold appendChild, Eff.modify in Hfirst.
    assert (Hnow : existsb (selects browser (script_selector src)) (scripts t ++ [src])
                   = true).
    { rewrite existsb_app. cbn [existsb]. rewrite Hself. cbn [orb]. apply orb_true_r. }
    destruct (load browser src); unfold Eff.ret, unsettled in Hfirst;
      try discriminate Hfirst; injection Hfirst as <- <-; cbn [scripts];
      rewrite Hnow; (split; [reflexivity|]); (split; [right; reflexivity|]);
      first [discriminate|reflexivity].
Qed.

(** X25. [loadRazorpay] adds its script on every call, without looking
    for one that is there already; and when the load fails the page says
    so, keeps [razorpayLoaded] false, and with it the checkout button
    disabled for the payment method online, whatever the profile. *)
Theorem loadRazorpay_adds_a_script_on_every_call (browser : Browser) (t : Tab) :
  let t1 := snd (loadRazorpaySDK browser t) in
  let t2 := snd (loadRazorpaySDK browser t1) in
  scripts t1 = (scripts t ++ [razorpay_checkout_js])%list
  /\ scripts t2 = (scripts t ++ [razorpay_checkout_js; razorpay_checkout_js])%list
  /\ (load browser razorpay_checkout_js = fails ->
      fst (loadRazorpaySDK browser t) = Returned tt
      /\ razorpayLoaded (tab_page t1) = false
      /\ tab_log t1
         = (tab_log t
            ++ [console_error "Failed to load Razorpay SDK";
                toast "Payment system error"
                  "Failed to load payment system. Please try again later." true])%list
      /\ (paymentMethod (tab_page t) = "online" -> checkoutDisabled (tab_page t1) = true))
  /\ (load browser razorpay_checkout_js = loads ->
      fst (loadRazorpaySDK browser t) = Returned tt
      /\ razorpayLoaded (tab_page t1) = true
      /\ tab_log t1 = tab_log t)
  /\ (load browser razorpay_checkout_js = never_settles ->
      fst (loadRazorpaySDK browser t) = Suspended
      /\ tab_page t1 = tab_page t).
Proof.
  cbv zeta. browse.
  destruct (load browser razorpay_checkout_js) eqn:Hload; browse;
    (split; [reflexivity|]); (split; [rewrite <- app_assoc; reflexivity|]).
  - split; [discriminate|]. split; [|discriminate].
    intros _. split; [reflexivity|]. split; reflexivity.
  - split; [|split; discriminate].
    intros _. split; [reflexivity|]. split; [reflexivity|].
    split; [rewrite <- app_assoc; reflexivity|].
    intros Hmethod. unfold checkoutDisabled.
    cbn [paymentMethod razorpayLoaded isLoggedIn processingPayment userData].
    rewrite Hmethod. cbn [String.eqb Ascii.eqb Bool.eqb negb andb].
    rewrite !orb_true_r. reflexivity.
  - split; [discriminate|]. split; [discriminate|].
    intros _. split; reflexivity.
Qed.

(** ** The page and the route on one payment *)

Lemma filter_absent (id : string) (rows : list Order.t) :
  existsb (has_id id) rows = false -> filter (has_id id) rows = [].
Proof.
  induction rows as [|o rows IH]; cbn [existsb filter]; [reflexivity|].
  intros H. apply orb_false_iff in H. destruct H as [Ho Hrows].
  rewrite Ho. apply IH. exact Hrows.
Qed.

(** X26. The page and the route both write the Payable of a payment, and
    neither looks for the other's. When the widget reports success the page
    inserts a Payable for the new Order; when the response of the widget is
    then given to the verification route as the callback for that Order,
    and verifies, the route inserts another: the Order ends with two
    Payables more than before, both pending, both for its cook and both of
    the amount of its total. *)
Theorem paid_on_the_page_and_verified_makes_two_payables
    (env env' : Env) (st : PageState) (u : UserData.t) (user : string)
    (first : CartItem.t) (rest : list CartItem.t) (w : World) (r : RazorpayResponse.t) :
  isLoggedIn st = true ->
  userData st = Some u ->
  session env = Some user ->
  profile_checks u = true ->
  cart st = first :: rest ->
  cart_checks (cart st) = true ->
  paymentMethod st = "online" ->
  razorpayLoaded st = true ->
  gateway env = handler r ->
  accepting env ->
  existsb (has_id (generated_id env)) (orders (db w)) = false ->
  JS.truthy (generated_id env) = true ->
  Spec.verifies env' (Spec.callback r (generated_id env)) = true ->
  accepting env' ->
  let id := generated_id env in
  let total := (getCartTotal (cart st) * 1.18)%float in
  let w1 := snd (handlePayment env st w) in
  let w2 := snd (POST env' (parsed (Spec.callback r id)) w1) in
  cook_payments (db w2)
  = (cook_payments (db w)
     ++ [CookPayment.Build (CartItem.cook_id first) id total "pending" (now env);
         CookPayment.Build (CartItem.cook_id first) id total "pending" (now env')])%list
  /\ Spec.payables id (db w2) = (2 + Spec.payables id (db w))%nat.
Proof.
  intros Hlogged Hu Hsession Hprofile Hcart Hcartok Hmethod Hloaded Hgateway Hquiet Hfresh
    Htruthy Hverifies Hquiet' id total w1 w2.
  subst w2 w1 id total.
  rewrite (online_success_run env st u user first rest Hlogged Hu Hsession Hprofile Hcart
             Hcartok (Hquiet _) (Hquiet _) w r Hmethod Hloaded Hgateway Hfresh).
  rewrite !Hquiet. cbn [snd].
  rewrite POST_verified by assumption. cbn [snd].
  rewrite (updateOrder_settles env' (Spec.callback r (generated_id env)) (generated_id env)
             (apply_patch (paid env r) (the_order env st u user first))).
  2: reflexivity.
  2: exact Htruthy.
  2: exact Hquiet'.
  2:{ cbn [db orders]. rewrite filter_app. cbn [filter].
      rewrite (filter_absent _ _ Hfresh). cbn [app].
      change (has_id (generated_id env)
                (apply_patch (paid env r) (the_order env st u user first)))
        with (has_id (Order.id (the_order env st u user first))
                (the_order env st u user first)).
      rewrite has_own_id. reflexivity. }
  cbn [snd db cook_payments].
  assert (Hrows : ((cook_payments (db w)
                   ++ [inserted_cook_payment env
                         (cookPaymentOf env first (the_order env st u user first)
                            (getCartTotal (cart st) * 1.18)%float)])
                  ++ [inserted_cook_payment env'
                        (cookPayment
                           (apply_patch (paidPatch env' (Spec.callback r (generated_id env)))
                              (apply_patch (paid env r) (the_order env st u user first)))
                           (generated_id env))]
                  = cook_payments (db w)
                    ++ [CookPayment.Build (CartItem.cook_id first) (generated_id env)
                          (getCartTotal (cart st) * 1.18)%float "pending" (now env);
                        CookPayment.Build (CartItem.cook_id first) (generated_id env)
                          (getCartTotal (cart st) * 1.18)%float "pending" (now env')])%list).
  { rewrite <- app_assoc. reflexivity. }
  rewrite Hrows. split; [reflexivity|].
  unfold Spec.payables. cbn [cook_payments].
  rewrite !filter_app, !length_app. cbn [filter CookPayment.order_id].
  rewrite String.eqb_refl. cbn [List.length]. lia.
Qed.

(** ** The auth provider *)

Ltac provide :=
  repeat (progress
    (unfold AuthProvider.loadSession, AuthProvider.onAuthStateChange,
       AuthProvider.refreshProfile, AuthProvider.signOut, AuthProvider.loadProfile,
       AuthProvider.fetchProfile, AuthProvider.setSession, AuthProvider.setUser,
       AuthProvider.setProfile, AuthProvider.setIsLoading, AuthProvider.setError,
       AuthProvider.console_error, AuthProvider.spread,
       Eff.try_finally, Eff.try_catch, Eff.bind, Eff.ret, Eff.throw, Eff.modify;
     cbn [AuthProvider.session AuthProvider.user AuthProvider.profile
          AuthProvider.isLoading AuthProvider.error AuthProvider.console fst snd negb])).

(** The same, up to the load of the profile. *)
Ltac provide_up_to_profile :=
  repeat (progress
    (unfold AuthProvider.loadSession, AuthProvider.onAuthStateChange,
       AuthProvider.refreshProfile, AuthProvider.signOut,
       AuthProvider.setSession, AuthProvider.setUser,
       AuthProvider.setProfile, AuthProvider.setIsLoading, AuthProvider.setError,
       AuthProvider.console_error,
       Eff.try_finally, Eff.try_catch, Eff.bind, Eff.ret, Eff.throw, Eff.modify;
     cbn [AuthProvider.session AuthProvider.user AuthProvider.profile
          AuthProvider.isLoading AuthProvider.error AuthProvider.console fst snd negb])).

(** The profile that the provider ends with for a user. *)
Lemma loadProfile_sets_a_profile (backend : AuthProvider.Backend) (u : AuthProvider.User.t)
    (st : AuthProvider.State) :
  exists p message lines,
    AuthProvider.loadProfile backend u st
    = (Returned tt,
       AuthProvider.MkState (AuthProvider.session st) (AuthProvider.user st) (Some p)
         (AuthProvider.isLoading st) message
         (AuthProvider.console st ++ lines))
    /\ p = match AuthProvider.users_single backend (AuthProvider.User.id u) with
           | AuthProvider.profile_row row => row
           | _ => AuthProvider.basic u
           end
    /\ message = match AuthProvider.users_single backend (AuthProvider.User.id u) with
                 | AuthProvider.profile_error code =>
                     if String.eqb code "PGRST116" then AuthProvider.error st
                     else Some "Failed to load user profile"
                 | _ => AuthProvider.error st
                 end.
Proof.
  provide.
  destruct (AuthProvider.users_single backend (AuthProvider.User.id u)) as [row|code|e];
    provide.
  - exists row, (AuthProvider.error st), []. rewrite app_nil_r. repeat split.
  - destruct (String.eqb code "PGRST116"); provide.
    + exists (AuthProvider.basic u), (AuthProvider.error st), []. rewrite app_nil_r.
      repeat split.
    + eexists _, _, _. repeat split.
  - eexists _, _, _. repeat split.
Qed.

(** X27. [loadSession] always settles, and a session with a user always
    ends with a profile: the row of the user when it can be read, the basic
    info (id and email) otherwise, also when the table cannot be read, in
    which case the provider says Failed to load user profile beside the
    profile. A failing [getSession] gives Authentication error and leaves
    session, user and profile as they were; with no session the session is
    set to null while user and profile stay what they were. *)
Theorem loadSession_leaves_a_profile_for_every_user
    (backend : AuthProvider.Backend) (st : AuthProvider.State) :
  let st' := snd (AuthProvider.loadSession backend st) in
  fst (AuthProvider.loadSession backend st) = Returned tt
  /\ AuthProvider.isLoading st' = false
  /\ (forall u,
        AuthProvider.getSession backend
        = AuthProvider.session_data (Some (AuthProvider.Session.Build (Some u))) ->
        AuthProvider.user st' = Some u
        /\ AuthProvider.session st' = Some (AuthProvider.Session.Build (Some u))
        /\ AuthProvider.profile st'
           = Some match AuthProvider.users_single backend (AuthProvider.User.id u) with
                  | AuthProvider.profile_row row => row
                  | _ => AuthProvider.basic u
                  end
        /\ AuthProvider.error st'
           = match AuthProvider.users_single backend (AuthProvider.User.id u) with
             | AuthProvider.profile_error code =>
                 if String.eqb code "PGRST116" then None
                 else Some "Failed to load user profile"
             | _ => None
             end)
  /\ (forall e,
        AuthProvider.getSession backend = AuthProvider.session_error e ->
        AuthProvider.error st' = Some "Authentication error"
        /\ AuthProvider.session st' = AuthProvider.session st
        /\ AuthProvider.user st' = AuthProvider.user st
        /\ AuthProvider.profile st' = AuthProvider.profile st)
  /\ (forall s,
        AuthProvider.getSession backend = AuthProvider.session_data s ->
        (s = None \/ s = Some (AuthProvider.Session.Build None)) ->
        AuthProvider.error st' = None
        /\ AuthProvider.session st' = s
        /\ AuthProvider.user st' = AuthProvider.user st
        /\ AuthProvider.profile st' = AuthProvider.profile st).
Proof.
  cbv zeta.
  destruct (AuthProvider.getSession backend) as [[[[u|]]|]|e] eqn:Hs.
  - pose proof (loadProfile_sets_a_profile backend u
                  (AuthProvider.MkState (Some (AuthProvider.Session.Build (Some u)))
                     (Some u) (AuthProvider.profile st) true None (AuthProvider.console st)))
      as (p & message & lines & Hrun & Hp & Hm).
    cbn [AuthProvider.session AuthProvider.user AuthProvider.profile AuthProvider.isLoading
         AuthProvider.error AuthProvider.console] in Hrun, Hm.
    provide_up_to_profile. rewrite Hs. provide_up_to_profile. rewrite !Hrun.
    provide_up_to_profile.
    split; [reflexivity|]. split; [reflexivity|].
    split; [|split; [intros e H; discriminate H|]].
    + intros u' H. injection H as <-. split; [reflexivity|]. split; [reflexivity|].
      split; [rewrite Hp; reflexivity|exact Hm].
    + intros s H [->| ->]; discriminate H.
  - provide. rewrite Hs. provide.
    split; [reflexivity|]. split; [reflexivity|].
    split; [intros u H; discriminate H|]. split; [intros e H; discriminate H|].
    intros s H _. injection H as <-. repeat split.
  - provide. rewrite Hs. provide.
    split; [reflexivity|]. split; [reflexivity|].
    split; [intros u H; discriminate H|]. split; [intros e H; discriminate H|].
    intros s H _. injection H as <-. repeat split.
  - provide. rewrite Hs. provide.
    split; [reflexivity|]. split; [reflexivity|].
    split; [intros u H; discriminate H|]. split; [|intros s H; discriminate H].
    intros e' _. repeat split.
Qed.

(** X28. [signOut] clears the profile and nothing else: the user and the
    session of the provider stay until the listener of the auth state is
    called. In between [refreshProfile], which looks at the user only, loads
    a profile again; the listener, called without a session, clears session,
    user and profile. *)
Theorem signOut_clears_only_the_profile
    (backend : AuthProvider.Backend) (st : AuthProvider.State) (u : AuthProvider.User.t) :
  AuthProvider.user st = Some u ->
  let st1 := snd (AuthProvider.signOut st) in
  let st2 := snd (AuthProvider.refreshProfile backend st1) in
  let st3 := snd (AuthProvider.onAuthStateChange backend None st1) in
  AuthProvider.profile st1 = None
  /\ AuthProvider.user st1 = Some u
  /\ AuthProvider.session st1 = AuthProvider.session st
  /\ AuthProvider.profile st2
     = Some match AuthProvider.users_single backend (AuthProvider.User.id u) with
            | AuthProvider.profile_row row => row
            | _ => AuthProvider.basic u
            end
  /\ AuthProvider.isLoading st2 = false
  /\ AuthProvider.session st3 = None
  /\ AuthProvider.user st3 = None
  /\ AuthProvider.profile st3 = None.
Proof.
  intros Hu. cbv zeta.
  split; [reflexivity|]. split; [exact Hu|]. split; [reflexivity|].
  split; [|split; [|repeat split]].
  - provide_up_to_profile. rewrite Hu. provide_up_to_profile.
    match goal with
    | |- context [AuthProvider.loadProfile backend u ?s] =>
        pose proof (loadProfile_sets_a_profile backend u s)
          as (p & message & lines & Hrun & Hp & _); rewrite !Hrun
    end.
    provide_up_to_profile. rewrite Hp. reflexivity.
  - provide_up_to_profile. rewrite Hu. provide_up_to_profile.
    match goal with
    | |- context [AuthProvider.loadProfile backend u ?s] =>
        pose proof (loadProfile_sets_a_profile backend u s)
          as (p & message & lines & Hrun & _ & _); rewrite !Hrun
    end.
    reflexivity.
Qed.

(** ** The theorems at the scenarios *)

(** X8: the theorem at a student whose row cannot be read. *)
Lemma failed_load_is_reported_witness :
  let v' := snd (checkAuth Students.unreadable (initial_view [Sample.item_A])) in
  load_fails Students.unreadable "Failed to load user data: permission denied for table users"
  /\ view_error v' = Some "Failed to load user data: permission denied for table users"
  /\ isLoggedIn (view_page v') = true
  /\ userData (view_page v') = None
  /\ checkoutDisabled (view_page v') = true
  /\ cardContent (view_page v') = profile_link.
Proof.
  cbv zeta.
  assert (Hfails : load_fails Students.unreadable
                     "Failed to load user data: permission denied for table users").
  { exact (profile_fails Students.unreadable "user-1" "42501"
             "permission denied for table users" eq_refl eq_refl eq_refl). }
  split; [exact Hfails|].
  destruct (failed_load_is_reported Students.unreadable (initial_view [Sample.item_A])
              "Failed to load user data: permission denied for table users" Hfails)
    as (Herror & _ & Hdisabled).
  split; [exact Herror|]. split; [reflexivity|]. split; [reflexivity|].
  split; [exact (proj1 (Hdisabled eq_refl))|reflexivity].
Defined.

(** X9: the theorem at a student who has no row yet. *)
Lemma missing_profile_row_witness :
  let v' := snd (checkAuth Students.without_row (initial_view [Sample.item_A])) in
  getSession Students.without_row = got_session (Some "user-1")
  /\ userData (view_page v')
     = Some (UserData.Build "user-1" "asha@example.org" "" "" "" empty_address)
  /\ checkoutDisabled (view_page v') = true
  /\ incompleteProfileAlert (view_page v') = true.
Proof.
  cbv zeta. split; [reflexivity|].
  destruct (missing_profile_row_gives_empty_profile Students.without_row
              (initial_view [Sample.item_A]) "user-1"
              "JSON object requested, multiple (or no) rows returned"
              (Some "asha@example.org") eq_refl eq_refl eq_refl)
    as (Hdata & _ & _ & Halert & Hdisabled & _).
  split; [exact Hdata|]. split; [exact Hdisabled|exact Halert].
Defined.

(** X10: the theorem at the student of the scenarios, and at one with no
    row. *)
Lemma loaded_profile_is_complete_iff_witness :
  userData (view_page (initial_view [Sample.item_A])) = None
  /\ hasCompleteProfile
       (view_page (snd (checkAuth Students.known (initial_view [Sample.item_A])))) = true
  /\ hasCompleteProfile
       (view_page (snd (checkAuth Students.without_row (initial_view [Sample.item_A]))))
     = false.
Proof.
  split; [reflexivity|]. split.
  - rewrite (loaded_profile_is_complete_iff Students.known (initial_view [Sample.item_A])
               eq_refl).
    reflexivity.
  - rewrite (loaded_profile_is_complete_iff Students.without_row
               (initial_view [Sample.item_A]) eq_refl).
    reflexivity.
Defined.

(** X11: the theorem at the online scenario, the widget dismissed. *)
Lemma unfinished_payment_witness :
  let env := Sample.env_with Sample.no_error ondismiss in
  let st := Sample.checkout "online" true Sample.student [Sample.item_A] in
  let w' := snd (handlePayment env st (Sample.start st)) in
  gateway env = ondismiss
  /\ map (fun o => (Order.status o, Order.payment_status o, Order.payment_id o))
       (orders (db w'))
     = [("payment_failed", "failed", None)]
  /\ cook_payments (db w') = []
  /\ cart (page w') = [Sample.item_A].
Proof.
  cbv zeta. split; [reflexivity|].
  destruct (unfinished_payment_marks_the_order_failed
              (Sample.env_with Sample.no_error ondismiss)
              (Sample.checkout "online" true Sample.student [Sample.item_A])
              Sample.student "user-1" Sample.item_A []
              eq_refl eq_refl eq_refl eq_refl eq_refl eq_refl eq_refl eq_refl
              (Sample.start (Sample.checkout "online" true Sample.student [Sample.item_A]))
              eq_refl eq_refl (or_introl eq_refl) eq_refl)
    as (_ & Hpayables & _ & Hcart & _ & _ & _ & Hfailed & _).
  destruct (Hfailed eq_refl) as (Horders & _).
  split; [rewrite Horders; reflexivity|].
  split; [exact Hpayables|exact Hcart].
Defined.

(** X12: the theorem at the online scenario, the backend refusing the
    update of the Order and the insert of the Payable. *)
Lemma online_success_is_reported_witness :
  let env := Sample.env_with Cases.after_payment_fail (handler Sample.pay_1) in
  let st := Sample.checkout "online" true Sample.student [Sample.item_A] in
  let w' := snd (handlePayment env st (Sample.start st)) in
  gateway env = handler Sample.pay_1
  /\ In (toast "Payment successful!" "Your order has been placed and payment received."
           false) (log w')
  /\ cart (page w') = []
  /\ map (fun o => (Order.status o, Order.payment_status o)) (orders (db w'))
     = [("pending", "pending")]
  /\ cook_payments (db w') = [].
Proof.
  cbv zeta. split; [reflexivity|].
  destruct (online_success_is_reported_whatever_the_backend_says
              (Sample.env_with Cases.after_payment_fail (handler Sample.pay_1))
              (Sample.checkout "online" true Sample.student [Sample.item_A])
              Sample.student "user-1" Sample.item_A []
              eq_refl eq_refl eq_refl eq_refl eq_refl eq_refl eq_refl eq_refl
              (Sample.start (Sample.checkout "online" true Sample.student [Sample.item_A]))
              Sample.pay_1 eq_refl eq_refl eq_refl eq_refl)
    as (_ & Hcart & _ & Htoast & _ & Hupdate & Hinsert).
  split; [exact Htoast|]. split; [exact Hcart|].
  destruct (Hupdate ltac:(discriminate)) as (Horders & _).
  destruct (Hinsert ltac:(discriminate)) as (Hpayables & _).
  split; [rewrite Horders; reflexivity|exact Hpayables].
Defined.


(** X14: the theorem at the student of the scenarios, from the first
    render of the page to the order. *)
Lemma loaded_user_places_cash_order_witness :
  let env := Sample.env_with Sample.no_error no_answer in
  let v' := snd (checkAuth Students.known (initial_view [Sample.item_A])) in
  row_complete Students.asha (Some "asha@example.org") = true
  /\ checkoutDisabled (view_page v') = false
  /\ exists order,
       orders (db (snd (onClick env (clicked Sample.empty_db v')))) = [order]
       /\ Order.user_id order = "user-1"
       /\ Order.delivery_address order = Sample.address
       /\ Order.total order = 236%float.
Proof.
  cbv zeta. split; [reflexivity|].
  destruct (loaded_user_places_cash_order Students.known
              (Sample.env_with Sample.no_error no_answer) Sample.empty_db
              (initial_view [Sample.item_A]) "user-1" Students.asha
              (Some "asha@example.org") Sample.item_A []
              eq_refl eq_refl eq_refl eq_refl eq_refl eq_refl eq_refl eq_refl eq_refl
              eq_refl eq_refl)
    as (Hdisabled & order & Hdb & Huser & Haddress & _ & Htotal & _).
  split; [exact Hdisabled|]. exists order.
  split; [rewrite Hdb; reflexivity|]. split; [exact Huser|].
  split; [injection Haddress as ->; reflexivity|].
  rewrite Htotal. reflexivity.
Defined.

(** X16: the theorem at 236 rupees. *)
Lemma paise_survive_the_round_trip_witness :
  0 <= 23600 <= 50000
  /\ toRupees 23600 = 236%float
  /\ toPaise (toRupees 23600) = 23600%float.
Proof.
  split; [lia|]. split; [reflexivity|].
  exact (paise_survive_the_round_trip 23600 ltac:(lia)).
Defined.

(** X17: the theorem at the cart of the scenario, 200 rupees. *)
Lemma whole_rupee_total_witness :
  let st := Sample.checkout "online" true Sample.student [Sample.item_A] in
  0 <= 200 <= 5000
  /\ getCartTotal (cart st) = Number.integer 200
  /\ subtotalShown (fun _ => "") (cart st) = "200.00"
  /\ taxShown (fun _ => "") (cart st) = "36.00"
  /\ totalShown (fun _ => "") (cart st) = "236.00"
  /\ PaymentParams.amount
       (paymentOptions Sample.student Sample.pending_order (getCartTotal (cart st) * 1.18)%float)
     = 23600%float
  /\ buttonLabel (fun _ => "") st = "Pay ₹236.00".
Proof.
  cbv zeta. split; [lia|]. split; [reflexivity|].
  destruct (whole_rupee_total_shown_is_charged (fun _ => "")
              (Sample.checkout "online" true Sample.student [Sample.item_A])
              Sample.student Sample.pending_order 200 ltac:(lia) eq_refl)
    as (Hsub & Htax & Htotal & Hamount & Hlabel).
  split; [exact Hsub|]. split; [exact Htax|]. split; [exact Htotal|].
  split; [exact Hamount|]. exact (Hlabel eq_refl eq_refl).
Defined.

(** X19: the theorem when nobody is signed in. *)
Lemma failed_fetch_witness :
  PaymentStatus.refuses Cases.nobody
  /\ PaymentStatus.render (snd (PaymentStatus.fetchPayments Cases.nobody PaymentStatus.initial))
     = PaymentStatus.error_card "Failed to load payment data".
Proof.
  split; [exact I|].
  exact (proj2 (failed_fetch_shows_one_message Cases.nobody PaymentStatus.initial I)).
Defined.

(** X20: the theorem at a cook with a pending payment of 236 and a
    completed one of 118. *)
Lemma fetched_payments_witness :
  let v' := snd (PaymentStatus.fetchPayments Cases.cook PaymentStatus.initial) in
  PaymentStatus.session_user Cases.cook = Some "cook-user-1"
  /\ map PaymentStatus.Payment.customer_name (PaymentStatus.payments v')
     = ["Asha null"; "Unknown Customer"]
  /\ PaymentStatus.totalEarnings v' = 354%float
  /\ PaymentStatus.pendingEarnings v' = 236%float.
Proof.
  cbv zeta. split; [reflexivity|].
  destruct (fetched_payments_are_totalled Cases.cook PaymentStatus.initial "cook-user-1"
              "cook-1" [Cases.pending_row; Cases.completed_row] eq_refl eq_refl eq_refl)
    as (_ & _ & Hpayments & Htotal & Hpending & _).
  rewrite Htotal, Hpending, Hpayments. repeat split.
Defined.

(** X24: the theorem at the script of the gateway, the network down. *)
Lemma loadScript_witness :
  let t1 := MkTab [razorpay_checkout_js] (tab_page Cases.tab) [] in
  selects Cases.offline (script_selector razorpay_checkout_js) razorpay_checkout_js = true
  /\ loadScript Cases.offline razorpay_checkout_js Cases.tab = (Returned false, t1)
  /\ loadScript Cases.offline razorpay_checkout_js t1 = (Returned true, t1).
Proof.
  cbv zeta. split; [reflexivity|]. split; [reflexivity|].
  exact (proj1 (loadScript_reports_a_failed_script_as_loaded Cases.offline
                  razorpay_checkout_js Cases.tab false
                  (MkTab [razorpay_checkout_js] (tab_page Cases.tab) [])
                  eq_refl eq_refl)).
Defined.

(** X26: the theorem at the online scenario of the spec, the response of
    the widget carrying the signature of the gateway. *)
Lemma paid_and_verified_witness :
  let env := Sample.env_with Sample.no_error (handler Cases.signed_response) in
  let st := Sample.checkout "online" true Sample.student [Sample.item_A] in
  let w1 := snd (handlePayment env st (Sample.start st)) in
  let w2 := snd (POST env (parsed (Spec.callback Cases.signed_response Sample.order_db_id))
                   w1) in
  Spec.verifies env (Spec.callback Cases.signed_response Sample.order_db_id) = true
  /\ cook_payments (db w2)
     = [CookPayment.Build "cook-1" Sample.order_db_id 236 "pending" 1700000000000;
        CookPayment.Build "cook-1" Sample.order_db_id 236 "pending" 1700000000000].
Proof.
  cbv zeta.
  assert (Hv : Spec.verifies
                 (Sample.env_with Sample.no_error (handler Cases.signed_response))
                 (Spec.callback Cases.signed_response Sample.order_db_id)
               = true) by (vm_compute; reflexivity).
  split; [exact Hv|].
  exact (proj1 (paid_on_the_page_and_verified_makes_two_payables
                  (Sample.env_with Sample.no_error (handler Cases.signed_response))
                  (Sample.env_with Sample.no_error (handler Cases.signed_response))
                  (Sample.checkout "online" true Sample.student [Sample.item_A])
                  Sample.student "user-1" Sample.item_A []
                  (Sample.start (Sample.checkout "online" true Sample.student
                                   [Sample.item_A]))
                  Cases.signed_response
                  eq_refl eq_refl eq_refl eq_refl eq_refl eq_refl eq_refl eq_refl eq_refl
                  (fun s => eq_refl) eq_refl eq_refl Hv (fun s => eq_refl))).
Defined.

(** X28: the theorem at the provider after it has loaded a user who has
    no row. *)
Lemma signOut_witness :
  let st := snd (AuthProvider.loadSession Cases.provider AuthProvider.initial) in
  let st1 := snd (AuthProvider.signOut st) in
  AuthProvider.user st = Some Cases.provider_user
  /\ AuthProvider.profile st = Some (AuthProvider.basic Cases.provider_user)
  /\ AuthProvider.profile st1 = None
  /\ AuthProvider.user st1 = Some Cases.provider_user
  /\ AuthProvider.profile (snd (AuthProvider.refreshProfile Cases.provider st1))
     = Some (AuthProvider.basic Cases.provider_user).
Proof.
  cbv zeta. split; [reflexivity|]. split; [reflexivity|].
  destruct (signOut_clears_only_the_profile Cases.provider
              (snd (AuthProvider.loadSession Cases.provider AuthProvider.initial))
              Cases.provider_user eq_refl)
    as (Hprofile & Huser & _ & Hrefreshed & _).
  split; [exact Hprofile|]. split; [exact Huser|]. exact Hrefreshed.
Defined.
